(** * Gym backend: membership periods, day passes, continuity and engagement

    A shallow embedding of the membership-period logic of the gym backend
    (routes/members.js, routes/public.js, routes/transactions.js and
    services/analyticsService.js) together with the properties that its
    specification states about it.

    Conventions of the embedding.
    - A JavaScript [Date] is its time value: an integer number of
      milliseconds since the epoch, a [Z].  All instants that occur are
      assumed finite and inside the range where doubles are exact integers,
      so subtraction, comparison and [Math.ceil] of a quotient are the
      integer operations below.
    - The local time zone has a fixed offset [tza] from UTC (no daylight
      saving); every function that reads or writes calendar fields takes it
      as its first argument.
    - The ambient clock ([new Date()]) is the explicit argument [now].
    - Money amounts are integers (rupiah have no minor unit).
    - What the store decides and the sources do not show (the matching of
      [contains], the unique index on the phone column, whether a
      transaction row with an unknown payment method is refused) is a
      parameter of the functions concerned. *)

From Stdlib Require Import ZArith List String Ascii Bool Lia Permutation Sorted.
Import ListNotations.
Open Scope Z_scope.

(** ** The Date object of the language (ECMAScript, sections 21.4.1.x) *)

Module JSDate.

Definition msPerDay : Z := 86400000.
Definition msPerHour : Z := 3600000.
Definition msPerMinute : Z := 60000.
Definition msPerSecond : Z := 1000.

Definition Day (t : Z) : Z := t / msPerDay.
Definition TimeWithinDay (t : Z) : Z := t mod msPerDay.

Definition DaysInYear (y : Z) : Z :=
  if negb (y mod 4 =? 0) then 365
  else if negb (y mod 100 =? 0) then 366
  else if negb (y mod 400 =? 0) then 365
  else 366.

Definition DayFromYear (y : Z) : Z :=
  365 * (y - 1970) + (y - 1969) / 4 - (y - 1901) / 100 + (y - 1601) / 400.

Definition InLeapYearOf (y : Z) : Z := if DaysInYear y =? 366 then 1 else 0.

(** [YearFromTime t] is the largest [y] with [DayFromYear y <= Day t]; it is
    computed from an estimate that is off by at most one year. *)
Definition YearFromDay (d : Z) : Z :=
  let y0 := 1970 + (400 * d) / 146097 in
  if d <? DayFromYear y0 then y0 - 1
  else if DayFromYear (y0 + 1) <=? d then y0 + 1
  else y0.

Definition YearFromTime (t : Z) : Z := YearFromDay (Day t).
Definition InLeapYear (t : Z) : Z := InLeapYearOf (YearFromTime t).
Definition DayWithinYear (t : Z) : Z := Day t - DayFromYear (YearFromTime t).

(** Number of days of the year that precede month [m] (0 = January). *)
Definition DaysBeforeMonth (m leap : Z) : Z :=
  if m <=? 0 then 0
  else if m =? 1 then 31
  else if m =? 2 then 59 + leap
  else if m =? 3 then 90 + leap
  else if m =? 4 then 120 + leap
  else if m =? 5 then 151 + leap
  else if m =? 6 then 181 + leap
  else if m =? 7 then 212 + leap
  else if m =? 8 then 243 + leap
  else if m =? 9 then 273 + leap
  else if m =? 10 then 304 + leap
  else if m =? 11 then 334 + leap
  else 365 + leap.

Definition MonthFromDay (dwy leap : Z) : Z :=
  if dwy <? 31 then 0
  else if dwy <? 59 + leap then 1
  else if dwy <? 90 + leap then 2
  else if dwy <? 120 + leap then 3
  else if dwy <? 151 + leap then 4
  else if dwy <? 181 + leap then 5
  else if dwy <? 212 + leap then 6
  else if dwy <? 243 + leap then 7
  else if dwy <? 273 + leap then 8
  else if dwy <? 304 + leap then 9
  else if dwy <? 334 + leap then 10
  else 11.

Definition MonthFromTime (t : Z) : Z :=
  MonthFromDay (DayWithinYear t) (InLeapYear t).

Definition DateFromTime (t : Z) : Z :=
  DayWithinYear t - DaysBeforeMonth (MonthFromTime t) (InLeapYear t) + 1.

Definition DaysInMonth (y m : Z) : Z :=
  DaysBeforeMonth (m + 1) (InLeapYearOf y) - DaysBeforeMonth m (InLeapYearOf y).

Definition MakeTime (h m s ms : Z) : Z :=
  h * msPerHour + m * msPerMinute + s * msPerSecond + ms.

(** [MakeDay]: the day number of the first of month [month mod 12] of year
    [year + month / 12], plus [date - 1]. *)
Definition MakeDay (year month date : Z) : Z :=
  let ym := year + month / 12 in
  let mn := month mod 12 in
  DayFromYear ym + DaysBeforeMonth mn (InLeapYearOf ym) + date - 1.

Definition MakeDate (day time : Z) : Z := day * msPerDay + time.

Section Zone.
Variable tza : Z.

Definition LocalTime (t : Z) : Z := t + tza.
Definition UTC (t : Z) : Z := t - tza.

Definition getFullYear (t : Z) : Z := YearFromTime (LocalTime t).
Definition getMonth (t : Z) : Z := MonthFromTime (LocalTime t).
Definition getDate (t : Z) : Z := DateFromTime (LocalTime t).

(** [d.setHours(h, m, s, ms)] *)
Definition setHours (t h m s ms : Z) : Z :=
  UTC (MakeDate (Day (LocalTime t)) (MakeTime h m s ms)).

(** [d.setDate(dt)] *)
Definition setDate (t dt : Z) : Z :=
  let lt := LocalTime t in
  UTC (MakeDate (MakeDay (YearFromTime lt) (MonthFromTime lt) dt)
                (TimeWithinDay lt)).

(** [d.setMonth(m)] *)
Definition setMonth (t m : Z) : Z :=
  let lt := LocalTime t in
  UTC (MakeDate (MakeDay (YearFromTime lt) m (DateFromTime lt))
                (TimeWithinDay lt)).
End Zone.

(** The instant of local midnight that begins calendar day [y]-[m]-[d]
    ([m] is 1-based here, as in written dates). *)
Definition civil (tza y m d : Z) : Z := UTC tza (MakeDate (MakeDay y (m - 1) d) 0).

(** [Math.ceil(x / (1000 * 60 * 60 * 24))] for an integer [x]. *)
Definition ceilDays (x : Z) : Z := - ((- x) / msPerDay).

(** [Math.round(a / b)] for integers [a] and [b > 0]: nearest integer,
    halves towards plus infinity. *)
Definition roundDiv (a b : Z) : Z := (2 * a + b) / (2 * b).

End JSDate.

Import JSDate.

(** ** Data model (the rows the routes read and write) *)

Record Member := {
  m_id : Z;
  m_name : string;
  m_phone : option string;
  membershipType : string;
  m_startDate : Z;
  m_endDate : Z;
  isActive : bool
}.

Record MembershipPackage := {
  pk_id : Z;
  pk_name : string;
  durationMonths : Z;
  price : Z
}.

Record Transaction := {
  t_id : Z;
  t_memberId : Z;
  t_packageId : Z;
  t_paymentMethodId : Z;
  amount : Z;
  t_packageName : string;
  packageDuration : Z;
  t_notes : string
}.

Record MembershipPeriod := {
  p_id : Z;
  memberId : Z;
  startDate : Z;
  endDate : Z;
  packageName : string;
  duration : Z;
  status : string;
  transactionId : option Z
}.

(** A period as the history route loads it: with its transaction included
    ([include: { transaction: ... }]), [None] when the period has none. *)
Record PeriodWithTransaction := {
  period : MembershipPeriod;
  transaction : option Transaction
}.

(** The tables of the store (prisma.member, prisma.membershipPackage,
    prisma.transaction, prisma.membershipPeriod). *)
Record DB := {
  db_member : list Member;
  db_membershipPackage : list MembershipPackage;
  db_transaction : list Transaction;
  db_membershipPeriod : list MembershipPeriod
}.

(** ** Array helpers *)

Section Sorting.
Context {A : Type}.
(** [before a b] holds when the comparator does not put [b] strictly
    before [a]. *)
Variable before : A -> A -> bool.

Fixpoint insertSorted (x : A) (l : list A) : list A :=
  match l with
  | [] => [x]
  | y :: l' => if before x y then x :: y :: l' else y :: insertSorted x l'
  end.

(** [Array.prototype.sort] with a comparator is stable: elements that
    compare equal keep their order. *)
Fixpoint sortBy (l : list A) : list A :=
  match l with
  | [] => []
  | x :: l' => insertSorted x (sortBy l')
  end.
End Sorting.

Definition sum (l : list Z) : Z := fold_left Z.add l 0.

Definition sevenDays : Z := 7 * 24 * 60 * 60 * 1000.

(** ** services/analyticsService.js *)

Module Analytics.

(** A gap record; [g_startDate] and [g_endDate] are its [startDate] and
    [endDate] properties. *)
Record Gap := {
  afterPeriod : Z;
  beforePeriod : Z;
  days : Z;
  g_startDate : Z;
  g_endDate : Z
}.

(** The object [analyzeMembershipPattern] returns.  [averageGapDays] is
    [None] when the returned object has no such property. *)
Record Pattern := {
  totalPeriods : Z;
  totalDays : Z;
  totalSpent : Z;
  averageDuration : Z;
  gaps : list Gap;
  loyaltyScore : Z;
  membershipType : string;
  averageGapDays : option Z
}.

Definition byStartDate (a b : PeriodWithTransaction) : bool :=
  startDate (period a) <=? startDate (period b).

(** The [forEach] that accumulates [totalDays] and [totalSpent]. *)
Definition accumulate (acc : Z * Z) (p : PeriodWithTransaction) : Z * Z :=
  let '(totalDays, totalSpent) := acc in
  let days := ceilDays (endDate (period p) - startDate (period p)) in
  (totalDays + days,
   match transaction p with
   | Some tx => totalSpent + amount tx
   | None => totalSpent
   end).

(** The [for (let i = 1; ...)] loop that collects the gaps; [prev] is
    [sortedPeriods[i - 1]]. *)
Fixpoint gapsFrom (i : Z) (prev : PeriodWithTransaction)
         (rest : list PeriodWithTransaction) : list Gap :=
  match rest with
  | [] => []
  | cur :: rest' =>
      let prevEnd := endDate (period prev) in
      let currentStart := startDate (period cur) in
      let gapDays := ceilDays (currentStart - prevEnd) in
      (if 0 <? gapDays
       then [ {| afterPeriod := i - 1; beforePeriod := i; days := gapDays;
                 g_startDate := prevEnd; g_endDate := currentStart |} ]
       else [])
      ++ gapsFrom (i + 1) cur rest'
  end.

Definition collectGaps (sortedPeriods : list PeriodWithTransaction) : list Gap :=
  match sortedPeriods with
  | [] => []
  | p :: rest => gapsFrom 1 p rest
  end.

Definition analyzeMembershipPattern (periods : list PeriodWithTransaction) : Pattern :=
  match periods with
  | [] =>
      {| totalPeriods := 0; totalDays := 0; totalSpent := 0;
         averageDuration := 0; gaps := []; loyaltyScore := 0;
         membershipType := "new"%string; averageGapDays := None |}
  | _ =>
      let sortedPeriods := sortBy byStartDate periods in
      let '(totalDays, totalSpent) := fold_left accumulate sortedPeriods (0, 0) in
      let gaps := collectGaps sortedPeriods in
      let totalPeriods := Z.of_nat (List.length periods) in
      (* [averageDuration] is the quotient totalDays / totalPeriods, not yet
         rounded; [averageDuration > 30] is [30 * totalPeriods < totalDays] *)
      let totalGapDays := sum (map days gaps) in
      let loyaltyScore :=
        (if 3 <=? totalPeriods then 30 else 0)
        + (if totalGapDays <? 30 then 25 else 0)
        + (if 30 * totalPeriods <? totalDays then 25 else 0)
        + (if 1000000 <? totalSpent then 20 else 0) in
      let membershipType :=
        if 5 <=? totalPeriods then "loyal"%string
        else if 3 <=? totalPeriods then "returning"%string
        else if totalPeriods =? 2 then "second_time"%string
        else "new"%string in
      {| totalPeriods := totalPeriods;
         totalDays := totalDays;
         totalSpent := totalSpent;
         averageDuration := roundDiv totalDays totalPeriods;
         gaps := gaps;
         loyaltyScore := Z.min 100 loyaltyScore;
         membershipType := membershipType;
         averageGapDays :=
           Some (if 0 <? Z.of_nat (List.length gaps)
                 then roundDiv totalGapDays (Z.of_nat (List.length gaps))
                 else 0) |}
  end.

(** The loyalty score in the words of the specification, from the other
    fields of the summary: the gap bonus looks at the mean gap. *)
Definition specLoyaltyScore (r : Pattern) : Z :=
  let gapDays := map days (gaps r) in
  (* mean gap < 30, the mean of no gaps being 0 *)
  let shortGaps :=
    match gapDays with
    | [] => true
    | _ => sum gapDays <? 30 * Z.of_nat (List.length gapDays)
    end in
  Z.min 100
    ((if 3 <=? totalPeriods r then 30 else 0)
     + (if shortGaps then 25 else 0)
     + (if 30 <? averageDuration r then 25 else 0)
     + (if 1000000 <? totalSpent r then 20 else 0)).

End Analytics.

(** ** The queries the routes issue against the store *)

Module Store.

Definition byEndDateDesc (a b : MembershipPeriod) : bool :=
  endDate b <=? endDate a.

Definition isActiveStatus (p : MembershipPeriod) : bool :=
  String.eqb (status p) "active".

(** [membershipPeriod.findMany({ where: { memberId }, orderBy: { endDate: 'desc' } })] *)
Definition findAllPeriods (db : DB) (id : Z) : list MembershipPeriod :=
  sortBy byEndDateDesc
    (filter (fun p => memberId p =? id) (db_membershipPeriod db)).

(** [findMany({ where: { memberId, status: 'active' }, orderBy: { endDate: 'desc' } })] *)
Definition findActivePeriods (db : DB) (id : Z) : list MembershipPeriod :=
  sortBy byEndDateDesc
    (filter (fun p => (memberId p =? id) && isActiveStatus p) (db_membershipPeriod db)).

(** [findMany({ where: { memberId: { in: ids }, status: 'active', endDate: { gt: now } },
               orderBy: { endDate: 'desc' } })]; the check-in passes one id. *)
Definition findCurrentPeriods (db : DB) (ids : list Z) (now : Z) : list MembershipPeriod :=
  sortBy byEndDateDesc
    (filter (fun p => existsb (Z.eqb (memberId p)) ids
                      && isActiveStatus p && (now <? endDate p))
            (db_membershipPeriod db)).

(** [membershipPackage.findFirst({ where: { name: 'Day Pass', durationMonths: 0 } })] *)
Definition findDayPassPackage (db : DB) : option MembershipPackage :=
  find (fun k => String.eqb (pk_name k) "Day Pass" && (durationMonths k =? 0))
       (db_membershipPackage db).

(** Auto-increment key of a table. *)
Definition nextId {A : Type} (idOf : A -> Z) (rows : list A) : Z :=
  1 + fold_left Z.max (map idOf rows) 0.

(** The period history of a member, in table order. *)
Definition periodsOf (db : DB) (id : Z) : list MembershipPeriod :=
  filter (fun p => memberId p =? id) (db_membershipPeriod db).

(** [DELETE /:id] of routes/members.js.  The three deletes run in one
    transaction; [member.delete] raises P2025 when the member does not
    exist, which rolls everything back and answers 404. *)
Definition deleteMember (id : Z) (db : DB) : Z * DB :=
  let periods' := filter (fun p => negb (memberId p =? id)) (db_membershipPeriod db) in
  let transactions' := filter (fun t => negb (t_memberId t =? id)) (db_transaction db) in
  if existsb (fun m => m_id m =? id) (db_member db)
  then (200, {| db_member := filter (fun m => negb (m_id m =? id)) (db_member db);
                db_membershipPackage := db_membershipPackage db;
                db_transaction := transactions';
                db_membershipPeriod := periods' |})
  else (404, db).

End Store.

(** ** Period bounds of a purchase (routes/members.js, routes/transactions.js,
       routes/public.js) *)

Module TemporalPolicy.

Section Zone.
Variable tza : Z.

(** [d.setDate(d.getDate() + 1)] *)
Definition nextDay (t : Z) : Z := setDate tza t (getDate tza t + 1).
(** [d.setHours(0, 0, 0, 0)] *)
Definition startOfDay (t : Z) : Z := setHours tza t 0 0 0 0.
(** [d.setHours(23, 59, 59, 999)] *)
Definition endOfDay (t : Z) : Z := setHours tza t 23 59 59 999.
(** [d.setMonth(d.getMonth() + n)] *)
Definition addMonths (t n : Z) : Z := setMonth tza t (getMonth tza t + n).

(** The [reduce] callback that keeps the later end date. *)
Definition laterEnd (latest : Z) (period : MembershipPeriod) : Z :=
  let periodEnd := endDate period in
  if latest <? periodEnd then periodEnd else latest.

(** [POST /] of routes/members.js: end date of the initial period. *)
Definition createMemberEnd (startDate duration_months : Z) : Z :=
  if duration_months =? 0 then endOfDay startDate
  else addMonths startDate duration_months.

(** [POST /] of routes/transactions.js: bounds of the period that comes
    with a recorded transaction. *)
Definition transactionPeriod (transactionDate durationMonths : Z) : Z * Z :=
  let startDate := transactionDate in
  (startDate, addMonths startDate durationMonths).

(** [POST /:id/renew]: [(newStartDate, newEndDate)]. *)
Definition renewDates (now : Z) (member : Member)
           (allPeriods : list MembershipPeriod) (pkg : MembershipPackage) : Z * Z :=
  let currentEndDate := m_endDate member in
  if durationMonths pkg =? 0 then
    let newStartDate :=
      match allPeriods with
      | first :: _ =>
          let latestEndDate := fold_left laterEnd allPeriods (endDate first) in
          startOfDay (nextDay latestEndDate)
      | [] =>
          let d := if now <? currentEndDate then currentEndDate else now in
          let d := if (d =? currentEndDate) && (now <? currentEndDate)
                   then nextDay d else d in
          startOfDay d
      end in
    (newStartDate, endOfDay newStartDate)
  else
    let newStartDate :=
      match allPeriods with
      | first :: _ =>
          let latestEndDate := fold_left laterEnd allPeriods (endDate first) in
          if now <? latestEndDate
          then startOfDay (nextDay latestEndDate)
          else now
      | [] =>
          let d := if now <? currentEndDate then currentEndDate else now in
          if (d =? currentEndDate) && (now <? currentEndDate)
          then nextDay d else d
      end in
    (newStartDate, addMonths newStartDate (durationMonths pkg)).

Definition renew (db : DB) (now : Z) (member : Member) (pkg : MembershipPackage) : Z * Z :=
  renewDates now member (Store.findAllPeriods db (m_id member)) pkg.

(** [POST /with-transaction], the Day Pass branch (duration_months = 0):
    [(periodStartDate, periodEndDate)].  [existingMember] is the member
    found by phone, if any. *)
Definition withTransactionDayPass (db : DB) (now : Z)
           (existingMember : option Member) : Z * Z :=
  let periodStartDate :=
    match existingMember with
    | Some member =>
        let allPeriods := Store.findAllPeriods db (m_id member) in
        match allPeriods with
        | first :: _ =>
            let latestEndDate := fold_left laterEnd allPeriods (endDate first) in
            startOfDay (nextDay latestEndDate)
        | [] =>
            let memberEndDate := m_endDate member in
            let today := now in
            if today <? memberEndDate
            then startOfDay (nextDay memberEndDate)
            else startOfDay now
        end
    | None => startOfDay now
    end in
  (periodStartDate, endOfDay periodStartDate).

(** [POST /with-transaction], a regular product: the dates come from the
    supplied [start_date]. *)
Definition withTransactionRegular (start_date duration_months : Z) : Z * Z :=
  let startDate := start_date in
  (startDate, addMonths startDate duration_months).

(** [POST /checkin] with [createDayPass]: [(dayPassStart, dayPassEnd)]. *)
Definition checkinDayPass (db : DB) (now : Z) (member : Member) : Z * Z :=
  let allPeriods := Store.findActivePeriods db (m_id member) in
  let dayPassStart :=
    match allPeriods with
    | first :: _ =>
        let latestEndDate := fold_left laterEnd allPeriods (endDate first) in
        nextDay latestEndDate
    | [] =>
        let memberEndDate := m_endDate member in
        let today := now in
        if today <? memberEndDate then nextDay memberEndDate else now
    end in
  let dayPassStart := startOfDay dayPassStart in
  (dayPassStart, endOfDay dayPassStart).

(** Month addition in the words of the specification: the day of the
    month is kept, and clamped to the last day of the target month when
    that month is shorter. *)
Definition addMonthsClamped (t n : Z) : Z :=
  let lt := LocalTime tza t in
  let target := MonthFromTime lt + n in
  let ym := YearFromTime lt + target / 12 in
  let mn := target mod 12 in
  UTC tza (MakeDate (MakeDay ym mn (Z.min (DateFromTime lt) (DaysInMonth ym mn)))
                    (TimeWithinDay lt)).

(** What [d.setMonth(d.getMonth() + n)] makes of the calendar fields: the
    time of day stays; the month is the one [n] months later; the day of
    the month stays when that month has it, and otherwise the days in
    excess are counted into the month after. *)
Definition monthsLater (start n e : Z) : Prop :=
  let d := getDate tza start in
  let target := getMonth tza start + n in
  let ym := getFullYear tza start + target / 12 in
  let mn := target mod 12 in
  TimeWithinDay (LocalTime tza e) = TimeWithinDay (LocalTime tza start)
  /\ (d <= DaysInMonth ym mn ->
      getFullYear tza e = ym /\ getMonth tza e = mn /\ getDate tza e = d)
  /\ (DaysInMonth ym mn < d ->
      getFullYear tza e = ym + (mn + 1) / 12
      /\ getMonth tza e = (mn + 1) mod 12
      /\ getDate tza e = d - DaysInMonth ym mn).
End Zone.

End TemporalPolicy.

(** ** Remaining days and status (routes/members.js [POST /search],
       routes/public.js [POST /checkin]) *)

Module Continuity.

Definition byStartDate (a b : MembershipPeriod) : bool :=
  startDate a <=? startDate b.

(** Body of [for (const period of sortedPeriods)].  [currentDate] is set to
    [now] before the loop and is not assigned inside it. *)
Definition countPeriod (currentDate totalDays : Z) (period : MembershipPeriod) : Z :=
  let periodStart := startDate period in
  let periodEnd := endDate period in
  if currentDate <? periodStart then
    let daysInPeriod := ceilDays (periodEnd - periodStart) + 1 in
    totalDays + daysInPeriod
  else if currentDate <? periodEnd then
    let daysInPeriod := ceilDays (periodEnd - currentDate) in
    totalDays + daysInPeriod
  else totalDays.

Definition sumPeriods (now : Z) (periods : list MembershipPeriod) : Z :=
  let sortedPeriods := sortBy byStartDate periods in
  let currentDate := now in
  fold_left (countPeriod currentDate) sortedPeriods 0.

(** [totalRemainingDays] of the search route. *)
Definition searchRemainingDays (now : Z) (member : Member)
           (memberPeriods : list MembershipPeriod) : Z :=
  match memberPeriods with
  | _ :: _ => sumPeriods now memberPeriods
  | [] => ceilDays (m_endDate member - now)
  end.

(** [totalRemainingDays] of the check-in route. *)
Definition checkinRemainingDays (now : Z) (member : Member)
           (membershipPeriods : list MembershipPeriod) : Z :=
  let totalRemainingDays := ceilDays (m_endDate member - now) in
  match membershipPeriods with
  | _ :: _ => sumPeriods now membershipPeriods
  | [] => totalRemainingDays
  end.

Section Zone.
Variable tza : Z.

(** Date-only comparison used for Day Pass members. *)
Definition dayPassExpired (now endDate : Z) : bool :=
  let today := setHours tza now 0 0 0 0 in
  let endDateOnly := setHours tza endDate 0 0 0 0 in
  endDateOnly <? today.

Record MemberStatus := {
  statusLabel : string;
  daysRemaining : Z;
  activePeriods : Z
}.

(** One element of [membersWithStatus] in the search route. *)
Definition searchStatus (now : Z) (member : Member)
           (memberPeriods : list MembershipPeriod) : MemberStatus :=
  let totalRemainingDays := searchRemainingDays now member memberPeriods in
  let isExpired :=
    if String.eqb (membershipType member) "Day Pass"
    then dayPassExpired now (m_endDate member)
    else (m_endDate member <? now) && (totalRemainingDays <=? 0) in
  {| statusLabel :=
       if isExpired then "expired"%string
       else if (m_endDate member <=? now + sevenDays) && (totalRemainingDays <=? 7)
            then "expiring_soon"%string
            else "active"%string;
     daysRemaining := Z.max 0 totalRemainingDays;
     activePeriods := Z.of_nat (List.length memberPeriods) |}.

(** [periodsGrouped[member.id] || []]: the periods the grouping [reduce]
    files under the member, in the order of the query result. *)
Definition periodsGrouped (membershipPeriods : list MembershipPeriod)
           (member : Member) : list MembershipPeriod :=
  filter (fun p => memberId p =? m_id member) membershipPeriods.

(** The search route, from the members its query found. *)
Definition search (db : DB) (now : Z) (found : list Member) : list MemberStatus :=
  let memberIds := map m_id found in
  let membershipPeriods := Store.findCurrentPeriods db memberIds now in
  map (fun member =>
         let memberPeriods := periodsGrouped membershipPeriods member in
         searchStatus now member memberPeriods)
      found.

(** [isExpired] of the check-in route. *)
Definition checkinExpired (now : Z) (member : Member) : bool :=
  let endDate := m_endDate member in
  if String.eqb (membershipType member) "Day Pass"
  then dayPassExpired now endDate
  else endDate <? now.

Inductive CheckinResponse :=
| Refused (code : Z) (error : string)
| Welcome (member : MemberStatus) (newPeriod : option MembershipPeriod).

(** Whether the store takes a transaction row with this payment method
    id.  Check-in and [POST /with-transaction] insert the id of the request
    without looking the payment method up first; an insert that the store
    refuses (the schema with its reference from transaction to payment
    method is not part of the sources) throws, and the route answers 500. *)
Variable paymentAccepted : Z -> bool.

(** The check-in route from the point where the member lookup has
    answered; [paymentMethodId] is [None] when the request has none. *)
Definition checkin (db : DB) (now : Z) (lookup : option Member)
           (createDayPass : bool) (paymentMethodId : option Z)
  : CheckinResponse * DB :=
  match lookup with
  | None => (Refused 404 "Member not found", db)
  | Some member =>
      if negb (isActive member) then (Refused 403 "Member is inactive", db)
      else
        let endDate := m_endDate member in
        let isExpired := checkinExpired now member in
        if isExpired then (Refused 403 "Membership has expired", db)
        else
          let membershipPeriods := Store.findCurrentPeriods db [m_id member] now in
          let totalRemainingDays := checkinRemainingDays now member membershipPeriods in
          let expiringSoon :=
            (endDate <=? now + sevenDays) && (totalRemainingDays <=? 7) in
          let respond updatedRemainingDays newPeriod db' :=
            (Welcome
               {| statusLabel := if expiringSoon then "expiring_soon"%string
                                 else "active"%string;
                  daysRemaining := Z.max 0 updatedRemainingDays;
                  activePeriods :=
                    Z.of_nat (List.length membershipPeriods)
                    + (match newPeriod with Some _ => 1 | None => 0 end) |}
               newPeriod, db') in
          if createDayPass then
            match paymentMethodId with
            | None => (Refused 400 "Payment method required for day pass", db)
            | Some paymentMethodId =>
                match Store.findDayPassPackage db with
                | None => (Refused 404 "Day Pass package not found", db)
                | Some dayPassPackage =>
                    let '(dayPassStart, dayPassEnd) :=
                      TemporalPolicy.checkinDayPass tza db now member in
                    let transaction :=
                      {| t_id := Store.nextId t_id (db_transaction db);
                         t_memberId := m_id member;
                         t_packageId := pk_id dayPassPackage;
                         t_paymentMethodId := paymentMethodId;
                         amount := price dayPassPackage;
                         t_packageName := pk_name dayPassPackage;
                         packageDuration := 0;
                         t_notes := "Day Pass via check-in" |} in
                    if negb (paymentAccepted (t_paymentMethodId transaction)) then
                      (Refused 500 "Internal server error", db)
                    else
                    let period :=
                      {| p_id := Store.nextId p_id (db_membershipPeriod db);
                         memberId := m_id member;
                         startDate := dayPassStart;
                         endDate := dayPassEnd;
                         packageName := pk_name dayPassPackage;
                         duration := 0;
                         status := "active";
                         transactionId := Some (t_id transaction) |} in
                    let db' :=
                      {| db_member := db_member db;
                         db_membershipPackage := db_membershipPackage db;
                         db_transaction := db_transaction db ++ [transaction];
                         db_membershipPeriod := db_membershipPeriod db ++ [period] |} in
                    let updatedRemainingDays := totalRemainingDays + 1 in
                    respond updatedRemainingDays (Some period) db'
                end
            end
          else respond totalRemainingDays None db
  end.
End Zone.

(** *** The cursor walk in the words of the specification *)

(** One step: a period that starts after the cursor counts its whole
    inclusive span, any other counts what is left after the cursor; then the
    cursor moves to [max cursor end]. *)
Definition walkStep (acc : Z * Z) (p : MembershipPeriod) : Z * Z :=
  let '(total, cursor) := acc in
  (if cursor <? startDate p
   then total + (ceilDays (endDate p - startDate p) + 1)
   else total + ceilDays (endDate p - cursor),
   Z.max cursor (endDate p)).

Definition cursorWalk (now : Z) (periods : list MembershipPeriod) : Z :=
  let qualifying := filter (fun p => now <? endDate p) periods in
  fst (fold_left walkStep (sortBy byStartDate qualifying) (0, now)).

(** The same walk with the cursor left at [now], over the periods whose
    stored status is ['active']. *)
Definition fixedStep (now total : Z) (p : MembershipPeriod) : Z :=
  if now <? startDate p
  then total + (ceilDays (endDate p - startDate p) + 1)
  else total + ceilDays (endDate p - now).

Definition qualifies (now : Z) (p : MembershipPeriod) : bool :=
  Store.isActiveStatus p && (now <? endDate p).

Definition fixedCursorWalk (now : Z) (periods : list MembershipPeriod) : Z :=
  let qualifying := filter (qualifies now) periods in
  fold_left (fixedStep now) (sortBy byStartDate qualifying) 0.

(** Remaining days as the routes report them, in closed form: the walk with
    the fixed cursor over the history of the member, or, when no period of
    the history qualifies, the distance to the end date cached on the
    member; never below zero. *)
Definition resolvedDays (now : Z) (member : Member)
           (history : list MembershipPeriod) : Z :=
  Z.max 0
    (match filter (qualifies now) history with
     | [] => ceilDays (m_endDate member - now)
     | _ :: _ => fixedCursorWalk now history
     end).

(** The same count before it is kept from falling below zero
    ([totalRemainingDays] of the routes). *)
Definition resolvedTotal (now : Z) (member : Member)
           (history : list MembershipPeriod) : Z :=
  match filter (qualifies now) history with
  | [] => ceilDays (m_endDate member - now)
  | _ :: _ => fixedCursorWalk now history
  end.

(** A period the data model admits: it does not end before it starts. *)
Definition wellFormed (p : MembershipPeriod) : Prop := startDate p <= endDate p.

(** Two periods that do not overlap: one ends before the other starts. *)
Definition disjoint (p q : MembershipPeriod) : Prop :=
  endDate p < startDate q \/ endDate q < startDate p.

End Continuity.

(** ** Concrete histories used below *)

Module Scenarios.

Definition hours (h : Z) : Z := h * msPerHour.
Definition lastMs : Z := msPerDay - 1.

(** A store that takes the payment methods 1 and 2 and no other. *)
Definition onFile (id : Z) : bool := existsb (Z.eqb id) [1; 2].

Definition monthly : MembershipPackage :=
  {| pk_id := 1; pk_name := "Bulanan"; durationMonths := 1; price := 150000 |}.
Definition dayPass : MembershipPackage :=
  {| pk_id := 5; pk_name := "Day Pass"; durationMonths := 0; price := 25000 |}.

Definition mkPeriod (id member : Z) (s e : Z) (name : string) (dur : Z)
           (tx : option Z) : MembershipPeriod :=
  {| p_id := id; memberId := member; startDate := s; endDate := e;
     packageName := name; duration := dur; status := "active";
     transactionId := tx |}.

Definition mkTransaction (id member : Z) (pkg : MembershipPackage) : Transaction :=
  {| t_id := id; t_memberId := member; t_packageId := pk_id pkg;
     t_paymentMethodId := 1; amount := price pkg;
     t_packageName := pk_name pkg; packageDuration := durationMonths pkg;
     t_notes := "" |}.

Definition mkMember (id : Z) (type : string) (s e : Z) : Member :=
  {| m_id := id; m_name := "Budi"; m_phone := None; membershipType := type;
     m_startDate := s; m_endDate := e; isActive := true |}.

(** A member whose only period is a day pass used on 10 January 2024, who
    buys another day pass on 1 March 2024 at noon (server zone UTC). *)
Definition lapsedMember : Member :=
  mkMember 1 "Day Pass" (civil 0 2024 1 10) (civil 0 2024 1 10 + lastMs).
Definition lapsedDb : DB :=
  {| db_member := [lapsedMember];
     db_membershipPackage := [monthly; dayPass];
     db_transaction := [mkTransaction 1 1 dayPass];
     db_membershipPeriod :=
       [mkPeriod 1 1 (civil 0 2024 1 10) (civil 0 2024 1 10 + lastMs)
                 "Day Pass" 0 (Some 1)] |}.
Definition noonMarch1 : Z := civil 0 2024 3 1 + hours 12.

(** A member enrolled on 20 February 2024 for one month, for whom a second
    one-month purchase was recorded with transaction date 25 February
    ([POST /transactions]): the two periods overlap. *)
Definition overlapMember : Member :=
  mkMember 2 "Bulanan" (civil 0 2024 2 20) (civil 0 2024 3 20).
Definition overlapDb : DB :=
  {| db_member := [overlapMember];
     db_membershipPackage := [monthly; dayPass];
     db_transaction := [mkTransaction 2 2 monthly];
     db_membershipPeriod :=
       [mkPeriod 2 2 (civil 0 2024 2 20) (civil 0 2024 3 20) "Bulanan" 1 None;
        mkPeriod 3 2 (civil 0 2024 2 25) (civil 0 2024 3 25) "Bulanan" 1 (Some 2)] |}.

(** A member enrolled on 1 January 2024 for one month whose record was then
    edited ([PUT /:id]) to a duration of twelve months: the end date on the
    member is 1 January 2025, the only period ends 1 February 2024. *)
Definition editedMember : Member :=
  mkMember 3 "Bulanan" (civil 0 2024 1 1) (civil 0 2025 1 1).
Definition editedDb : DB :=
  {| db_member := [editedMember];
     db_membershipPackage := [monthly; dayPass];
     db_transaction := [];
     db_membershipPeriod :=
       [mkPeriod 4 3 (civil 0 2024 1 1) (civil 0 2024 2 1) "Bulanan" 1 None] |}.

Definition tenPmMarch1 : Z := civil 0 2024 3 1 + hours 22.

(** A monthly member (1 to 21 March 2024 left of the period that began
    20 February) who buys a day pass at check-in on 1 March at noon. *)
Definition monthlyMember : Member :=
  mkMember 5 "Bulanan" (civil 0 2024 2 20) (civil 0 2024 3 20).
Definition monthlyDb : DB :=
  {| db_member := [monthlyMember];
     db_membershipPackage := [monthly; dayPass];
     db_transaction := [mkTransaction 4 5 monthly];
     db_membershipPeriod :=
       [mkPeriod 6 5 (civil 0 2024 2 20) (civil 0 2024 3 20) "Bulanan" 1 (Some 4)] |}.

(** The rows that check-in writes for [monthlyMember]. *)
Definition checkinTransaction : Transaction :=
  {| t_id := 5; t_memberId := 5; t_packageId := 5; t_paymentMethodId := 1;
     amount := 25000; t_packageName := "Day Pass"; packageDuration := 0;
     t_notes := "Day Pass via check-in" |}.
Definition checkinPass : MembershipPeriod :=
  mkPeriod 7 5 (civil 0 2024 3 21) (civil 0 2024 3 21 + lastMs) "Day Pass" 0 (Some 5).
Definition monthlyDbAfter : DB :=
  {| db_member := db_member monthlyDb;
     db_membershipPackage := db_membershipPackage monthlyDb;
     db_transaction := db_transaction monthlyDb ++ [checkinTransaction];
     db_membershipPeriod := db_membershipPeriod monthlyDb ++ [checkinPass] |}.

(** Periods as the history route hands them to the analysis. *)
Definition paid (s e amt : Z) : PeriodWithTransaction :=
  {| period := mkPeriod 0 6 s e "Bulanan" 1 (Some 0);
     transaction :=
       Some {| t_id := 0; t_memberId := 6; t_packageId := 1;
               t_paymentMethodId := 1; amount := amt;
               t_packageName := "Bulanan"; packageDuration := 1;
               t_notes := "" |} |}.
Definition unpaid (s e : Z) : PeriodWithTransaction :=
  {| period := mkPeriod 0 6 s e "Bulanan" 1 None; transaction := None |}.

(** Two periods, 1 to 31 January and 5 to 28 February of year [y], each
    paid with 150000; the instants are local midnights. *)
Definition janFebHistory (tza y : Z) : list PeriodWithTransaction :=
  [ paid (civil tza y 1 1) (civil tza y 1 31) 150000;
    paid (civil tza y 2 5) (civil tza y 2 28) 150000 ].

(** The same two periods with ends at 23:59:59.999 of their last day. *)
Definition janFebHistoryEndOfDay (tza y : Z) : list PeriodWithTransaction :=
  [ paid (civil tza y 1 1) (civil tza y 1 31 + lastMs) 150000;
    paid (civil tza y 2 5) (civil tza y 2 28 + lastMs) 150000 ].

(** Three ten-day periods in 2024 with a gap of twenty days after the
    first and after the second. *)
Definition twoGapsHistory : list PeriodWithTransaction :=
  [ unpaid (civil 0 2024 1 1) (civil 0 2024 1 11);
    unpaid (civil 0 2024 1 31) (civil 0 2024 2 10);
    unpaid (civil 0 2024 3 1) (civil 0 2024 3 11) ].

(** A second member next to [lapsedMember], with a purchase of their own. *)
Definition twoMembersDb : DB :=
  {| db_member := [lapsedMember; monthlyMember];
     db_membershipPackage := [monthly; dayPass];
     db_transaction := [mkTransaction 1 1 dayPass; mkTransaction 4 5 monthly];
     db_membershipPeriod :=
       [mkPeriod 1 1 (civil 0 2024 1 10) (civil 0 2024 1 10 + lastMs)
                 "Day Pass" 0 (Some 1);
        mkPeriod 6 5 (civil 0 2024 2 20) (civil 0 2024 3 20) "Bulanan" 1 (Some 4)] |}.

End Scenarios.

(** ** Request bodies and replies *)

Module Requests.

(** A numeric field of a JSON body, [None] when the body has none.  The
    test [!x] holds for an absent field and for the number 0. *)
Definition given (x : option Z) : bool :=
  match x with
  | Some v => negb (v =? 0)
  | None => false
  end.

(** A text field: [!s] holds for an absent field and for the empty string. *)
Definition givenText (s : option string) : bool :=
  match s with
  | Some t => negb (String.eqb t "")
  | None => false
  end.

(** [x || fallback] on a text field. *)
Definition textOr (s : option string) (fallback : string) : string :=
  match s with
  | Some t => if String.eqb t "" then fallback else t
  | None => fallback
  end.

(** What a route answers: an error object with its status code, or the
    body of a success. *)
Inductive Reply (A : Type) : Type :=
| Failed (code : Z) (error : string)
| Done (code : Z) (body : A).

Arguments Failed {A} code error.
Arguments Done {A} code body.

(** [member.findUnique({ where: { id } })] *)
Definition findMember (db : DB) (id : Z) : option Member :=
  find (fun m => m_id m =? id) (db_member db).

(** [membershipPackage.findUnique({ where: { id } })] *)
Definition findPackage (db : DB) (id : Z) : option MembershipPackage :=
  find (fun k => pk_id k =? id) (db_membershipPackage db).

(** [member.findFirst({ where: { phone } })] *)
Definition findMemberByPhone (db : DB) (phone : string) : option Member :=
  find (fun m => match m_phone m with
                 | Some q => String.eqb q phone
                 | None => false
                 end) (db_member db).

(** [member.update({ where: { id }, data })] on the table. *)
Definition updateMemberRow (id : Z) (data : Member -> Member) (rows : list Member)
  : list Member :=
  map (fun m => if m_id m =? id then data m else m) rows.

End Requests.

(** ** Lists in pages (routes/members.js [GET /], routes/transactions.js [GET /]) *)

Module Listing.

(** [findMany({ ..., skip: offset, take: limitNum })] on the rows that the
    rest of the query selects, in its order. *)
Definition pageOf {A : Type} (rows : list A) (pageNum limitNum : Z) : list A :=
  let offset := (pageNum - 1) * limitNum in
  firstn (Z.to_nat limitNum) (skipn (Z.to_nat offset) rows).

(** [Math.ceil(total / limitNum)] *)
Definition totalPagesOf (total limitNum : Z) : Z := - ((- total) / limitNum).

Record Pagination := {
  currentPage : Z;
  totalPages : Z;
  totalMembers : Z;
  limit : Z;
  hasNextPage : bool;
  hasPreviousPage : bool
}.

Definition paginationOf (totalMembers pageNum limitNum : Z) : Pagination :=
  let totalPages := totalPagesOf totalMembers limitNum in
  {| currentPage := pageNum;
     totalPages := totalPages;
     totalMembers := totalMembers;
     limit := limitNum;
     hasNextPage := pageNum <? totalPages;
     hasPreviousPage := 1 <? pageNum |}.

(** The date condition that the [status] query parameter adds to the where
    clause of the member list; any other value adds none. *)
Definition statusWhere (status : string) (now : Z) (member : Member) : bool :=
  let sevenDaysFromNow := now + sevenDays in
  if String.eqb status "expired" then m_endDate member <? now
  else if String.eqb status "expiring_soon"
       then (now <=? m_endDate member) && (m_endDate member <=? sevenDaysFromNow)
  else if String.eqb status "active" then sevenDaysFromNow <? m_endDate member
  else true.

Section Zone.
Variable tza : Z.

(** The [status] that the member list attaches to a member. *)
Definition listStatus (now : Z) (member : Member) : string :=
  let sevenDaysFromNow := now + sevenDays in
  let isExpired :=
    if String.eqb (membershipType member) "Day Pass"
    then Continuity.dayPassExpired tza now (m_endDate member)
    else m_endDate member <? now in
  if isExpired then "expired"%string
  else if m_endDate member <=? sevenDaysFromNow then "expiring_soon"%string
  else "active"%string.

(** The member list.  [matching] stands for the active members that match
    the search term, newest first, as the store orders them; the route adds
    the status condition, cuts the page and labels each member. *)
Definition listMembers (now : Z) (matching : list Member) (status : string)
           (pageNum limitNum : Z) : list (Member * string) * Pagination :=
  let selected :=
    if String.eqb status "" then matching
    else filter (statusWhere status now) matching in
  let totalMembers := Z.of_nat (List.length selected) in
  let members := pageOf selected pageNum limitNum in
  (map (fun member => (member, listStatus now member)) members,
   paginationOf totalMembers pageNum limitNum).
End Zone.

End Listing.

(** ** Writing routes of routes/members.js and routes/transactions.js *)

Module MemberRoutes.
Import Requests.

(** The body of [POST /:id/renew]. *)
Record RenewBody := {
  r_packageId : option Z;
  r_paymentMethodId : option Z;
  r_amount : option Z;
  r_notes : option string;
  customPrice : option Z
}.

Record RenewalDetails := {
  previousEndDate : Z;
  newStartDate : Z;
  newEndDate : Z;
  extensionDays : Z
}.

Record Renewal := {
  rn_transaction : Transaction;
  rn_member : Member;
  renewalDetails : RenewalDetails
}.

(** The body of [POST /] and of [POST /with-transaction]; [start_date] is
    the time value of the date the body gives. *)
Record MemberBody := {
  b_name : option string;
  b_phone : option string;
  membership_type : option string;
  start_date : option Z;
  duration_months : option Z;
  b_notes : option string;
  b_packageId : option Z;
  b_paymentMethodId : option Z;
  b_amount : option Z
}.

Record Enrollment := {
  en_member : Member;
  en_transaction : Transaction;
  en_membershipPeriod : MembershipPeriod;
  isExistingMember : bool
}.

(** The body of [PUT /:id]; a field is [None] when the body lacks it. *)
Record UpdateBody := {
  u_name : option string;
  u_phone : option string;
  u_membership_type : option string;
  u_start_date : option Z;
  u_duration_months : option Z;
  is_active : option bool
}.

Section Zone.
Variable tza : Z.

(** The ids of the rows of [prisma.paymentMethod]. *)
Variable paymentMethods : list Z.
(** Whether the [phone] column of the member table carries a unique index
    (the schema is not part of the sources; the routes handle its error
    P2002). *)
Variable phoneIsUnique : bool.
(** Whether the store takes a transaction row with this payment method id
    ([POST /with-transaction] inserts the id of the request without looking
    the payment method up; a refused insert throws and is answered 500). *)
Variable paymentAccepted : Z -> bool.

(** [member.create] fails on a phone number that is taken. *)
Definition phoneTaken (db : DB) (phone : option string) : bool :=
  match phone with
  | Some p =>
      phoneIsUnique && givenText phone
      && match findMemberByPhone db p with Some _ => true | None => false end
  | None => false
  end.

(** [POST /:id/renew].  The member row carries the fields the routes
    compute with; email, notes and creation time are not represented. *)
Definition renewRoute (db : DB) (now : Z) (id : Z) (body : RenewBody)
  : Reply Renewal * DB :=
  if negb (given (r_packageId body)) || negb (given (r_paymentMethodId body)) then
    (Failed 400 "Required fields: packageId, paymentMethodId", db)
  else
    let packageId := match r_packageId body with Some v => v | None => 0 end in
    let paymentMethodId := match r_paymentMethodId body with Some v => v | None => 0 end in
    match findMember db id with
    | None => (Failed 404 "Member not found", db)
    | Some member =>
        match findPackage db packageId with
        | None => (Failed 404 "Package not found", db)
        | Some membershipPackage =>
            if negb (existsb (Z.eqb paymentMethodId) paymentMethods) then
              (Failed 404 "Payment method not found", db)
            else
              let '(newStartDate, newEndDate) :=
                TemporalPolicy.renewDates tza now member
                  (Store.findAllPeriods db id) membershipPackage in
              let finalAmount :=
                match customPrice body with
                | Some c => if c =? 0
                            then match r_amount body with
                                 | Some a => if a =? 0 then price membershipPackage else a
                                 | None => price membershipPackage
                                 end
                            else c
                | None => match r_amount body with
                          | Some a => if a =? 0 then price membershipPackage else a
                          | None => price membershipPackage
                          end
                end in
              let transaction :=
                {| t_id := Store.nextId t_id (db_transaction db);
                   t_memberId := id;
                   t_packageId := packageId;
                   t_paymentMethodId := paymentMethodId;
                   amount := finalAmount;
                   t_packageName := pk_name membershipPackage;
                   packageDuration := durationMonths membershipPackage;
                   t_notes := textOr (r_notes body)
                                ("Membership renewal - " ++ pk_name membershipPackage) |} in
              let membershipPeriod :=
                {| p_id := Store.nextId p_id (db_membershipPeriod db);
                   memberId := id;
                   startDate := newStartDate;
                   endDate := newEndDate;
                   packageName := pk_name membershipPackage;
                   duration := durationMonths membershipPackage;
                   status := "active";
                   transactionId := Some (t_id transaction) |} in
              let updateData (m : Member) :=
                {| m_id := m_id m; m_name := m_name m; m_phone := m_phone m;
                   membershipType := pk_name membershipPackage;
                   m_startDate := newStartDate;
                   m_endDate := newEndDate;
                   isActive := true |} in
              let updatedMember := updateData member in
              (Done 200
                 {| rn_transaction := transaction;
                    rn_member := updatedMember;
                    renewalDetails :=
                      {| previousEndDate := m_endDate member;
                         newStartDate := newStartDate;
                         newEndDate := newEndDate;
                         extensionDays := ceilDays (newEndDate - m_endDate member) |} |},
               {| db_member := updateMemberRow id updateData (db_member db);
                  db_membershipPackage := db_membershipPackage db;
                  db_transaction := db_transaction db ++ [transaction];
                  db_membershipPeriod := db_membershipPeriod db ++ [membershipPeriod] |})
        end
    end.

(** [POST /] (create member, simple): answers the id of the new member. *)
Definition createMember (db : DB) (body : MemberBody) : Reply Z * DB :=
  match b_name body, membership_type body, start_date body, duration_months body with
  | Some name, Some membership_type, Some start_date, Some duration_months =>
      if String.eqb name "" || String.eqb membership_type "" then
        (Failed 400 "Required fields missing", db)
      else if phoneTaken db (b_phone body) then
        (Failed 500 "Failed to create member", db)
      else
        let startDate := start_date in
        let endDate := TemporalPolicy.createMemberEnd tza startDate duration_months in
        let member :=
          {| m_id := Store.nextId m_id (db_member db);
             m_name := name;
             m_phone := if givenText (b_phone body) then b_phone body else None;
             membershipType := membership_type;
             m_startDate := startDate;
             m_endDate := endDate;
             isActive := true |} in
        let membershipPeriod :=
          {| p_id := Store.nextId p_id (db_membershipPeriod db);
             memberId := m_id member;
             startDate := startDate;
             endDate := endDate;
             packageName := membership_type;
             duration := duration_months;
             status := "active";
             transactionId := None |} in
        (Done 201 (m_id member),
         {| db_member := db_member db ++ [member];
            db_membershipPackage := db_membershipPackage db;
            db_transaction := db_transaction db;
            db_membershipPeriod := db_membershipPeriod db ++ [membershipPeriod] |})
  | _, _, _, _ => (Failed 400 "Required fields missing", db)
  end.

(** [POST /with-transaction]. *)
Definition withTransaction (db : DB) (now : Z) (body : MemberBody)
  : Reply Enrollment * DB :=
  match b_name body, membership_type body, duration_months body with
  | Some name, Some membership_type, Some duration_months =>
      if String.eqb name "" || String.eqb membership_type "" then
        (Failed 400 "Required member fields missing", db)
      else if negb (duration_months =? 0)
              && match start_date body with Some _ => false | None => true end then
        (Failed 400 "start_date required for regular memberships", db)
      else if negb (given (b_packageId body)) || negb (given (b_paymentMethodId body))
              || negb (given (b_amount body)) then
        (Failed 400 "Required payment fields missing", db)
      else
        let packageId := match b_packageId body with Some v => v | None => 0 end in
        let paymentMethodId :=
          match b_paymentMethodId body with Some v => v | None => 0 end in
        let amount := match b_amount body with Some v => v | None => 0 end in
        match findPackage db packageId with
        | None => (Failed 404 "Package not found", db)
        | Some membershipPackage =>
            let '(startDate, endDate) :=
              if duration_months =? 0 then (now, now)
              else TemporalPolicy.withTransactionRegular tza
                     (match start_date body with Some d => d | None => 0 end)
                     duration_months in
            let existingMember :=
              match b_phone body with
              | Some phone =>
                  if String.eqb phone "" then None else findMemberByPhone db phone
              | None => None
              end in
            let enroll (member : Member) (members : list Member)
                       (periodStartDate periodEndDate : Z)
                       (resync : bool) :=
              let transaction :=
                {| t_id := Store.nextId t_id (db_transaction db);
                   t_memberId := m_id member;
                   t_packageId := packageId;
                   t_paymentMethodId := paymentMethodId;
                   amount := amount;
                   t_packageName := pk_name membershipPackage;
                   packageDuration := durationMonths membershipPackage;
                   t_notes :=
                     textOr (b_notes body)
                       ((match existingMember with
                         | Some _ => "Additional"
                         | None => "Initial"
                         end) ++ " membership - " ++ membership_type) |} in
              if negb (paymentAccepted (t_paymentMethodId transaction)) then
                (Failed 500 "Failed to create member with transaction", db)
              else
              let membershipPeriod :=
                {| p_id := Store.nextId p_id (db_membershipPeriod db);
                   memberId := m_id member;
                   startDate := periodStartDate;
                   endDate := periodEndDate;
                   packageName := membership_type;
                   duration := duration_months;
                   status := "active";
                   transactionId := Some (t_id transaction) |} in
              let resyncData (m : Member) :=
                {| m_id := m_id m; m_name := m_name m; m_phone := m_phone m;
                   membershipType := membership_type;
                   m_startDate := periodStartDate;
                   m_endDate := periodEndDate;
                   isActive := isActive m |} in
              let member' := if resync then resyncData member else member in
              let members' :=
                if resync then updateMemberRow (m_id member) resyncData members
                else members in
              (Done 201
                 {| en_member := member';
                    en_transaction := transaction;
                    en_membershipPeriod := membershipPeriod;
                    isExistingMember :=
                      match existingMember with Some _ => true | None => false end |},
               {| db_member := members';
                  db_membershipPackage := db_membershipPackage db;
                  db_transaction := db_transaction db ++ [transaction];
                  db_membershipPeriod := db_membershipPeriod db ++ [membershipPeriod] |}) in
            let createNew :=
              if phoneTaken db (b_phone body) then
                (Failed 409 "Phone number already exists", db)
              else
                let member :=
                  {| m_id := Store.nextId m_id (db_member db);
                     m_name := name;
                     m_phone := if givenText (b_phone body) then b_phone body else None;
                     membershipType := membership_type;
                     m_startDate := startDate;
                     m_endDate := endDate;
                     isActive := true |} in
                let '(periodStartDate, periodEndDate) :=
                  if duration_months =? 0
                  then TemporalPolicy.withTransactionDayPass tza db now existingMember
                  else (startDate, endDate) in
                enroll member (db_member db ++ [member])
                       periodStartDate periodEndDate false in
            match existingMember with
            | Some existing =>
                if duration_months =? 0 then
                  let updateData (m : Member) :=
                    {| m_id := m_id m;
                       m_name := if String.eqb (m_name m) name then m_name m
                                 else m_name m ++ " / " ++ name;
                       m_phone := m_phone m;
                       membershipType := membershipType m;
                       m_startDate := m_startDate m;
                       m_endDate := m_endDate m;
                       isActive := true |} in
                  let member := updateData existing in
                  let '(periodStartDate, periodEndDate) :=
                    TemporalPolicy.withTransactionDayPass tza db now (Some member) in
                  enroll member
                         (updateMemberRow (m_id existing) updateData (db_member db))
                         periodStartDate periodEndDate true
                else if 0 <? duration_months then
                  (Failed 409 "Phone number already exists", db)
                else createNew
            | None => createNew
            end
        end
  | _, _, _ => (Failed 400 "Required member fields missing", db)
  end.
(** [member.update] fails on a phone number that another member holds. *)
Definition phoneOfAnother (db : DB) (id : Z) (phone : option string) : bool :=
  match phone with
  | Some p =>
      phoneIsUnique && givenText phone
      && existsb (fun m => negb (m_id m =? id)
                           && match m_phone m with
                              | Some q => String.eqb q p
                              | None => false
                              end) (db_member db)
  | None => false
  end.

(** [PUT /:id].  Without [start_date] or [duration_months] the dates are
    invalid and the update is rejected before it reaches the table; a field
    that the body lacks ([name], [membership_type]) is left as it is. *)
Definition updateMember (db : DB) (id : Z) (body : UpdateBody) : Reply unit * DB :=
  match u_start_date body, u_duration_months body with
  | Some start_date, Some duration_months =>
      let startDate := start_date in
      let endDate := TemporalPolicy.addMonths tza startDate duration_months in
      match findMember db id with
      | None => (Failed 404 "Member not found", db)
      | Some _ =>
          if phoneOfAnother db id (u_phone body) then
            (Failed 500 "Failed to update member", db)
          else
            let data (m : Member) :=
              {| m_id := m_id m;
                 m_name := match u_name body with Some n => n | None => m_name m end;
                 m_phone := if givenText (u_phone body) then u_phone body else None;
                 membershipType := match u_membership_type body with
                                   | Some t => t
                                   | None => membershipType m
                                   end;
                 m_startDate := startDate;
                 m_endDate := endDate;
                 isActive := match is_active body with Some b => b | None => true end |} in
            (Done 200 tt,
             {| db_member := updateMemberRow id data (db_member db);
                db_membershipPackage := db_membershipPackage db;
                db_transaction := db_transaction db;
                db_membershipPeriod := db_membershipPeriod db |})
      end
  | _, _ => (Failed 500 "Failed to update member", db)
  end.
End Zone.

(** *** [GET /:id/history] *)

Definition byStartDateDesc (a b : PeriodWithTransaction) : bool :=
  startDate (period b) <=? startDate (period a).

(** [membershipPeriod.findMany({ where: { memberId }, include: { transaction },
    orderBy: { startDate: 'desc' } })] *)
Definition findHistory (db : DB) (id : Z) : list PeriodWithTransaction :=
  sortBy byStartDateDesc
    (map (fun p =>
            {| period := p;
               transaction :=
                 match transactionId p with
                 | Some t => find (fun x => t_id x =? t) (db_transaction db)
                 | None => None
                 end |})
         (Store.periodsOf db id)).

(** A call of [analyzeMembershipPattern]: what it returns, and the array it
    was given as the call leaves it ([periods.sort] sorts in place). *)
Definition analyzeInPlace (periods : list PeriodWithTransaction)
  : Analytics.Pattern * list PeriodWithTransaction :=
  (Analytics.analyzeMembershipPattern periods,
   match periods with
   | [] => []
   | _ :: _ => sortBy Analytics.byStartDate periods
   end).

(** The status that the history gives a period, in place of the stored one. *)
Definition periodStatus (now : Z) (p : MembershipPeriod) : string :=
  if endDate p <? now then "expired"
  else if now <? startDate p then "future"
  else "active".

Definition withStatus (label : string) (p : MembershipPeriod) : MembershipPeriod :=
  {| p_id := p_id p; memberId := memberId p; startDate := startDate p;
     endDate := endDate p; packageName := packageName p; duration := duration p;
     status := label; transactionId := transactionId p |}.

Record History := {
  h_member : Member;
  h_periods : list PeriodWithTransaction;
  h_analytics : Analytics.Pattern
}.

Definition memberHistory (db : DB) (now : Z) (id : Z) : Reply History :=
  let membershipPeriods := findHistory db id in
  match findMember db id with
  | None => Failed 404 "Member not found"
  | Some member =>
      let '(analytics, membershipPeriods) := analyzeInPlace membershipPeriods in
      let periodsWithStatus :=
        map (fun p =>
               {| period := withStatus (periodStatus now (period p)) (period p);
                  transaction := transaction p |})
            membershipPeriods in
      Done 200 {| h_member := member;
                  h_periods := periodsWithStatus;
                  h_analytics := analytics |}
  end.

End MemberRoutes.

(** ** [POST /] of routes/transactions.js *)

Module TransactionRoutes.
Import Requests.

Record TransactionBody := {
  tb_memberId : option Z;
  tb_packageId : option Z;
  tb_paymentMethodId : option Z;
  tb_amount : option Z;
  tb_notes : option string;
  (** time value of [transactionDate]; [None] when the body has none *)
  transactionDate : option Z
}.

Section Zone.
Variable tza : Z.
Variable paymentMethods : list Z.

Definition createTransaction (db : DB) (now : Z) (body : TransactionBody)
  : Reply Transaction * DB :=
  let transactionDate :=
    match transactionDate body with Some d => d | None => now end in
  if negb (given (tb_memberId body)) || negb (given (tb_packageId body))
     || negb (given (tb_paymentMethodId body)) || negb (given (tb_amount body)) then
    (Failed 400 "Required fields: memberId, packageId, paymentMethodId, amount", db)
  else
    let memberId := match tb_memberId body with Some v => v | None => 0 end in
    let packageId := match tb_packageId body with Some v => v | None => 0 end in
    let paymentMethodId :=
      match tb_paymentMethodId body with Some v => v | None => 0 end in
    let amount := match tb_amount body with Some v => v | None => 0 end in
    match findPackage db packageId with
    | None => (Failed 404 "Package not found", db)
    | Some membershipPackage =>
        match findMember db memberId with
        | None => (Failed 404 "Member not found", db)
        | Some member =>
            if negb (existsb (Z.eqb paymentMethodId) paymentMethods) then
              (Failed 404 "Payment method not found", db)
            else
              let transaction :=
                {| t_id := Store.nextId t_id (db_transaction db);
                   t_memberId := memberId;
                   t_packageId := packageId;
                   t_paymentMethodId := paymentMethodId;
                   amount := amount;
                   t_packageName := pk_name membershipPackage;
                   packageDuration := durationMonths membershipPackage;
                   t_notes := textOr (tb_notes body) "" |} in
              let '(startDate, endDate) :=
                TemporalPolicy.transactionPeriod tza transactionDate
                  (durationMonths membershipPackage) in
              let membershipPeriod :=
                {| p_id := Store.nextId p_id (db_membershipPeriod db);
                   memberId := memberId;
                   startDate := startDate;
                   endDate := endDate;
                   packageName := pk_name membershipPackage;
                   duration := durationMonths membershipPackage;
                   status := "active";
                   transactionId := Some (t_id transaction) |} in
              (Done 201 transaction,
               {| db_member := db_member db;
                  db_membershipPackage := db_membershipPackage db;
                  db_transaction := db_transaction db ++ [transaction];
                  db_membershipPeriod := db_membershipPeriod db ++ [membershipPeriod] |})
        end
    end.
End Zone.

End TransactionRoutes.

(** ** [POST /checkin] of routes/public.js, with the member lookup *)

Module PublicRoutes.
Import Requests Continuity.

Record CheckinBody := {
  memberNumber : option Z;
  c_name : option string;
  c_phone : option string;
  createDayPass : bool;
  c_paymentMethodId : option Z
}.

Definition isDigit (c : ascii) : bool :=
  (Ascii.leb "0" c) && (Ascii.leb c "9").

Fixpoint digitsOnly (s : string) : bool :=
  match s with
  | EmptyString => true
  | String c rest => isDigit c && digitsOnly rest
  end.

(** [/^\d+$/.test(phone)] *)
Definition looksLikePhone (s : string) : bool :=
  negb (String.eqb s "") && digitsOnly s.

Section Zone.
Variable tza : Z.

(** [{ name: { contains: name } }] as the store decides it:
    [contains needle text]. *)
Variable contains : string -> string -> bool.
(** Whether the store takes a transaction row with this payment method id. *)
Variable paymentAccepted : Z -> bool.

(** The outcome of the lookup: an answer that ends the request, or the
    member found if any. *)
Definition lookupMember (db : DB) (body : CheckinBody)
  : CheckinResponse + option Member :=
  if negb (given (memberNumber body)) && negb (givenText (c_name body))
     && negb (givenText (c_phone body)) then
    inl (Refused 400 "Member ID, name, or phone number required")
  else if given (memberNumber body) then
    inr (findMember db (match memberNumber body with Some v => v | None => 0 end))
  else if givenText (c_phone body)
          && looksLikePhone (match c_phone body with Some p => p | None => ""%string end) then
    let phone := match c_phone body with Some p => p | None => ""%string end in
    inr (find (fun m => match m_phone m with
                        | Some q => String.eqb q phone && isActive m
                        | None => false
                        end) (db_member db))
  else if givenText (c_name body) then
    let name := match c_name body with Some n => n | None => ""%string end in
    let members :=
      filter (fun m => contains name (m_name m) && isActive m) (db_member db) in
    match members with
    | [] => inl (Refused 404 "Member not found")
    | [member] => inr (Some member)
    | _ :: _ :: _ => inl (Refused 300 "Multiple members found with similar names")
    end
  else inr None.

Definition checkinRoute (db : DB) (now : Z) (body : CheckinBody)
  : CheckinResponse * DB :=
  match lookupMember db body with
  | inl answer => (answer, db)
  | inr member =>
      checkin tza paymentAccepted db now member (createDayPass body)
              (if given (c_paymentMethodId body) then c_paymentMethodId body else None)
  end.
End Zone.

End PublicRoutes.

(** ** Requests on the example stores *)

Module RouteScenarios.
Import Requests Listing MemberRoutes TransactionRoutes PublicRoutes Scenarios.

(** [contains] as a search for a substring. *)
Definition substringOf (needle text : string) : bool :=
  match index 0 needle text with
  | Some _ => true
  | None => false
  end.

(** The ids of the payment methods on file. *)
Definition cashAndTransfer : list Z := [1; 2].

(** A second monthly member, with a phone number on file. *)
Definition sari : Member :=
  {| m_id := 7; m_name := "Sari"; m_phone := Some "0812"%string;
     membershipType := "Bulanan";
     m_startDate := civil 0 2024 2 20; m_endDate := civil 0 2024 3 20;
     isActive := true |}.
Definition sariPeriod : MembershipPeriod :=
  mkPeriod 8 7 (civil 0 2024 2 20) (civil 0 2024 3 20) "Bulanan" 1 (Some 6).
Definition sariDb : DB :=
  {| db_member := [monthlyMember; sari];
     db_membershipPackage := [monthly; dayPass];
     db_transaction := [mkTransaction 4 5 monthly; mkTransaction 6 7 monthly];
     db_membershipPeriod :=
       [mkPeriod 6 5 (civil 0 2024 2 20) (civil 0 2024 3 20) "Bulanan" 1 (Some 4);
        sariPeriod] |}.

(** A monthly member whose month ended on 20 February 2024. *)
Definition lapsedMonthly : Member :=
  mkMember 8 "Bulanan" (civil 0 2024 1 20) (civil 0 2024 2 20).
Definition lapsedMonthlyDb : DB :=
  {| db_member := [lapsedMonthly];
     db_membershipPackage := [monthly; dayPass];
     db_transaction := [mkTransaction 7 8 monthly];
     db_membershipPeriod :=
       [mkPeriod 9 8 (civil 0 2024 1 20) (civil 0 2024 2 20) "Bulanan" 1 (Some 7)] |}.

(** The body of a renewal with a package, paid in cash at its price. *)
Definition renewWith (pkg : MembershipPackage) : RenewBody :=
  {| r_packageId := Some (pk_id pkg); r_paymentMethodId := Some 1;
     r_amount := None; r_notes := None; customPrice := None |}.

(** The body of an enrollment. *)
Definition enrollment (name : string) (phone : option string) (type : string)
           (start : option Z) (months : Z) (pkg : MembershipPackage) : MemberBody :=
  {| b_name := Some name; b_phone := phone; membership_type := Some type;
     start_date := start; duration_months := Some months; b_notes := None;
     b_packageId := Some (pk_id pkg); b_paymentMethodId := Some 1;
     b_amount := Some (price pkg) |}.

(** The body of a recorded purchase, dated by the server. *)
Definition purchase (member : Z) (pkg : MembershipPackage) : TransactionBody :=
  {| tb_memberId := Some member; tb_packageId := Some (pk_id pkg);
     tb_paymentMethodId := Some 1; tb_amount := Some (price pkg);
     tb_notes := None; transactionDate := None |}.

(** [lapsedMonthly] after a purchase of one month recorded on 1 March 2024
    at noon. *)
Definition paidAgainDb : DB :=
  snd (createTransaction 0 cashAndTransfer lapsedMonthlyDb noonMarch1
         (purchase 8 monthly)).

(** An edit of the dates of a member: a start and a number of months. *)
Definition redate (start months : Z) : UpdateBody :=
  {| u_name := None; u_phone := None; u_membership_type := None;
     u_start_date := Some start; u_duration_months := Some months;
     is_active := None |}.

(** A store with the packages and no member yet. *)
Definition openingDb : DB :=
  {| db_member := []; db_membershipPackage := [monthly; dayPass];
     db_transaction := []; db_membershipPeriod := [] |}.

(** An enrollment through [POST /] with a duration of minus one month from
    1 June 2024, and what it writes. *)
Definition backwardsBody : MemberBody :=
  enrollment "Rudi" None "Bulanan" (Some (civil 0 2024 6 1)) (-1) monthly.
Definition backwardsMember : Member :=
  {| m_id := 1; m_name := "Rudi"; m_phone := None; membershipType := "Bulanan";
     m_startDate := civil 0 2024 6 1; m_endDate := civil 0 2024 5 1;
     isActive := true |}.
Definition backwardsDb : DB :=
  {| db_member := [backwardsMember];
     db_membershipPackage := [monthly; dayPass];
     db_transaction := [];
     db_membershipPeriod :=
       [mkPeriod 1 1 (civil 0 2024 6 1) (civil 0 2024 5 1) "Bulanan" (-1) None] |}.
Definition noonApril15 : Z := civil 0 2024 4 15 + hours 12.

(** A check-in by name. *)
Definition byName (name : string) : CheckinBody :=
  {| memberNumber := None; c_name := Some name; c_phone := None;
     createDayPass := false; c_paymentMethodId := None |}.

End RouteScenarios.

(** * Properties *)

(** ** Calendar arithmetic *)

Module JSDateFacts.

(** A year has [DaysInYear] days. *)
Lemma DayFromYear_succ y : DayFromYear (y + 1) - DayFromYear y = DaysInYear y.
Proof.
  unfold DayFromYear, DaysInYear.
  destruct (Z.eqb_spec (y mod 4) 0), (Z.eqb_spec (y mod 100) 0), (Z.eqb_spec (y mod 400) 0);
    cbn [negb]; Z.to_euclidean_division_equations; lia.
Qed.

Lemma DayFromYear_lt y1 y2 : y1 < y2 -> DayFromYear y1 < DayFromYear y2.
Proof.
  unfold DayFromYear. intros. Z.to_euclidean_division_equations. lia.
Qed.

(** [YearFromDay] meets the definition of [YearFromTime] in the standard. *)
Lemma YearFromDay_bounds d :
  DayFromYear (YearFromDay d) <= d < DayFromYear (YearFromDay d + 1).
Proof.
  unfold YearFromDay.
  set (y0 := 1970 + 400 * d / 146097).
  assert (H0 : 146097 * (y0 - 1970) <= 400 * d < 146097 * (y0 - 1970) + 146097).
  { unfold y0. Z.to_euclidean_division_equations. lia. }
  clearbody y0.
  destruct (Z.ltb_spec d (DayFromYear y0)).
  - replace (y0 - 1 + 1) with y0 by lia. split; [|lia].
    unfold DayFromYear in *. Z.to_euclidean_division_equations. lia.
  - destruct (Z.leb_spec (DayFromYear (y0 + 1)) d).
    + split; [lia|]. unfold DayFromYear in *. Z.to_euclidean_division_equations. lia.
    + lia.
Qed.

Lemma YearFromDay_unique y d :
  DayFromYear y <= d < DayFromYear (y + 1) -> YearFromDay d = y.
Proof.
  intros Hy. pose proof (YearFromDay_bounds d) as Hb.
  destruct (Z.lt_trichotomy (YearFromDay d) y) as [Hlt | [Heq | Hgt]]; [|exact Heq|].
  - assert (DayFromYear (YearFromDay d + 1) <= DayFromYear y).
    { destruct (Z.eq_dec (YearFromDay d + 1) y) as [->|]; [lia|].
      apply Z.lt_le_incl, DayFromYear_lt. lia. }
    lia.
  - assert (DayFromYear (y + 1) <= DayFromYear (YearFromDay d)).
    { destruct (Z.eq_dec (y + 1) (YearFromDay d)) as [->|]; [lia|].
      apply Z.lt_le_incl, DayFromYear_lt. lia. }
    lia.
Qed.

Lemma InLeapYearOf_cases y :
  (InLeapYearOf y = 0 /\ DaysInYear y = 365) \/ (InLeapYearOf y = 1 /\ DaysInYear y = 366).
Proof.
  unfold InLeapYearOf, DaysInYear.
  destruct (y mod 4 =? 0), (y mod 100 =? 0), (y mod 400 =? 0); cbn; auto.
Qed.

Lemma DayWithinYear_range t :
  0 <= DayWithinYear t < 365 + InLeapYear t.
Proof.
  unfold DayWithinYear, InLeapYear, YearFromTime.
  pose proof (YearFromDay_bounds (Day t)) as Hb.
  pose proof (DayFromYear_succ (YearFromDay (Day t))) as Hs.
  destruct (InLeapYearOf_cases (YearFromDay (Day t))) as [[-> ?] | [-> ?]]; lia.
Qed.

Ltac month_cases m :=
  let H := fresh in
  assert (H : m = 0 \/ m = 1 \/ m = 2 \/ m = 3 \/ m = 4 \/ m = 5 \/ m = 6
              \/ m = 7 \/ m = 8 \/ m = 9 \/ m = 10 \/ m = 11) by lia;
  repeat (destruct H as [H | H]; [subst m | ]); [ .. | subst m].

Ltac leap_cases l :=
  let H := fresh in
  assert (H : l = 0 \/ l = 1) by lia; destruct H as [H | H]; subst l.

Ltac table_cases :=
  repeat (match goal with
          | |- context [?a <? ?b] => destruct (Z.ltb_spec a b)
          end; cbv iota; try lia).

Ltac eval_tables :=
  repeat match goal with
         | |- context [DaysBeforeMonth ?m ?l] =>
             let v := eval vm_compute in (DaysBeforeMonth m l) in
             change (DaysBeforeMonth m l) with v
         end.

Lemma MonthFromDay_range dwy leap : 0 <= MonthFromDay dwy leap < 12.
Proof. unfold MonthFromDay. table_cases. Qed.

Lemma MonthFromDay_before m leap d :
  0 <= m < 12 -> 0 <= leap <= 1 ->
  1 <= d <= DaysBeforeMonth (m + 1) leap - DaysBeforeMonth m leap ->
  MonthFromDay (DaysBeforeMonth m leap + d - 1) leap = m.
Proof.
  intros Hm Hl. month_cases m; leap_cases leap; eval_tables; intros Hd;
    unfold MonthFromDay; table_cases.
Qed.

Lemma DaysBeforeMonth_MonthFromDay dwy leap :
  0 <= leap <= 1 -> 0 <= dwy < 365 + leap ->
  DaysBeforeMonth (MonthFromDay dwy leap) leap <= dwy
  < DaysBeforeMonth (MonthFromDay dwy leap + 1) leap.
Proof.
  intros Hl Hd. leap_cases leap; unfold MonthFromDay; table_cases; eval_tables; lia.
Qed.

Lemma InLeapYearOf_range y : 0 <= InLeapYearOf y <= 1.
Proof. destruct (InLeapYearOf_cases y) as [[-> _] | [-> _]]; lia. Qed.

Lemma MakeDate_Day day tod :
  0 <= tod < msPerDay -> Day (MakeDate day tod) = day.
Proof.
  intros H. unfold Day, MakeDate, msPerDay in *.
  Z.to_euclidean_division_equations. lia.
Qed.

Lemma MakeDate_TimeWithinDay day tod :
  0 <= tod < msPerDay -> TimeWithinDay (MakeDate day tod) = tod.
Proof.
  intros H. unfold TimeWithinDay, MakeDate, msPerDay in *.
  Z.to_euclidean_division_equations. lia.
Qed.

Lemma TimeWithinDay_range t : 0 <= TimeWithinDay t < msPerDay.
Proof. unfold TimeWithinDay, msPerDay. apply Z.mod_pos_bound. lia. Qed.

Lemma Day_TimeWithinDay t : t = MakeDate (Day t) (TimeWithinDay t).
Proof.
  unfold MakeDate, Day, TimeWithinDay, msPerDay.
  Z.to_euclidean_division_equations. lia.
Qed.

Lemma MakeDay_in_year y m d :
  0 <= m < 12 -> MakeDay y m d = DayFromYear y + DaysBeforeMonth m (InLeapYearOf y) + d - 1.
Proof.
  intros Hm. unfold MakeDay.
  rewrite (Z.div_small m 12), (Z.mod_small m 12) by lia.
  now rewrite Z.add_0_r.
Qed.

Lemma DaysInMonth_range y m : 0 <= m < 12 -> 28 <= DaysInMonth y m <= 31.
Proof.
  intros Hm. unfold DaysInMonth.
  pose proof (InLeapYearOf_range y) as Hl. set (l := InLeapYearOf y) in *. clearbody l.
  month_cases m; leap_cases l; eval_tables; lia.
Qed.

(** Calendar fields of the day that [MakeDay] names, for a date that exists. *)
Lemma fields_of_MakeDay t y m d :
  0 <= m < 12 -> 1 <= d <= DaysInMonth y m -> Day t = MakeDay y m d ->
  YearFromTime t = y /\ MonthFromTime t = m /\ DateFromTime t = d.
Proof.
  intros Hm Hd Ht. rewrite MakeDay_in_year in Ht by exact Hm.
  pose proof (InLeapYearOf_range y) as Hl.
  assert (Hy : YearFromTime t = y).
  { unfold YearFromTime. apply YearFromDay_unique. rewrite Ht.
    pose proof (DayFromYear_succ y) as Hs.
    unfold DaysInMonth in Hd.
    destruct (InLeapYearOf_cases y) as [[Hl0 Hy] | [Hl1 Hy]];
      [rewrite Hl0 in * | rewrite Hl1 in *];
      clear Hl; revert Hd; month_cases m; eval_tables; lia. }
  assert (Hdw : DayWithinYear t = DaysBeforeMonth m (InLeapYearOf y) + d - 1).
  { unfold DayWithinYear. rewrite Hy, Ht. lia. }
  assert (Hmo : MonthFromTime t = m).
  { unfold MonthFromTime, InLeapYear. rewrite Hy, Hdw.
    apply MonthFromDay_before; assumption. }
  repeat split; try assumption.
  unfold DateFromTime, InLeapYear. rewrite Hmo, Hy, Hdw. lia.
Qed.

Lemma MonthFromTime_range t : 0 <= MonthFromTime t < 12.
Proof. apply MonthFromDay_range. Qed.

Lemma DateFromTime_range t :
  1 <= DateFromTime t <= DaysInMonth (YearFromTime t) (MonthFromTime t).
Proof.
  unfold DateFromTime, DaysInMonth, MonthFromTime.
  pose proof (DayWithinYear_range t) as Hr.
  pose proof (InLeapYearOf_range (YearFromTime t)) as Hl.
  fold (InLeapYear t) in *.
  pose proof (DaysBeforeMonth_MonthFromDay (DayWithinYear t) (InLeapYear t) Hl Hr).
  lia.
Qed.

(** [MakeDay] inverts the calendar fields, also for a shifted date. *)
Lemma MakeDay_fields t k :
  MakeDay (YearFromTime t) (MonthFromTime t) (DateFromTime t + k) = Day t + k.
Proof.
  rewrite MakeDay_in_year by apply MonthFromTime_range.
  unfold DateFromTime, InLeapYear, DayWithinYear. lia.
Qed.

(** A date past the end of its month names a day of the following month. *)
Lemma MakeDay_carry y m d :
  MakeDay y (m + 1) d = MakeDay y m (d + DaysInMonth (y + m / 12) (m mod 12)).
Proof.
  unfold MakeDay, DaysInMonth.
  set (q := m / 12). set (r := m mod 12).
  assert (Hr : 0 <= r < 12) by (apply Z.mod_pos_bound; lia).
  assert (Hm : m = 12 * q + r) by (apply Z.div_mod; lia).
  destruct (Z.eq_dec r 11) as [Hr11 | Hr11].
  - assert (Hq : (m + 1) / 12 = q + 1) by (Z.to_euclidean_division_equations; lia).
    assert (Hr' : (m + 1) mod 12 = 0) by (Z.to_euclidean_division_equations; lia).
    rewrite Hq, Hr', Hr11.
    pose proof (DayFromYear_succ (y + q)) as Hs.
    replace (y + (q + 1)) with (y + q + 1) by lia.
    destruct (InLeapYearOf_cases (y + q)) as [[-> Hy] | [-> Hy]];
      destruct (InLeapYearOf_cases (y + q + 1)) as [[-> _] | [-> _]];
      eval_tables; lia.
  - assert (Hq : (m + 1) / 12 = q) by (Z.to_euclidean_division_equations; lia).
    assert (Hr' : (m + 1) mod 12 = r + 1) by (Z.to_euclidean_division_equations; lia).
    rewrite Hq, Hr'. lia.
Qed.

Example civil_epoch : civil 0 1970 1 1 = 0.
Proof. reflexivity. Qed.

Example civil_2024_03_01 : civil 0 2024 3 1 = 1709251200000.
Proof. reflexivity. Qed.

Example civil_jakarta : civil (7 * msPerHour) 2024 3 1 = 1709226000000.
Proof. reflexivity. Qed.

Example fields_of_leap_day :
  (getFullYear 0 1709164800000, getMonth 0 1709164800000, getDate 0 1709164800000)
  = (2024, 1, 29).
Proof. reflexivity. Qed.

Example fields_before_epoch :
  (getFullYear 0 (-1), getMonth 0 (-1), getDate 0 (-1)) = (1969, 11, 31).
Proof. reflexivity. Qed.

Example ceilDays_examples :
  (ceilDays 0, ceilDays 1, ceilDays 86400000, ceilDays 86400001, ceilDays (-1))
  = (0, 1, 1, 2, 0).
Proof. reflexivity. Qed.

Example roundDiv_examples :
  (roundDiv 53 2, roundDiv 55 2, roundDiv 40 2, roundDiv 1 3) = (27, 28, 20, 0).
Proof. reflexivity. Qed.

Lemma MakeTime_midnight : MakeTime 0 0 0 0 = 0.
Proof. reflexivity. Qed.

Lemma MakeTime_endOfDay : MakeTime 23 59 59 999 = msPerDay - 1.
Proof. reflexivity. Qed.

End JSDateFacts.

(** ** Period bounds *)

Module TemporalFacts.
Import JSDateFacts TemporalPolicy.

Section Zone.
Variable tza : Z.

Lemma startOfDay_eq t : startOfDay tza t = MakeDate (Day (t + tza)) 0 - tza.
Proof. reflexivity. Qed.

Lemma endOfDay_eq t :
  endOfDay tza t = MakeDate (Day (t + tza)) (msPerDay - 1) - tza.
Proof. reflexivity. Qed.

(** [d.setDate(d.getDate() + 1)] moves a date forward by 24 hours. *)
Lemma nextDay_eq t : nextDay tza t = t + msPerDay.
Proof.
  unfold nextDay, setDate, getDate, UTC, LocalTime.
  rewrite MakeDay_fields.
  pose proof (Day_TimeWithinDay (t + tza)) as H.
  unfold MakeDate in *. lia.
Qed.

Lemma Day_shift t : Day (t + msPerDay) = Day t + 1.
Proof. unfold Day, msPerDay. Z.to_euclidean_division_equations. lia. Qed.

Lemma startOfDay_nextDay t :
  startOfDay tza (nextDay tza t) = startOfDay tza t + msPerDay.
Proof.
  rewrite nextDay_eq, !startOfDay_eq.
  replace (t + msPerDay + tza) with (t + tza + msPerDay) by lia.
  rewrite Day_shift. unfold MakeDate. lia.
Qed.

Lemma startOfDay_le t : startOfDay tza t <= t < startOfDay tza t + msPerDay.
Proof.
  rewrite startOfDay_eq. unfold MakeDate, Day, msPerDay.
  Z.to_euclidean_division_equations. lia.
Qed.

(** The end of the day of a local midnight is 23:59:59.999 of that day. *)
Lemma endOfDay_startOfDay t :
  endOfDay tza (startOfDay tza t) = startOfDay tza t + (msPerDay - 1).
Proof.
  rewrite endOfDay_eq, !startOfDay_eq.
  replace (MakeDate (Day (t + tza)) 0 - tza + tza) with (MakeDate (Day (t + tza)) 0) by lia.
  rewrite MakeDate_Day by (unfold msPerDay; lia).
  unfold MakeDate. lia.
Qed.

Lemma startOfDay_mono a b : a <= b -> startOfDay tza a <= startOfDay tza b.
Proof.
  intros H. rewrite !startOfDay_eq. unfold MakeDate, Day, msPerDay.
  Z.to_euclidean_division_equations. lia.
Qed.
End Zone.

(** [allPeriods.reduce(...)] returns the largest end date. *)
Lemma fold_laterEnd_ge ps a : a <= fold_left laterEnd ps a.
Proof.
  revert a. induction ps as [|p ps IH]; intros a; cbn [fold_left]; [lia|].
  specialize (IH (laterEnd a p)). unfold laterEnd in *.
  destruct (Z.ltb_spec a (endDate p)); lia.
Qed.

Lemma fold_laterEnd_upper ps a :
  Forall (fun p => endDate p <= fold_left laterEnd ps a) ps.
Proof.
  revert a. induction ps as [|p ps IH]; intros a; cbn [fold_left]; constructor.
  - pose proof (fold_laterEnd_ge ps (laterEnd a p)) as H. unfold laterEnd in *.
    destruct (Z.ltb_spec a (endDate p)); lia.
  - apply IH.
Qed.

Lemma fold_laterEnd_attained ps a :
  fold_left laterEnd ps a = a \/ exists p, In p ps /\ fold_left laterEnd ps a = endDate p.
Proof.
  revert a. induction ps as [|p ps IH]; intros a; cbn [fold_left]; [now left|].
  destruct (IH (laterEnd a p)) as [H | [q [Hq H]]].
  - rewrite H. unfold laterEnd. destruct (Z.ltb_spec a (endDate p)).
    + right. exists p. split; [now left | reflexivity].
    + now left.
  - right. exists q. split; [now right | exact H].
Qed.

Lemma latestEnd_is_max first ps :
  let latest := fold_left laterEnd (first :: ps) (endDate first) in
  Forall (fun p => endDate p <= latest) (first :: ps)
  /\ exists p, In p (first :: ps) /\ latest = endDate p.
Proof.
  cbn zeta. split; [apply fold_laterEnd_upper|].
  destruct (fold_laterEnd_attained (first :: ps) (endDate first)) as [H | H].
  - exists first. split; [now left | exact H].
  - exact H.
Qed.

Section Months.
Variable tza : Z.

(** A Day Pass renewal of a member with periods starts at the local
    midnight after the latest end, whether or not that end has passed. *)
Lemma renew_dayPass_after_latest now member first ps pkg :
  durationMonths pkg = 0 ->
  let latest := fold_left laterEnd (first :: ps) (endDate first) in
  let start := startOfDay tza latest + msPerDay in
  renewDates tza now member (first :: ps) pkg = (start, start + (msPerDay - 1)).
Proof.
  intros Hd. cbn zeta. unfold renewDates. rewrite Hd. cbn [Z.eqb].
  rewrite endOfDay_startOfDay, startOfDay_nextDay. reflexivity.
Qed.

(** Every Day Pass period ends at 23:59:59.999 of the day it starts. *)
Lemma dayPass_ends_with_its_day db now member pkg existing :
  durationMonths pkg = 0 ->
  snd (renew tza db now member pkg)
  = fst (renew tza db now member pkg) + (msPerDay - 1)
  /\ snd (withTransactionDayPass tza db now existing)
     = fst (withTransactionDayPass tza db now existing) + (msPerDay - 1)
  /\ snd (checkinDayPass tza db now member)
     = fst (checkinDayPass tza db now member) + (msPerDay - 1).
Proof.
  intros Hd. unfold renew, renewDates, withTransactionDayPass, checkinDayPass.
  rewrite Hd. cbn [Z.eqb fst snd]. repeat split.
  - destruct (Store.findAllPeriods db (m_id member)); apply endOfDay_startOfDay.
  - destruct existing as [m|]; [|apply endOfDay_startOfDay].
    destruct (Store.findAllPeriods db (m_id m)); [|apply endOfDay_startOfDay].
    destruct (now <? m_endDate m); apply endOfDay_startOfDay.
  - apply endOfDay_startOfDay.
Qed.

(** When the latest end lies ahead, the new day pass starts at the first
    midnight after it, which is ahead as well. *)
Lemma dayPass_stacks_after_future_end now member first ps pkg :
  durationMonths pkg = 0 ->
  let latest := fold_left laterEnd (first :: ps) (endDate first) in
  now < latest ->
  fst (renewDates tza now member (first :: ps) pkg) = startOfDay tza latest + msPerDay
  /\ latest < fst (renewDates tza now member (first :: ps) pkg)
  /\ now < fst (renewDates tza now member (first :: ps) pkg).
Proof.
  intros Hd latest Hlt.
  rewrite (renew_dayPass_after_latest now member first ps pkg Hd). cbn [fst].
  fold latest. pose proof (startOfDay_le tza latest). lia.
Qed.

(** When the day after the latest end is already behind today, so is the
    whole of the new day pass. *)
Lemma dayPass_after_lapse_is_over now member first ps pkg :
  durationMonths pkg = 0 ->
  let latest := fold_left laterEnd (first :: ps) (endDate first) in
  startOfDay tza latest + msPerDay < startOfDay tza now ->
  fst (renewDates tza now member (first :: ps) pkg) < startOfDay tza now
  /\ snd (renewDates tza now member (first :: ps) pkg) < now.
Proof.
  intros Hd latest Hlt.
  rewrite (renew_dayPass_after_latest now member first ps pkg Hd). cbn [fst snd].
  fold latest. split; [exact Hlt|].
  pose proof (startOfDay_le tza now) as Hnow.
  rewrite !startOfDay_eq in *. unfold MakeDate, msPerDay in *. nia.
Qed.

Lemma MakeDay_normal y m d : MakeDay y m d = MakeDay (y + m / 12) (m mod 12) d.
Proof.
  unfold MakeDay.
  assert (Hr : 0 <= m mod 12 < 12) by (apply Z.mod_pos_bound; lia).
  rewrite (Z.div_small (m mod 12) 12), (Z.mod_small (m mod 12) 12) by lia.
  now rewrite Z.add_0_r.
Qed.

Lemma addMonths_local t n :
  LocalTime tza (addMonths tza t n)
  = MakeDate (MakeDay (getFullYear tza t) (getMonth tza t + n) (getDate tza t))
             (TimeWithinDay (LocalTime tza t)).
Proof. unfold addMonths, setMonth, UTC, LocalTime, getFullYear, getMonth, getDate, LocalTime. lia. Qed.

Lemma addMonths_monthsLater t n : monthsLater tza t n (addMonths tza t n).
Proof.
  unfold monthsLater. cbv zeta.
  set (d := getDate tza t). set (target := getMonth tza t + n).
  set (ym := getFullYear tza t + target / 12). set (mn := target mod 12).
  assert (Hmn : 0 <= mn < 12) by (apply Z.mod_pos_bound; lia).
  pose proof (TimeWithinDay_range (LocalTime tza t)) as Htod.
  assert (Hday : Day (LocalTime tza (addMonths tza t n)) = MakeDay ym mn d).
  { rewrite addMonths_local, MakeDate_Day by exact Htod.
    fold target d. rewrite MakeDay_normal. reflexivity. }
  assert (Hd : 1 <= d <= 31).
  { pose proof (DateFromTime_range (LocalTime tza t)) as H1.
    pose proof (DaysInMonth_range (YearFromTime (LocalTime tza t))
                  (MonthFromTime (LocalTime tza t)) (MonthFromTime_range _)) as H2.
    unfold d, getDate. lia. }
  split; [|split].
  - rewrite addMonths_local. apply MakeDate_TimeWithinDay, Htod.
  - intros Hle. unfold getFullYear, getMonth, getDate.
    apply fields_of_MakeDay; [exact Hmn | lia | exact Hday].
  - intros Hgt. unfold getFullYear, getMonth, getDate.
    assert (Hmn1 : 0 <= (mn + 1) mod 12 < 12) by (apply Z.mod_pos_bound; lia).
    pose proof (DaysInMonth_range ym mn Hmn) as Hdim.
    pose proof (DaysInMonth_range (ym + (mn + 1) / 12) ((mn + 1) mod 12) Hmn1) as Hdim1.
    apply fields_of_MakeDay; [exact Hmn1 | lia |].
    rewrite Hday, <- MakeDay_normal, MakeDay_carry.
    rewrite (Z.div_small mn 12), (Z.mod_small mn 12), Z.add_0_r by lia.
    f_equal. lia.
Qed.

(** Where the day of the month exists in the target month, the code and
    the clamping rule give the same end date. *)
Lemma addMonths_clamped_agree t n :
  let target := getMonth tza t + n in
  getDate tza t <= DaysInMonth (getFullYear tza t + target / 12) (target mod 12) ->
  addMonths tza t n = addMonthsClamped tza t n.
Proof.
  cbv zeta. intros Hle. unfold addMonths, setMonth, addMonthsClamped.
  unfold getDate, getMonth, getFullYear in Hle.
  rewrite Z.min_l by exact Hle.
  rewrite (MakeDay_normal (YearFromTime (LocalTime tza t))). reflexivity.
Qed.

(** C2 (as amended).  For a regular product ([durationMonths > 0]) every
    route computes the end of the period as
    [end.setMonth(end.getMonth() + durationMonths)] on a copy of the start:
    the time of day is kept, the month is the one [durationMonths] later,
    the day of the month is kept when the target month has it, and
    otherwise the excess days run over into the following month (no
    clamping to the last day of the target month). *)
Theorem regular_end_is_setMonth start n :
  0 < n ->
  monthsLater tza start n (createMemberEnd tza start n)
  /\ snd (transactionPeriod tza start n) = createMemberEnd tza start n
  /\ snd (withTransactionRegular tza start n) = createMemberEnd tza start n
  /\ (forall now member allPeriods pkg,
         durationMonths pkg = n ->
         let r := renewDates tza now member allPeriods pkg in
         monthsLater tza (fst r) n (snd r)).
Proof.
  intros Hn.
  assert (Hc : createMemberEnd tza start n = addMonths tza start n).
  { unfold createMemberEnd. destruct (Z.eqb_spec n 0); [lia | reflexivity]. }
  rewrite Hc. split; [apply addMonths_monthsLater|].
  split; [reflexivity|]. split; [reflexivity|].
  intros now member allPeriods pkg Hpkg. cbv zeta. unfold renewDates.
  rewrite Hpkg. destruct (Z.eqb_spec n 0); [lia|].
  cbn [fst snd]. apply addMonths_monthsLater.
Qed.
End Months.

Import Scenarios.

Lemma regular_end_is_setMonth_witness :
  0 < 1
  /\ monthsLater 0 (civil 0 2025 1 15) 1 (createMemberEnd 0 (civil 0 2025 1 15) 1).
Proof.
  split; [reflexivity|].
  exact (proj1 (regular_end_is_setMonth 0 (civil 0 2025 1 15) 1 eq_refl)).
Defined.

(** C2, counterexample.  A one-month product starting 31 January 2025
    ends on 3 March 2025 ([getMonth] is 2, March), not on 28 February,
    where clamping would put it. *)
Lemma jan31_plus_one_month_is_in_march :
  createMemberEnd 0 (civil 0 2025 1 31) 1 = civil 0 2025 3 3
  /\ getMonth 0 (createMemberEnd 0 (civil 0 2025 1 31) 1) = 2
  /\ addMonthsClamped 0 (civil 0 2025 1 31) 1 = civil 0 2025 2 28
  /\ createMemberEnd 0 (civil 0 2025 1 31) 1
     <> addMonthsClamped 0 (civil 0 2025 1 31) 1.
Proof.
  vm_compute. repeat split; try reflexivity. discriminate.
Qed.

Example jan31_plus_one_month_leap_year :
  createMemberEnd 0 (civil 0 2024 1 31) 1 = civil 0 2024 3 2
  /\ snd (transactionPeriod 0 (civil 0 2024 1 31) 1) = civil 0 2024 3 2.
Proof. vm_compute. split; reflexivity. Qed.

(** The same purchase on a server in Jakarta (UTC+7), the start date being
    parsed as midnight UTC. *)
Example jan31_plus_one_month_jakarta :
  createMemberEnd (hours 7) (civil 0 2025 1 31) 1 = civil 0 2025 3 3.
Proof. reflexivity. Qed.

Example jan15_plus_one_month :
  createMemberEnd 0 (civil 0 2025 1 15) 1 = civil 0 2025 2 15.
Proof. reflexivity. Qed.

(** C1, the code at a failing input.  A member whose only period ended on
    10 January 2024 buys a Day Pass on 1 March 2024 at noon: the renewal
    route and the purchase route both date the new period 11 January 2024,
    which is over before it is sold, where the specification starts it at
    the beginning of the current day, 1 March. *)
Theorem dayPass_renewal_of_lapsed_member :
  renew 0 lapsedDb noonMarch1 lapsedMember dayPass
    = (civil 0 2024 1 11, civil 0 2024 1 11 + lastMs)
  /\ withTransactionDayPass 0 lapsedDb noonMarch1 (Some lapsedMember)
    = (civil 0 2024 1 11, civil 0 2024 1 11 + lastMs)
  /\ civil 0 2024 1 11 + lastMs < noonMarch1
  /\ startOfDay 0 noonMarch1 = civil 0 2024 3 1.
Proof. vm_compute. repeat split; reflexivity. Qed.

End TemporalFacts.

(** ** Sorting and sums *)

Module ListFacts.

Section Sorting.
Context {A : Type} (before : A -> A -> bool).

Lemma insertSorted_perm x l : Permutation (insertSorted before x l) (x :: l).
Proof.
  induction l as [|y l IH]; cbn [insertSorted]; [reflexivity|].
  destruct (before x y); [reflexivity|].
  rewrite IH. apply perm_swap.
Qed.

(** Sorting rearranges, it neither drops nor adds. *)
Lemma sortBy_perm l : Permutation (sortBy before l) l.
Proof.
  induction l as [|x l IH]; cbn [sortBy]; [reflexivity|].
  rewrite insertSorted_perm. now constructor.
Qed.

Lemma sortBy_nil l : sortBy before l = [] -> l = [].
Proof.
  intros H. apply Permutation_nil. rewrite <- H. apply sortBy_perm.
Qed.

Lemma sortBy_length l : List.length (sortBy before l) = List.length l.
Proof. apply Permutation_length, sortBy_perm. Qed.
End Sorting.

Lemma filter_perm {A} (f : A -> bool) l l' :
  Permutation l l' -> Permutation (filter f l) (filter f l').
Proof.
  induction 1 as [| x l l' _ IH | x y l | l l' l'' _ IH1 _ IH2]; cbn [filter].
  - reflexivity.
  - destruct (f x); [now constructor | exact IH].
  - destruct (f x), (f y); try reflexivity. apply perm_swap.
  - now rewrite IH1.
Qed.

Lemma filter_filter {A} (f g : A -> bool) l :
  filter g (filter f l) = filter (fun x => f x && g x) l.
Proof.
  induction l as [|x l IH]; cbn [filter]; [reflexivity|].
  destruct (f x); cbn [filter andb]; [destruct (g x)|]; now rewrite IH.
Qed.

Lemma fold_add l a : fold_left Z.add l a = a + sum l.
Proof.
  unfold sum. revert a. induction l as [|x l IH]; intros a; cbn [fold_left]; [lia|].
  rewrite (IH (a + x)), (IH (0 + x)). lia.
Qed.

Lemma sum_nil : sum [] = 0.
Proof. reflexivity. Qed.

Lemma sum_cons x l : sum (x :: l) = x + sum l.
Proof. unfold sum at 1. cbn [fold_left]. rewrite fold_add. lia. Qed.

Lemma sum_app l l' : sum (l ++ l') = sum l + sum l'.
Proof.
  induction l as [|x l IH]; cbn [app]; rewrite ?sum_nil, ?sum_cons; lia.
Qed.

Lemma sum_perm l l' : Permutation l l' -> sum l = sum l'.
Proof.
  induction 1; rewrite ?sum_cons in *; lia.
Qed.

(** A sum over the elements that pass a test. *)
Lemma sum_map_filter {A} (f : A -> Z) (g : A -> bool) l :
  sum (map f (filter g l)) = sum (map (fun x => if g x then f x else 0) l).
Proof.
  induction l as [|x l IH]; cbn [filter map]; [reflexivity|].
  destruct (g x); cbn [map]; rewrite ?sum_cons, IH; lia.
Qed.

Lemma sum_map_le {A} (f g : A -> Z) l :
  Forall (fun x => f x <= g x) l -> sum (map f l) <= sum (map g l).
Proof.
  induction 1; cbn [map]; rewrite ?sum_cons; [reflexivity | lia].
Qed.

Lemma sum_map_ge_length {A} (f : A -> Z) l :
  Forall (fun x => 1 <= f x) l -> Z.of_nat (List.length l) <= sum (map f l).
Proof.
  induction 1; cbn [map List.length]; rewrite ?sum_cons; [reflexivity | lia].
Qed.

(** A symmetric relation that holds between all pairs of a list holds
    between all pairs of its rearrangements and of its sublists. *)
Section Pairs.
Context {A : Type} (R : A -> A -> Prop).
Hypothesis R_sym : forall x y, R x y -> R y x.

Lemma ForallOrdPairs_perm l l' :
  Permutation l l' -> ForallOrdPairs R l -> ForallOrdPairs R l'.
Proof.
  induction 1 as [| x l l' Hp IH | x y l | l l' l'' _ IH1 _ IH2]; intros H.
  - exact H.
  - inversion H as [| ? ? Hx Hl]; subst. constructor.
    + eapply Permutation_Forall; eauto.
    + auto.
  - inversion H as [| ? ? Hy Hl]; subst.
    inversion Hl as [| ? ? Hx Hl']; subst.
    inversion Hy as [| ? ? Hyx Hyl]; subst.
    constructor; [constructor; auto|]. constructor; auto.
  - auto.
Qed.

Lemma ForallOrdPairs_filter (f : A -> bool) l :
  ForallOrdPairs R l -> ForallOrdPairs R (filter f l).
Proof.
  induction 1 as [| x l Hx Hl IH]; cbn [filter]; [constructor|].
  destruct (f x); [|exact IH]. constructor; [|exact IH].
  apply Forall_forall. intros y Hy. apply filter_In in Hy.
  rewrite Forall_forall in Hx. now apply Hx.
Qed.
End Pairs.

(** Sorting by a key sorts. *)
Section SortedByKey.
Context {A : Type} (key : A -> Z).

Lemma insertSorted_sorted x l :
  StronglySorted (fun a b => key a <= key b) l ->
  StronglySorted (fun a b => key a <= key b) (insertSorted (fun a b => key a <=? key b) x l).
Proof.
  induction 1 as [| y l Hl IH Hy]; cbn [insertSorted].
  - repeat constructor.
  - destruct (Z.leb_spec (key x) (key y)).
    + constructor; [constructor; assumption|].
      constructor; [assumption|].
      eapply Forall_impl; [|exact Hy]. cbn beta. intros; lia.
    + constructor; [exact IH|].
      eapply Permutation_Forall; [symmetry; apply insertSorted_perm|].
      constructor; [lia | exact Hy].
Qed.

Lemma sortBy_sorted l :
  StronglySorted (fun a b => key a <= key b) (sortBy (fun a b => key a <=? key b) l).
Proof.
  induction l as [|x l IH]; cbn [sortBy]; [constructor|].
  now apply insertSorted_sorted.
Qed.
End SortedByKey.

End ListFacts.

(** ** Remaining days and status *)

Module ContinuityFacts.
Import JSDateFacts ListFacts TemporalPolicy TemporalFacts Store Continuity.

Lemma ceilDays_spec x :
  msPerDay * (ceilDays x - 1) < x <= msPerDay * ceilDays x.
Proof. unfold ceilDays, msPerDay. Z.to_euclidean_division_equations. lia. Qed.

Lemma ceilDays_mono x y : x <= y -> ceilDays x <= ceilDays y.
Proof.
  intros H. pose proof (ceilDays_spec x). pose proof (ceilDays_spec y).
  unfold msPerDay in *. lia.
Qed.

Lemma ceilDays_pos x : 0 < x -> 1 <= ceilDays x.
Proof. intros H. pose proof (ceilDays_spec x). unfold msPerDay in *. lia. Qed.

Lemma ceilDays_nonneg x : - msPerDay < x -> 0 <= ceilDays x.
Proof. intros H. pose proof (ceilDays_spec x). unfold msPerDay in *. lia. Qed.

Lemma ceilDays_nonpos x : x <= 0 -> ceilDays x <= 0.
Proof. intros H. pose proof (ceilDays_spec x). unfold msPerDay in *. lia. Qed.

(** The loop is a sum of one term per period. *)
Lemma fold_countPeriod now l a :
  fold_left (countPeriod now) l a = a + sum (map (countPeriod now 0) l).
Proof.
  revert a. induction l as [|p l IH]; intros a; cbn [fold_left map].
  - rewrite sum_nil. lia.
  - rewrite IH, sum_cons. unfold countPeriod.
    destruct (now <? startDate p); [lia|]. destruct (now <? endDate p); lia.
Qed.

Lemma sumPeriods_sum now ps :
  sumPeriods now ps = sum (map (countPeriod now 0) ps).
Proof.
  unfold sumPeriods. rewrite fold_countPeriod.
  rewrite (sum_perm _ _ (Permutation_map _ (sortBy_perm byStartDate ps))). lia.
Qed.

Lemma fold_fixedStep now l a :
  fold_left (fixedStep now) l a = a + sum (map (fixedStep now 0) l).
Proof.
  revert a. induction l as [|p l IH]; intros a; cbn [fold_left map].
  - rewrite sum_nil. lia.
  - rewrite IH, sum_cons. unfold fixedStep. destruct (now <? startDate p); lia.
Qed.

Lemma fixedCursorWalk_sum now history :
  fixedCursorWalk now history
  = sum (map (fixedStep now 0) (filter (qualifies now) history)).
Proof.
  unfold fixedCursorWalk. rewrite fold_fixedStep.
  rewrite (sum_perm _ _ (Permutation_map _ (sortBy_perm byStartDate _))).
  reflexivity.
Qed.

(** On a period that has not ended the guard of the second branch of the
    loop is true. *)
Lemma countPeriod_qualifying now p :
  now < endDate p -> countPeriod now 0 p = fixedStep now 0 p.
Proof.
  intros H. unfold countPeriod, fixedStep.
  destruct (now <? startDate p); [reflexivity|].
  destruct (Z.ltb_spec now (endDate p)); [reflexivity | lia].
Qed.

Lemma map_ext_Forall {A B} (f g : A -> B) l :
  Forall (fun x => f x = g x) l -> map f l = map g l.
Proof. induction 1; cbn [map]; congruence. Qed.

(** The periods the search files under a member. *)
Lemma periodsGrouped_perm db now found member :
  In member found ->
  Permutation (periodsGrouped (findCurrentPeriods db (map m_id found) now) member)
              (filter (qualifies now) (periodsOf db (m_id member))).
Proof.
  intros Hin. unfold periodsGrouped, findCurrentPeriods, periodsOf.
  rewrite (filter_perm _ _ _ (sortBy_perm byEndDateDesc _)).
  rewrite !filter_filter.
  erewrite filter_ext; [reflexivity|].
  intros p. cbn beta. unfold qualifies.
  destruct (Z.eqb_spec (memberId p) (m_id member)) as [He | Hne].
  - assert (Hex : existsb (Z.eqb (memberId p)) (map m_id found) = true).
    { apply existsb_exists. exists (m_id member). split.
      - now apply in_map.
      - now apply Z.eqb_eq. }
    rewrite Hex. cbn [andb]. now rewrite andb_true_r.
  - cbn [andb]. now rewrite andb_false_r.
Qed.

Lemma currentPeriods_perm db now member :
  Permutation (findCurrentPeriods db [m_id member] now)
              (filter (qualifies now) (periodsOf db (m_id member))).
Proof.
  unfold findCurrentPeriods, periodsOf.
  rewrite (sortBy_perm byEndDateDesc _), filter_filter.
  erewrite filter_ext; [reflexivity|].
  intros p. cbn [existsb]. unfold qualifies.
  rewrite orb_false_r. now rewrite andb_assoc.
Qed.

(** Both routes compute the same number from a query result. *)
Lemma searchRemainingDays_checkin now member ps :
  searchRemainingDays now member ps = checkinRemainingDays now member ps.
Proof. destruct ps; reflexivity. Qed.

Lemma remainingDays_resolved now member Q history :
  Permutation Q (filter (qualifies now) history) ->
  Z.max 0 (checkinRemainingDays now member Q) = resolvedDays now member history.
Proof.
  intros HQ. unfold resolvedDays, checkinRemainingDays.
  destruct Q as [|q Q].
  - apply Permutation_nil in HQ. now rewrite HQ.
  - destruct (filter (qualifies now) history) as [|h hs] eqn:Hf.
    + apply Permutation_sym, Permutation_nil in HQ. discriminate.
    + f_equal. rewrite sumPeriods_sum, fixedCursorWalk_sum, Hf.
      rewrite (sum_perm _ _ (Permutation_map _ HQ)). f_equal.
      apply map_ext_Forall. rewrite <- Hf. apply Forall_forall.
      intros p Hp. apply filter_In in Hp. destruct Hp as [_ Hp].
      unfold qualifies in Hp. apply andb_prop in Hp. destruct Hp as [_ Hp].
      apply countPeriod_qualifying. now apply Z.ltb_lt.
Qed.

(** The count of the routes before the floor at zero. *)
Lemma remainingDays_total now member Q history :
  Permutation Q (filter (qualifies now) history) ->
  checkinRemainingDays now member Q = resolvedTotal now member history.
Proof.
  intros HQ. unfold resolvedTotal, checkinRemainingDays.
  destruct Q as [|q Q].
  - apply Permutation_nil in HQ. now rewrite HQ.
  - destruct (filter (qualifies now) history) as [|h hs] eqn:Hf.
    + apply Permutation_sym, Permutation_nil in HQ. discriminate.
    + rewrite sumPeriods_sum, fixedCursorWalk_sum, Hf.
      rewrite (sum_perm _ _ (Permutation_map _ HQ)). f_equal.
      apply map_ext_Forall. rewrite <- Hf. apply Forall_forall.
      intros p Hp. apply filter_In in Hp. destruct Hp as [_ Hp].
      unfold qualifies in Hp. apply andb_prop in Hp. destruct Hp as [_ Hp].
      apply countPeriod_qualifying. now apply Z.ltb_lt.
Qed.

(** *** Monotonicity *)

(** What one period adds to the walk at [now]. *)
Lemma fixedCursorWalk_terms now history :
  fixedCursorWalk now history
  = sum (map (fun p => if qualifies now p then fixedStep now 0 p else 0) history).
Proof. rewrite fixedCursorWalk_sum. apply sum_map_filter. Qed.

Lemma fixedStep_pos now p :
  wellFormed p -> now < endDate p -> 1 <= fixedStep now 0 p.
Proof.
  unfold wellFormed, fixedStep. intros Hwf Hq.
  destruct (Z.ltb_spec now (startDate p)).
  - pose proof (ceilDays_nonneg (endDate p - startDate p)). unfold msPerDay in *. lia.
  - pose proof (ceilDays_pos (endDate p - now)). lia.
Qed.

Lemma qualifies_lt now p : qualifies now p = true -> now < endDate p.
Proof.
  unfold qualifies. intros H. apply andb_prop in H. now apply Z.ltb_lt.
Qed.

Lemma qualifies_earlier t1 t2 p :
  t1 <= t2 -> qualifies t2 p = true -> qualifies t1 p = true.
Proof.
  unfold qualifies. intros Hle H. apply andb_prop in H. destruct H as [Ha Hq].
  rewrite Ha. apply Z.ltb_lt in Hq. cbn [andb]. apply Z.ltb_lt. lia.
Qed.

Lemma term_antitone t1 t2 p :
  t1 <= t2 -> wellFormed p ->
  (if qualifies t2 p then fixedStep t2 0 p else 0)
  <= (if qualifies t1 p then fixedStep t1 0 p else 0).
Proof.
  intros Hle Hwf.
  destruct (qualifies t2 p) eqn:H2.
  - rewrite (qualifies_earlier _ _ _ Hle H2).
    apply qualifies_lt in H2. unfold fixedStep, wellFormed in *.
    destruct (Z.ltb_spec t2 (startDate p)), (Z.ltb_spec t1 (startDate p)); try lia.
    + pose proof (ceilDays_mono (endDate p - t2) (endDate p - startDate p)). lia.
    + pose proof (ceilDays_mono (endDate p - t2) (endDate p - t1)). lia.
  - destruct (qualifies t1 p) eqn:H1; [|lia].
    apply qualifies_lt in H1. pose proof (fixedStep_pos t1 p Hwf H1). lia.
Qed.

Lemma resolvedDays_antitone member history t1 t2 :
  t1 <= t2 ->
  Forall wellFormed history ->
  Exists (fun p => isActiveStatus p = true /\ m_endDate member <= endDate p) history ->
  resolvedDays t2 member history <= resolvedDays t1 member history.
Proof.
  intros Hle Hwf Hex. unfold resolvedDays.
  destruct (filter (qualifies t2) history) as [|q2 Q2] eqn:H2.
  - apply Exists_exists in Hex. destruct Hex as [p [Hin [Hact Hend]]].
    assert (Hnq : qualifies t2 p = false).
    { destruct (qualifies t2 p) eqn:Hq; [|reflexivity].
      assert (Hp : In p (filter (qualifies t2) history)) by (apply filter_In; auto).
      rewrite H2 in Hp. destruct Hp. }
    unfold qualifies in Hnq. rewrite Hact in Hnq. cbn [andb] in Hnq.
    apply Z.ltb_ge in Hnq.
    pose proof (ceilDays_nonpos (m_endDate member - t2)). lia.
  - assert (Hq2 : In q2 (filter (qualifies t2) history)) by (rewrite H2; now left).
    apply filter_In in Hq2. destruct Hq2 as [Hin2 Hq2].
    destruct (filter (qualifies t1) history) as [|q1 Q1] eqn:H1.
    + assert (Hp : In q2 (filter (qualifies t1) history)).
      { apply filter_In. split; [exact Hin2|]. eapply qualifies_earlier; eauto. }
      rewrite H1 in Hp. destruct Hp.
    + apply Z.max_le_compat_l. rewrite !fixedCursorWalk_terms.
      apply sum_map_le. eapply Forall_impl; [|exact Hwf].
      intros p Hp. now apply term_antitone.
Qed.

Lemma search_one tza db now member :
  map daysRemaining (search tza db now [member])
  = [resolvedDays now member (periodsOf db (m_id member))].
Proof.
  unfold search. cbn [map daysRemaining searchStatus].
  rewrite searchRemainingDays_checkin. f_equal.
  apply remainingDays_resolved, (periodsGrouped_perm db now [member]). now left.
Qed.

(** *** Where the walk of the specification and the loop agree *)

Lemma disjoint_sym p q : disjoint p q -> disjoint q p.
Proof. unfold disjoint. tauto. Qed.

(** In a sorted list of disjoint well-formed periods every period ends
    before the later ones start. *)
Lemma sorted_disjoint_chain l :
  Forall wellFormed l ->
  StronglySorted (fun a b => startDate a <= startDate b) l ->
  ForallOrdPairs disjoint l ->
  ForallOrdPairs (fun p q => endDate p < startDate q) l.
Proof.
  intros Hwf Hs Hd. induction l as [|p l IH]; [constructor|].
  inversion Hwf as [| ? ? Hp Hwf']; subst.
  inversion Hs as [| ? ? Hs' Hle]; subst.
  inversion Hd as [| ? ? Hdp Hd']; subst.
  constructor; [|auto].
  rewrite Forall_forall in *. intros q Hq.
  specialize (Hdp q Hq). specialize (Hle q Hq). specialize (Hwf' q Hq).
  unfold disjoint, wellFormed in *. lia.
Qed.

Lemma walk_chain now l a c :
  Forall wellFormed l ->
  Forall (fun p => now < endDate p) l ->
  ForallOrdPairs (fun p q => endDate p < startDate q) l ->
  now <= c ->
  c = now \/ Forall (fun p => c < startDate p) l ->
  fst (fold_left walkStep l (a, c)) = fold_left (fixedStep now) l a.
Proof.
  revert a c. induction l as [|p l IH]; intros a c Hwf Hq Hch Hc Hinv; [reflexivity|].
  inversion Hwf as [| ? ? Hp Hwf']; subst.
  inversion Hq as [| ? ? Hqp Hq']; subst.
  inversion Hch as [| ? ? Hcp Hch']; subst.
  cbn [fold_left]. unfold walkStep at 2.
  assert (Hstep : (if c <? startDate p
                   then a + (ceilDays (endDate p - startDate p) + 1)
                   else a + ceilDays (endDate p - c))
                  = fixedStep now a p).
  { unfold fixedStep. destruct Hinv as [-> | Hall]; [reflexivity|].
    inversion Hall; subst.
    destruct (Z.ltb_spec c (startDate p)); [|lia].
    destruct (Z.ltb_spec now (startDate p)); [reflexivity | lia]. }
  rewrite Hstep. apply IH; try assumption; [lia|].
  right. rewrite Forall_forall in *. intros q Hq0.
  specialize (Hcp q Hq0).
  destruct Hinv as [-> | Hall]; [lia|].
  specialize (Hall q (or_intror Hq0)). lia.
Qed.

(** For a history of well-formed periods with status 'active' no two of
    which overlap, the cursor walk of the specification and the walk with
    the fixed cursor give the same number. *)
Lemma cursorWalk_without_overlap now history :
  Forall wellFormed history ->
  Forall (fun p => isActiveStatus p = true) history ->
  ForallOrdPairs disjoint history ->
  cursorWalk now history = fixedCursorWalk now history.
Proof.
  intros Hwf Hact Hd. unfold cursorWalk, fixedCursorWalk.
  assert (Hf : filter (qualifies now) history
               = filter (fun p => now <? endDate p) history).
  { apply filter_ext_in. intros p Hp. unfold qualifies.
    rewrite Forall_forall in Hact. now rewrite (Hact p Hp). }
  rewrite Hf. set (Q := filter (fun p => now <? endDate p) history).
  pose proof (sortBy_perm byStartDate Q) as Hperm.
  apply walk_chain.
  - apply Forall_forall. intros p Hp.
    apply (Permutation_in _ Hperm), filter_In in Hp.
    rewrite Forall_forall in Hwf. now apply Hwf.
  - apply Forall_forall. intros p Hp.
    apply (Permutation_in _ Hperm), filter_In in Hp. now apply Z.ltb_lt.
  - apply sorted_disjoint_chain.
    + apply Forall_forall. intros p Hp.
      apply (Permutation_in _ Hperm), filter_In in Hp.
      rewrite Forall_forall in Hwf. now apply Hwf.
    + apply (sortBy_sorted startDate).
    + apply (ForallOrdPairs_perm _ disjoint_sym _ _ (Permutation_sym Hperm)).
      now apply ForallOrdPairs_filter.
  - lia.
  - now left.
Qed.

(** *** The check-in response *)

Section CheckinZone.
Variable tza : Z.

(** What a welcoming check-in reports. *)
Lemma checkin_welcome paymentAccepted db now member createDayPass pm st np db' :
  checkin tza paymentAccepted db now (Some member) createDayPass pm = (Welcome st np, db') ->
  let total :=
    checkinRemainingDays now member (findCurrentPeriods db [m_id member] now) in
  isActive member = true
  /\ checkinExpired tza now member = false
  /\ statusLabel st
     = (if (m_endDate member <=? now + sevenDays) && (total <=? 7)
        then "expiring_soon"%string else "active"%string)
  /\ daysRemaining st = Z.max 0 (if createDayPass then total + 1 else total)
  /\ (createDayPass = false -> np = None /\ db' = db).
Proof.
  unfold checkin. cbv zeta.
  destruct (isActive member); cbn [negb]; [|discriminate].
  destruct (checkinExpired tza now member); [discriminate|].
  destruct createDayPass.
  - destruct pm as [pmid|]; [|discriminate].
    destruct (findDayPassPackage db) as [pkg|]; [|discriminate].
    destruct (checkinDayPass tza db now member) as [s e].
    cbn [t_paymentMethodId]. destruct (paymentAccepted pmid); [|discriminate].
    cbn [negb]. intros H. injection H as <- <- <-. cbn [statusLabel daysRemaining].
    repeat split; try reflexivity; discriminate.
  - intros H. injection H as <- <- <-. cbn [statusLabel daysRemaining].
    repeat split; reflexivity.
Qed.

Lemma checkin_plain paymentAccepted db now member pm :
  isActive member = true -> checkinExpired tza now member = false ->
  exists st, checkin tza paymentAccepted db now (Some member) false pm = (Welcome st None, db)
    /\ daysRemaining st
       = Z.max 0 (checkinRemainingDays now member
                    (findCurrentPeriods db [m_id member] now))
    /\ statusLabel st
       = (if (m_endDate member <=? now + sevenDays)
             && (checkinRemainingDays now member
                   (findCurrentPeriods db [m_id member] now) <=? 7)
          then "expiring_soon"%string else "active"%string).
Proof.
  intros Ha He. unfold checkin. cbv zeta. rewrite Ha, He. cbn [negb].
  eexists. split; [reflexivity|]. split; reflexivity.
Qed.

Lemma dayPassExpired_false now e :
  dayPassExpired tza now e = false -> - msPerDay < e - now.
Proof.
  unfold dayPassExpired. cbv zeta. intros H. apply Z.ltb_ge in H.
  fold (startOfDay tza now) in H. fold (startOfDay tza e) in H.
  pose proof (startOfDay_le tza now). pose proof (startOfDay_le tza e). lia.
Qed.

(** A Day Pass member is expired exactly when the local calendar day of
    the end date lies before the local calendar day of [now]. *)
Lemma dayPassExpired_iff now e :
  dayPassExpired tza now e = true
  <-> Day (LocalTime tza e) < Day (LocalTime tza now).
Proof.
  unfold dayPassExpired. cbv zeta. rewrite Z.ltb_lt.
  fold (startOfDay tza now). fold (startOfDay tza e).
  rewrite !startOfDay_eq. unfold LocalTime, MakeDate, msPerDay. lia.
Qed.

(** A check-in without purchase reports the remaining days in closed
    form. *)
Lemma checkin_reports_resolvedDays paymentAccepted db now member pm st np db' :
  checkin tza paymentAccepted db now (Some member) false pm = (Welcome st np, db') ->
  daysRemaining st = resolvedDays now member (periodsOf db (m_id member)).
Proof.
  intros H. apply checkin_welcome in H. cbv zeta in H.
  destruct H as (_ & _ & _ & -> & _).
  apply remainingDays_resolved, currentPeriods_perm.
Qed.

(** A member the check-in lets in has no negative count of days. *)
Lemma checkin_total_nonneg db now member :
  Forall wellFormed (periodsOf db (m_id member)) ->
  checkinExpired tza now member = false ->
  0 <= checkinRemainingDays now member (findCurrentPeriods db [m_id member] now).
Proof.
  intros Hwf He. pose proof (currentPeriods_perm db now member) as HQ.
  unfold checkinRemainingDays.
  destruct (findCurrentPeriods db [m_id member] now) as [|q Q].
  - apply ceilDays_nonneg. unfold checkinExpired in He. cbv zeta in He.
    destruct (String.eqb (membershipType member) "Day Pass").
    + now apply dayPassExpired_false.
    + apply Z.ltb_ge in He. unfold msPerDay. lia.
  - rewrite sumPeriods_sum.
    assert (Hall : Forall (fun p => 1 <= countPeriod now 0 p) (q :: Q)).
    { apply Forall_forall. intros p Hp.
      apply (Permutation_in _ HQ), filter_In in Hp. destruct Hp as [Hin Hq].
      apply qualifies_lt in Hq. rewrite countPeriod_qualifying by exact Hq.
      apply fixedStep_pos; [|exact Hq].
      rewrite Forall_forall in Hwf. now apply Hwf. }
    pose proof (sum_map_ge_length _ _ Hall). cbn [List.length] in *. lia.
Qed.
End CheckinZone.

Section Zone.
Variable tza : Z.

(** C3 (as amended).  The remaining days that the search route and the
    check-in route report are the walk over the periods with status
    'active' and [end > now], sorted by start, in which every period is
    measured against [now] itself -- the cursor is not advanced -- and
    the result is not below zero; when no period qualifies, the routes
    fall back on the end date stored on the member. *)
Theorem daysRemaining_is_fixed_cursor_walk db now found :
  map daysRemaining (search tza db now found)
  = map (fun member => resolvedDays now member (periodsOf db (m_id member))) found
  /\ (forall member,
         Z.max 0 (checkinRemainingDays now member
                    (findCurrentPeriods db [m_id member] now))
         = resolvedDays now member (periodsOf db (m_id member))).
Proof.
  split.
  - unfold search. rewrite map_map. apply map_ext_Forall, Forall_forall.
    intros member Hin. cbn [daysRemaining searchStatus].
    rewrite searchRemainingDays_checkin.
    apply remainingDays_resolved, periodsGrouped_perm, Hin.
  - intros member. apply remainingDays_resolved, currentPeriods_perm.
Qed.

(** C8 (as amended).  Over a history of well-formed periods, and as long
    as the end date stored on the member is not later than the end of some
    period with status 'active' (as when it mirrors the latest period),
    the remaining days that check-in and search report do not grow when
    the reference instant moves forward. *)
Theorem daysRemaining_antitone db member t1 t2 :
  t1 <= t2 ->
  Forall wellFormed (periodsOf db (m_id member)) ->
  Exists (fun p => isActiveStatus p = true /\ m_endDate member <= endDate p)
         (periodsOf db (m_id member)) ->
  Z.max 0 (checkinRemainingDays t2 member (findCurrentPeriods db [m_id member] t2))
  <= Z.max 0 (checkinRemainingDays t1 member (findCurrentPeriods db [m_id member] t1))
  /\ Forall2 Z.le (map daysRemaining (search tza db t2 [member]))
                  (map daysRemaining (search tza db t1 [member])).
Proof.
  intros Hle Hwf Hex.
  pose proof (resolvedDays_antitone member _ t1 t2 Hle Hwf Hex) as H.
  split.
  - rewrite !(remainingDays_resolved _ _ _ _ (currentPeriods_perm db _ member)).
    exact H.
  - rewrite !search_one. constructor; [exact H | constructor].
Qed.

(** C10 (as amended).  When check-in sells a day pass, the days remaining
    in the answer are the count over the periods that existed before the
    sale, plus one, and then kept from falling below zero; the ledger after
    the sale is not consulted.  The answer is one more than the same
    check-in reports without the sale exactly when that count is not
    negative, which is the case whenever no period of the member ends
    before it starts. *)
Theorem checkin_dayPass_adds_one_then_floors paymentAccepted db now member pm st np db' :
  checkin tza paymentAccepted db now (Some member) true pm = (Welcome st np, db') ->
  let total := resolvedTotal now member (periodsOf db (m_id member)) in
  daysRemaining st = Z.max 0 (total + 1)
  /\ (exists st0,
        checkin tza paymentAccepted db now (Some member) false pm
        = (Welcome st0 None, db)
        /\ daysRemaining st0 = Z.max 0 total
        /\ (daysRemaining st = daysRemaining st0 + 1 <-> 0 <= total))
  /\ (Forall wellFormed (periodsOf db (m_id member)) ->
      0 <= total /\ daysRemaining st = total + 1).
Proof.
  intros Hin total. apply checkin_welcome in Hin. cbv zeta in Hin.
  destruct Hin as (Ha & He & _ & Hd & _).
  rewrite (remainingDays_total _ _ _ _ (currentPeriods_perm db now member)) in Hd.
  fold total in Hd. split; [exact Hd|]. split.
  - destruct (checkin_plain tza paymentAccepted db now member pm Ha He)
      as (st0 & Hc & Hd0 & _).
    rewrite (remainingDays_total _ _ _ _ (currentPeriods_perm db now member)) in Hd0.
    fold total in Hd0. exists st0. split; [exact Hc|]. split; [exact Hd0|]. lia.
  - intros Hwf. pose proof (checkin_total_nonneg tza db now member Hwf He) as Hpos.
    rewrite (remainingDays_total _ _ _ _ (currentPeriods_perm db now member)) in Hpos.
    fold total in Hpos. lia.
Qed.

End Zone.

Import Scenarios Requests MemberRoutes RouteScenarios.

(** C3, counterexample.  With two overlapping one-month periods the routes
    report 43 days (19 + 24, each measured against [now]) where the cursor
    walk of the specification gives 24. *)
Lemma overlapping_periods_are_counted_twice :
  map daysRemaining (search 0 overlapDb noonMarch1 [overlapMember]) = [43]
  /\ fst (checkin 0 onFile overlapDb noonMarch1 (Some overlapMember) false None)
     = Welcome {| statusLabel := "active"; daysRemaining := 43; activePeriods := 2 |}
               None
  /\ cursorWalk noonMarch1 (periodsOf overlapDb (m_id overlapMember)) = 24
  /\ map daysRemaining (search 0 overlapDb noonMarch1 [overlapMember])
     <> [cursorWalk noonMarch1 (periodsOf overlapDb (m_id overlapMember))].
Proof.
  vm_compute. repeat split; try reflexivity. discriminate.
Qed.



(** C8, counterexample.  The member whose record was edited to end on
    1 January 2025 while the only period ends 1 February 2024 has 1 day
    remaining on 31 January at noon and 335 days remaining on 1 February at
    midnight. *)
Lemma stale_member_end_date_breaks_antitone :
  civil 0 2024 1 31 + hours 12 <= civil 0 2024 2 1
  /\ fst (checkin 0 onFile editedDb (civil 0 2024 1 31 + hours 12) (Some editedMember) false None)
     = Welcome {| statusLabel := "active"; daysRemaining := 1; activePeriods := 1 |}
               None
  /\ fst (checkin 0 onFile editedDb (civil 0 2024 2 1) (Some editedMember) false None)
     = Welcome {| statusLabel := "active"; daysRemaining := 335; activePeriods := 0 |}
               None
  /\ map daysRemaining (search 0 editedDb (civil 0 2024 1 31 + hours 12) [editedMember])
     = [1]
  /\ map daysRemaining (search 0 editedDb (civil 0 2024 2 1) [editedMember]) = [335]
  /\ ~ (335 <= 1).
Proof.
  split; [apply Z.leb_le; reflexivity|].
  repeat (split; [reflexivity|]). lia.
Qed.

Lemma daysRemaining_antitone_witness :
  noonMarch1 <= noonMarch1 + msPerDay
  /\ Forall wellFormed (periodsOf monthlyDb (m_id monthlyMember))
  /\ Exists (fun p => isActiveStatus p = true
                      /\ m_endDate monthlyMember <= endDate p)
            (periodsOf monthlyDb (m_id monthlyMember))
  /\ Z.max 0 (checkinRemainingDays (noonMarch1 + msPerDay) monthlyMember
                (findCurrentPeriods monthlyDb [m_id monthlyMember]
                                    (noonMarch1 + msPerDay)))
     <= Z.max 0 (checkinRemainingDays noonMarch1 monthlyMember
                   (findCurrentPeriods monthlyDb [m_id monthlyMember] noonMarch1)).
Proof.
  assert (Hle : noonMarch1 <= noonMarch1 + msPerDay)
    by (apply Z.leb_le; reflexivity).
  assert (Hwf : Forall wellFormed (periodsOf monthlyDb (m_id monthlyMember)))
    by (repeat constructor; apply Z.leb_le; reflexivity).
  assert (Hex : Exists (fun p => isActiveStatus p = true
                                 /\ m_endDate monthlyMember <= endDate p)
                       (periodsOf monthlyDb (m_id monthlyMember)))
    by (apply Exists_cons_hd; split; [reflexivity | apply Z.leb_le; reflexivity]).
  split; [exact Hle|]. split; [exact Hwf|]. split; [exact Hex|].
  exact (proj1 (daysRemaining_antitone 0 monthlyDb monthlyMember
                  noonMarch1 (noonMarch1 + msPerDay) Hle Hwf Hex)).
Defined.

Lemma checkin_dayPass_adds_one_then_floors_witness :
  checkin 0 onFile monthlyDb noonMarch1 (Some monthlyMember) true (Some 1)
  = (Welcome {| statusLabel := "active"; daysRemaining := 20;
                activePeriods := 2 |} (Some checkinPass), monthlyDbAfter)
  /\ resolvedTotal noonMarch1 monthlyMember (periodsOf monthlyDb 5) = 19
  /\ 20 = Z.max 0 (resolvedTotal noonMarch1 monthlyMember (periodsOf monthlyDb 5) + 1).
Proof.
  split; [reflexivity|]. split; [reflexivity|].
  exact (proj1 (checkin_dayPass_adds_one_then_floors 0 onFile monthlyDb noonMarch1
                  monthlyMember (Some 1)
                  {| statusLabel := "active"; daysRemaining := 20; activePeriods := 2 |}
                  (Some checkinPass) monthlyDbAfter eq_refl)).
Defined.

(** C10, counterexample.  A member enrolled through [POST /] with a
    duration of minus one month from 1 June 2024 holds a period that ends
    on 1 May, a month before it starts.  At check-in on 15 April at noon
    the count over the periods is -30; the answer says 0 days without the
    sale of a day pass and 0 days with it, not one more. *)
Lemma backwards_period_hides_the_added_day :
  createMember 0 true openingDb backwardsBody = (Done 201 1, backwardsDb)
  /\ findMember backwardsDb 1 = Some backwardsMember
  /\ checkinRemainingDays noonApril15 backwardsMember
       (findCurrentPeriods backwardsDb [1] noonApril15) = -30
  /\ fst (checkin 0 onFile backwardsDb noonApril15 (Some backwardsMember) false (Some 1))
     = Welcome {| statusLabel := "active"; daysRemaining := 0; activePeriods := 1 |}
               None
  /\ exists period,
      fst (checkin 0 onFile backwardsDb noonApril15 (Some backwardsMember) true (Some 1))
      = Welcome {| statusLabel := "active"; daysRemaining := 0; activePeriods := 2 |}
                (Some period).
Proof.
  split; [reflexivity|]. split; [reflexivity|]. split; [reflexivity|].
  split; [reflexivity|]. eexists. vm_compute. reflexivity.
Qed.

(** What check-in reports does not grow with the reference instant either,
    under the same conditions. *)
Lemma checkin_answers_antitone tza paymentAccepted db member pm t1 t2
      st1 st2 np1 np2 db1 db2 :
  t1 <= t2 ->
  Forall wellFormed (periodsOf db (m_id member)) ->
  Exists (fun p => isActiveStatus p = true /\ m_endDate member <= endDate p)
         (periodsOf db (m_id member)) ->
  checkin tza paymentAccepted db t1 (Some member) false pm = (Welcome st1 np1, db1) ->
  checkin tza paymentAccepted db t2 (Some member) false pm = (Welcome st2 np2, db2) ->
  daysRemaining st2 <= daysRemaining st1.
Proof.
  intros Hle Hwf Hex H1 H2.
  apply checkin_welcome in H1. apply checkin_welcome in H2. cbv zeta in H1, H2.
  destruct H1 as (_ & _ & _ & -> & _). destruct H2 as (_ & _ & _ & -> & _).
  rewrite !(remainingDays_resolved _ _ _ _ (currentPeriods_perm db _ member)).
  now apply resolvedDays_antitone.
Qed.

(** The count in the answer is not taken from the ledger after the
    purchase: the day pass sold to [monthlyMember] lies three weeks ahead
    and would itself count for two days. *)
Example checkin_days_not_recomputed :
  fst (checkin 0 onFile monthlyDb noonMarch1 (Some monthlyMember) true (Some 1))
  = Welcome {| statusLabel := "active"; daysRemaining := 20; activePeriods := 2 |}
            (Some checkinPass)
  /\ snd (checkin 0 onFile monthlyDb noonMarch1 (Some monthlyMember) true (Some 1))
     = monthlyDbAfter
  /\ resolvedDays noonMarch1 monthlyMember (periodsOf monthlyDbAfter 5) = 21.
Proof. vm_compute. repeat split; reflexivity. Qed.

End ContinuityFacts.

(** ** Engagement analysis *)

Module AnalyticsFacts.
Import JSDateFacts ListFacts ContinuityFacts Analytics.

Lemma fold_accumulate l a b :
  fold_left accumulate l (a, b)
  = (a + sum (map (fun p => ceilDays (endDate (period p) - startDate (period p))) l),
     b + sum (map (fun p => match transaction p with
                            | Some tx => amount tx
                            | None => 0
                            end) l)).
Proof.
  revert a b. induction l as [|p l IH]; intros a b; cbn [fold_left map].
  - rewrite !sum_nil. f_equal; lia.
  - unfold accumulate at 2. destruct (transaction p) as [tx|];
      rewrite IH, !sum_cons; f_equal; lia.
Qed.

(** The summary of a history that is not empty, field by field. *)
Lemma analyze_nonempty p ps :
  let periods := p :: ps in
  let sorted := sortBy byStartDate periods in
  let n := Z.of_nat (List.length periods) in
  let totalDays :=
    sum (map (fun q => ceilDays (endDate (period q) - startDate (period q))) periods) in
  let totalSpent :=
    sum (map (fun q => match transaction q with
                       | Some tx => amount tx
                       | None => 0
                       end) periods) in
  let gaps := collectGaps sorted in
  let totalGapDays := sum (map days gaps) in
  analyzeMembershipPattern periods
  = {| totalPeriods := n;
       totalDays := totalDays;
       totalSpent := totalSpent;
       averageDuration := roundDiv totalDays n;
       gaps := gaps;
       loyaltyScore :=
         Z.min 100
           ((if 3 <=? n then 30 else 0)
            + (if totalGapDays <? 30 then 25 else 0)
            + (if 30 * n <? totalDays then 25 else 0)
            + (if 1000000 <? totalSpent then 20 else 0));
       membershipType :=
         if 5 <=? n then "loyal"%string
         else if 3 <=? n then "returning"%string
         else if n =? 2 then "second_time"%string
         else "new"%string;
       averageGapDays :=
         Some (if 0 <? Z.of_nat (List.length gaps)
               then roundDiv totalGapDays (Z.of_nat (List.length gaps))
               else 0) |}.
Proof.
  cbv zeta. unfold analyzeMembershipPattern.
  rewrite fold_accumulate.
  rewrite (sum_perm _ _ (Permutation_map _ (sortBy_perm byStartDate (p :: ps)))).
  rewrite (sum_perm _ _ (Permutation_map
                           (fun q => match transaction q with
                                     | Some tx => amount tx
                                     | None => 0
                                     end)
                           (sortBy_perm byStartDate (p :: ps)))).
  rewrite !Z.add_0_l. reflexivity.
Qed.

(** C5, the code on the empty history.  The early return yields the
    baseline values for seven fields and no [averageGapDays] property,
    which every summary of a non-empty history has. *)
Theorem baseline_lacks_averageGapDays :
  analyzeMembershipPattern []
  = {| totalPeriods := 0; totalDays := 0; totalSpent := 0; averageDuration := 0;
       gaps := []; loyaltyScore := 0; membershipType := "new";
       averageGapDays := None |}
  /\ averageGapDays (analyzeMembershipPattern []) <> Some 0
  /\ forall p ps, averageGapDays (analyzeMembershipPattern (p :: ps)) <> None.
Proof.
  split; [reflexivity|]. split; [discriminate|].
  intros p ps. rewrite analyze_nonempty. cbn [averageGapDays]. discriminate.
Qed.

(** C6 (as amended).  For a history that is not empty the loyalty score
    is 30 for three or more periods, plus 25 when the gap days add up to
    less than 30 (their total, not their mean), plus 25 when
    [totalDays / totalPeriods] exceeds 30, plus 20 when more than 1,000,000
    was spent; the sum never exceeds 100.  The empty history scores 0. *)
Theorem loyaltyScore_uses_total_gap_days p ps :
  let r := analyzeMembershipPattern (p :: ps) in
  loyaltyScore r
  = (if 3 <=? totalPeriods r then 30 else 0)
    + (if sum (map days (gaps r)) <? 30 then 25 else 0)
    + (if 30 * totalPeriods r <? totalDays r then 25 else 0)
    + (if 1000000 <? totalSpent r then 20 else 0)
  /\ 0 <= loyaltyScore r <= 100
  /\ loyaltyScore (analyzeMembershipPattern []) = 0.
Proof.
  cbv zeta. rewrite analyze_nonempty.
  cbn [loyaltyScore totalPeriods gaps totalDays totalSpent].
  repeat match goal with |- context [if ?b then _ else _] => destruct b end;
    repeat split; cbn; lia.
Qed.


Import Scenarios.

(** C6, counterexample.  Three periods with two gaps of 20 days: the mean
    gap is 20, under 30, but the gaps total 40 and the score is 30, without
    the 25 of the gap bonus. *)
Lemma two_gaps_of_twenty_days_earn_no_bonus :
  loyaltyScore (analyzeMembershipPattern twoGapsHistory) = 30
  /\ map days (gaps (analyzeMembershipPattern twoGapsHistory)) = [20; 20]
  /\ averageGapDays (analyzeMembershipPattern twoGapsHistory) = Some 20
  /\ specLoyaltyScore (analyzeMembershipPattern twoGapsHistory) = 55
  /\ loyaltyScore (analyzeMembershipPattern twoGapsHistory)
     <> specLoyaltyScore (analyzeMembershipPattern twoGapsHistory).
Proof.
  vm_compute. repeat split; try reflexivity. discriminate.
Qed.

Lemma civil_january tza y d :
  civil tza y 1 d = civil tza y 1 1 + (d - 1) * msPerDay.
Proof.
  unfold civil, UTC, MakeDate. rewrite !MakeDay_in_year by lia.
  eval_tables. lia.
Qed.

Lemma civil_february tza y d :
  civil tza y 2 d = civil tza y 1 1 + (31 + d - 1) * msPerDay.
Proof.
  unfold civil, UTC, MakeDate. rewrite !MakeDay_in_year by lia.
  eval_tables. lia.
Qed.

(** C7 (as amended).  [totalDays] adds up, over the periods, the number
    of days from start to end rounded up, [ceil((end - start) / 1 day)],
    without counting the first day in; for the two periods 1 to 31 January
    and 5 to 28 February (local midnights of any year), each paid with
    150000, the summary has totalDays 53, totalSpent 300000, one gap of
    5 days, averageGapDays 5, type 'second_time' and loyalty score 25. *)
Theorem totalDays_of_january_february_history :
  (forall p ps,
      totalDays (analyzeMembershipPattern (p :: ps))
      = sum (map (fun q => ceilDays (endDate (period q) - startDate (period q)))
                 (p :: ps)))
  /\ (forall tza y,
         analyzeMembershipPattern (janFebHistory tza y)
         = {| totalPeriods := 2; totalDays := 53; totalSpent := 300000;
              averageDuration := 27;
              gaps := [ {| afterPeriod := 0; beforePeriod := 1; days := 5;
                           g_startDate := civil tza y 1 31;
                           g_endDate := civil tza y 2 5 |} ];
              loyaltyScore := 25; membershipType := "second_time";
              averageGapDays := Some 5 |}).
Proof.
  split.
  - intros p ps. rewrite analyze_nonempty. reflexivity.
  - intros tza y. unfold janFebHistory. rewrite analyze_nonempty. cbv zeta.
    assert (Hs : sortBy byStartDate
                   [paid (civil tza y 1 1) (civil tza y 1 31) 150000;
                    paid (civil tza y 2 5) (civil tza y 2 28) 150000]
                 = [paid (civil tza y 1 1) (civil tza y 1 31) 150000;
                    paid (civil tza y 2 5) (civil tza y 2 28) 150000]).
    { cbn [sortBy insertSorted]. unfold byStartDate. cbn [paid period mkPeriod startDate].
      rewrite civil_february.
      destruct (Z.leb_spec (civil tza y 1 1)
                  (civil tza y 1 1 + (31 + 5 - 1) * msPerDay)); [reflexivity|].
      unfold msPerDay in *. lia. }
    rewrite Hs. cbn [map collectGaps gapsFrom paid period mkPeriod transaction
                     startDate endDate amount List.length].
    rewrite !sum_cons, sum_nil.
    replace (civil tza y 1 31 - civil tza y 1 1) with (30 * msPerDay)
      by (rewrite (civil_january tza y 31); lia).
    replace (civil tza y 2 28 - civil tza y 2 5) with (23 * msPerDay)
      by (rewrite !civil_february; lia).
    replace (civil tza y 2 5 - civil tza y 1 31) with (5 * msPerDay)
      by (rewrite civil_february, (civil_january tza y 31); lia).
    reflexivity.
Qed.

(** C7, counterexample.  In 2025 the history gives 53 total days and a
    gap of 5 days; with period ends at 23:59:59.999 it gives 55 total days
    and still a gap of 5 days. *)
Lemma january_february_history_has_gap_of_five :
  totalDays (analyzeMembershipPattern (janFebHistory 0 2025)) = 53
  /\ map days (gaps (analyzeMembershipPattern (janFebHistory 0 2025))) = [5]
  /\ averageGapDays (analyzeMembershipPattern (janFebHistory 0 2025)) = Some 5
  /\ totalDays (analyzeMembershipPattern (janFebHistoryEndOfDay 0 2025)) = 55
  /\ map days (gaps (analyzeMembershipPattern (janFebHistoryEndOfDay 0 2025))) = [5]
  /\ map days (gaps (analyzeMembershipPattern (janFebHistory 0 2025))) <> [4].
Proof.
  vm_compute. repeat split; try reflexivity. discriminate.
Qed.

(** Whatever the times of day, an end on 31 January and a start on
    5 February are more than four days apart. *)
Lemma gap_jan31_feb5_at_least_five tza y e1 s2 :
  Day (LocalTime tza e1) = MakeDay y 0 31 ->
  Day (LocalTime tza s2) = MakeDay y 1 5 ->
  5 <= ceilDays (s2 - e1).
Proof.
  rewrite !MakeDay_in_year by lia. eval_tables.
  unfold Day, LocalTime. intros H1 H2.
  pose proof (ceilDays_spec (s2 - e1)) as Hc.
  unfold msPerDay in *. Z.to_euclidean_division_equations. lia.
Qed.

End AnalyticsFacts.

(** ** Deleting a member *)

Module StoreFacts.
Import Store.

Lemma deleteMember_cases id db :
  (existsb (fun m => m_id m =? id) (db_member db) = true
   /\ deleteMember id db
      = (200, {| db_member := filter (fun m => negb (m_id m =? id)) (db_member db);
                 db_membershipPackage := db_membershipPackage db;
                 db_transaction :=
                   filter (fun t => negb (t_memberId t =? id)) (db_transaction db);
                 db_membershipPeriod :=
                   filter (fun p => negb (memberId p =? id)) (db_membershipPeriod db) |}))
  \/ (existsb (fun m => m_id m =? id) (db_member db) = false
      /\ deleteMember id db = (404, db)).
Proof.
  unfold deleteMember. destruct (existsb _ (db_member db)); [left | right]; auto.
Qed.


Import Scenarios.



End StoreFacts.

(** ** More on period bounds *)

Module TemporalMore.
Import JSDateFacts ListFacts TemporalPolicy TemporalFacts Store.

Lemma MakeDay_date_shift y m d k : MakeDay y m (d + k) = MakeDay y m d + k.
Proof. unfold MakeDay. lia. Qed.

Lemma MakeDay_month_step y m d :
  28 <= MakeDay y (m + 1) d - MakeDay y m d <= 31.
Proof.
  rewrite MakeDay_carry, MakeDay_date_shift.
  assert (Hr : 0 <= m mod 12 < 12) by (apply Z.mod_pos_bound; lia).
  pose proof (DaysInMonth_range (y + m / 12) (m mod 12) Hr) as Hd.
  generalize dependent (MakeDay y m d). intros base.
  generalize dependent (DaysInMonth (y + m / 12) (m mod 12)). intros days ?. lia.
Qed.

Lemma steps_bound (f : Z -> Z) :
  (forall n, 0 <= n -> 28 <= f (n + 1) - f n <= 31) ->
  forall n, 0 <= n -> 28 * n <= f n - f 0 <= 31 * n.
Proof.
  intros Hstep n Hn. pattern n. apply natlike_ind; [lia | | exact Hn].
  intros k Hk IH. specialize (Hstep k Hk). unfold Z.succ. lia.
Qed.

Lemma MakeDay_next_month y m d k :
  0 <= k -> 28 <= MakeDay y (m + (k + 1)) d - MakeDay y (m + k) d <= 31.
Proof.
  intros _. rewrite Z.add_assoc. apply MakeDay_month_step.
Qed.

Lemma MakeDay_months_from y m d n :
  0 <= n ->
  28 * n <= MakeDay y (m + n) d - MakeDay y (m + 0) d <= 31 * n.
Proof.
  intros Hn.
  exact (steps_bound (fun k => MakeDay y (m + k) d) (MakeDay_next_month y m d) n Hn).
Qed.

(** Moving [n] months ahead moves between 28 and 31 days per month. *)
Lemma MakeDay_months_ahead y m d n :
  0 <= n ->
  28 * n <= MakeDay y (m + n) d - MakeDay y m d <= 31 * n.
Proof.
  intros Hn. pose proof (MakeDay_months_from y m d n Hn) as H.
  rewrite Z.add_0_r in H. exact H.
Qed.

Section Zone.
Variable tza : Z.

Lemma addMonths_difference t n :
  addMonths tza t n - t
  = (MakeDay (getFullYear tza t) (getMonth tza t + n) (getDate tza t)
     - MakeDay (getFullYear tza t) (getMonth tza t) (getDate tza t)) * msPerDay.
Proof.
  pose proof (addMonths_local tza t n) as Ha.
  pose proof (Day_TimeWithinDay (LocalTime tza t)) as Ht.
  pose proof (MakeDay_fields (LocalTime tza t) 0) as Hf.
  rewrite !Z.add_0_r in Hf.
  fold (getFullYear tza t) (getMonth tza t) (getDate tza t) in Hf.
  rewrite Hf. clear Hf.
  generalize dependent (MakeDay (getFullYear tza t) (getMonth tza t + n) (getDate tza t)).
  generalize dependent (TimeWithinDay (LocalTime tza t)).
  generalize dependent (Day (LocalTime tza t)).
  generalize dependent (addMonths tza t n).
  unfold LocalTime, MakeDate. intros. lia.
Qed.

Lemma addMonths_ahead t n :
  0 <= n ->
  t + 28 * n * msPerDay <= addMonths tza t n <= t + 31 * n * msPerDay.
Proof.
  intros Hn. pose proof (addMonths_difference t n) as Hd.
  pose proof (MakeDay_months_ahead (getFullYear tza t) (getMonth tza t)
                (getDate tza t) n Hn) as Hb.
  unfold msPerDay in *. nia.
Qed.

Lemma addMonths_back t n :
  n <= 0 ->
  t + 31 * n * msPerDay <= addMonths tza t n <= t + 28 * n * msPerDay.
Proof.
  intros Hn. pose proof (addMonths_difference t n) as Hd.
  pose proof (MakeDay_months_ahead (getFullYear tza t) (getMonth tza t + n)
                (getDate tza t) (- n) ltac:(lia)) as Hb.
  replace (getMonth tza t + n + - n) with (getMonth tza t) in Hb by lia.
  unfold msPerDay in *. nia.
Qed.

Lemma addMonths_zero t : addMonths tza t 0 = t.
Proof. pose proof (addMonths_ahead t 0 ltac:(lia)). lia. Qed.


(** The periods a renewal looks at, and their latest end. *)
Lemma allPeriods_latest db id :
  (findAllPeriods db id = [] /\ periodsOf db id = [])
  \/ exists first ps,
      findAllPeriods db id = first :: ps
      /\ (forall p, In p (periodsOf db id) ->
                    endDate p <= fold_left laterEnd (first :: ps) (endDate first))
      /\ exists q, In q (periodsOf db id)
                   /\ fold_left laterEnd (first :: ps) (endDate first) = endDate q.
Proof.
  pose proof (sortBy_perm byEndDateDesc (periodsOf db id)) as Hperm.
  fold (findAllPeriods db id) in Hperm. unfold periodsOf in *.
  change (sortBy byEndDateDesc
            (filter (fun p => memberId p =? id) (db_membershipPeriod db)))
    with (findAllPeriods db id) in Hperm.
  destruct (findAllPeriods db id) as [|first ps] eqn:Hall.
  - left. split; [reflexivity|]. now apply Permutation_nil.
  - right. exists first, ps. split; [reflexivity|].
    destruct (latestEnd_is_max first ps) as [Hup [q [Hq Heq]]]. split.
    + intros p Hp. rewrite Forall_forall in Hup. apply Hup.
      apply (Permutation_in _ (Permutation_sym Hperm)), Hp.
    + exists q. split; [apply (Permutation_in _ Hperm), Hq | exact Heq].
Qed.

Lemma activePeriods_latest db id :
  (findActivePeriods db id = []
   /\ filter (fun p => isActiveStatus p) (periodsOf db id) = [])
  \/ exists first ps,
      findActivePeriods db id = first :: ps
      /\ (forall p, In p (periodsOf db id) -> isActiveStatus p = true ->
                    endDate p <= fold_left laterEnd (first :: ps) (endDate first)).
Proof.
  assert (Hperm : Permutation (findActivePeriods db id)
                    (filter (fun p => isActiveStatus p) (periodsOf db id))).
  { unfold findActivePeriods, periodsOf.
    rewrite (sortBy_perm byEndDateDesc _), filter_filter. reflexivity. }
  destruct (findActivePeriods db id) as [|first ps] eqn:Hall.
  - left. split; [reflexivity|]. now apply Permutation_nil.
  - right. exists first, ps. split; [reflexivity|].
    destruct (latestEnd_is_max first ps) as [Hup _].
    intros p Hp Ha. rewrite Forall_forall in Hup. apply Hup.
    apply (Permutation_in _ (Permutation_sym Hperm)), filter_In. auto.
Qed.

Lemma startOfDay_midnight t : TimeWithinDay (LocalTime tza (startOfDay tza t)) = 0.
Proof.
  rewrite startOfDay_eq. unfold LocalTime.
  replace (MakeDate (Day (t + tza)) 0 - tza + tza) with (MakeDate (Day (t + tza)) 0) by lia.
  apply MakeDate_TimeWithinDay. unfold msPerDay. lia.
Qed.

Lemma startOfDay_next_midnight t :
  TimeWithinDay (LocalTime tza (startOfDay tza t + msPerDay)) = 0.
Proof.
  rewrite <- startOfDay_nextDay. apply startOfDay_midnight.
Qed.

Lemma same_day_of_midnight s :
  TimeWithinDay (LocalTime tza s) = 0 ->
  Day (LocalTime tza (s + (msPerDay - 1))) = Day (LocalTime tza s).
Proof.
  unfold TimeWithinDay, Day, LocalTime, msPerDay.
  intros H. Z.to_euclidean_division_equations. lia.
Qed.

(** The start of a day pass is a local midnight, whatever the branch. *)
Lemma dayPass_starts_at_midnight db now member pkg existing :
  durationMonths pkg = 0 ->
  TimeWithinDay (LocalTime tza (fst (renew tza db now member pkg))) = 0
  /\ TimeWithinDay (LocalTime tza (fst (withTransactionDayPass tza db now existing))) = 0
  /\ TimeWithinDay (LocalTime tza (fst (checkinDayPass tza db now member))) = 0.
Proof.
  intros Hd. unfold renew, renewDates, withTransactionDayPass, checkinDayPass.
  rewrite Hd. cbn [Z.eqb fst snd]. repeat split.
  - destruct (findAllPeriods db (m_id member)); apply startOfDay_midnight.
  - destruct existing as [m|]; [|apply startOfDay_midnight].
    destruct (findAllPeriods db (m_id m)); [|apply startOfDay_midnight].
    destruct (now <? m_endDate m); apply startOfDay_midnight.
  - apply startOfDay_midnight.
Qed.

(** X1: a day pass covers exactly one local calendar day. *)
Theorem dayPass_is_one_calendar_day db now member pkg existing :
  durationMonths pkg = 0 ->
  let covers (r : Z * Z) :=
    TimeWithinDay (LocalTime tza (fst r)) = 0
    /\ snd r = fst r + 86399999
    /\ Day (LocalTime tza (snd r)) = Day (LocalTime tza (fst r)) in
  covers (renew tza db now member pkg)
  /\ covers (withTransactionDayPass tza db now existing)
  /\ covers (checkinDayPass tza db now member).
Proof.
  intros Hd covers.
  destruct (dayPass_starts_at_midnight db now member pkg existing Hd) as (M1 & M2 & M3).
  destruct (dayPass_ends_with_its_day tza db now member pkg existing Hd) as (E1 & E2 & E3).
  unfold covers. change 86399999 with (msPerDay - 1).
  repeat split; try assumption.
  - rewrite E1. now apply same_day_of_midnight.
  - rewrite E2. now apply same_day_of_midnight.
  - rewrite E3. now apply same_day_of_midnight.
Qed.

(** X2: a day pass starts after every period the member holds. *)
Theorem dayPass_starts_after_every_period db now member pkg p :
  durationMonths pkg = 0 ->
  In p (periodsOf db (m_id member)) ->
  endDate p < fst (renew tza db now member pkg)
  /\ endDate p < fst (withTransactionDayPass tza db now (Some member))
  /\ (isActiveStatus p = true -> endDate p < fst (checkinDayPass tza db now member)).
Proof.
  intros Hd Hp.
  assert (Hlate : forall latest, endDate p <= latest ->
                                 endDate p < startOfDay tza (nextDay tza latest)).
  { intros latest Hle. rewrite startOfDay_nextDay.
    pose proof (startOfDay_le tza latest). lia. }
  split; [|split].
  - unfold renew, renewDates. rewrite Hd. cbn [Z.eqb fst].
    destruct (allPeriods_latest db (m_id member)) as [[_ He] | (f & ps & -> & Hup & _)].
    + rewrite He in Hp. destruct Hp.
    + apply Hlate, Hup, Hp.
  - unfold withTransactionDayPass. cbn [fst].
    destruct (allPeriods_latest db (m_id member)) as [[_ He] | (f & ps & -> & Hup & _)].
    + rewrite He in Hp. destruct Hp.
    + apply Hlate, Hup, Hp.
  - intros Ha. unfold checkinDayPass. cbn [fst].
    destruct (activePeriods_latest db (m_id member)) as [[_ He] | (f & ps & -> & Hup)].
    + assert (Hin : In p (filter (fun q => isActiveStatus q) (periodsOf db (m_id member))))
        by (apply filter_In; auto).
      rewrite He in Hin. destruct Hin.
    + apply Hlate, Hup; assumption.
Qed.

(** X3: a renewal with a regular package starts neither in the past nor
    before a period of the member has ended, and ends after it starts. *)
Theorem regular_renewal_follows_the_ledger db now member pkg :
  0 < durationMonths pkg ->
  let r := renew tza db now member pkg in
  now <= fst r
  /\ fst r + 28 * durationMonths pkg * msPerDay <= snd r
  /\ (forall p, In p (periodsOf db (m_id member)) -> endDate p <= fst r).
Proof.
  intros Hd r. unfold r, renew, renewDates.
  destruct (Z.eqb_spec (durationMonths pkg) 0) as [H0 | _]; [lia|]. cbn [fst snd].
  split; [|split].
  - destruct (findAllPeriods db (m_id member)) as [|first ps].
    + destruct (Z.ltb_spec now (m_endDate member)).
      * rewrite Z.eqb_refl. cbn [andb]. rewrite nextDay_eq. unfold msPerDay. lia.
      * rewrite andb_false_r. lia.
    + destruct (Z.ltb_spec now (fold_left laterEnd (first :: ps) (endDate first))); [|lia].
      rewrite startOfDay_nextDay.
      pose proof (startOfDay_le tza (fold_left laterEnd (first :: ps) (endDate first))). lia.
  - apply addMonths_ahead. lia.
  - intros p Hp.
    destruct (allPeriods_latest db (m_id member)) as [[_ He] | (f & ps & -> & Hup & _)].
    + rewrite He in Hp. destruct Hp.
    + specialize (Hup p Hp).
      destruct (Z.ltb_spec now (fold_left laterEnd (f :: ps) (endDate f))); [|lia].
      rewrite startOfDay_nextDay.
      pose proof (startOfDay_le tza (fold_left laterEnd (f :: ps) (endDate f))). lia.
Qed.

(** X4: the length of a regular period: between 28 and 31 days for each
    month of the duration. *)
Theorem regular_period_length start n :
  0 < n ->
  let lasts (s e : Z) :=
    s + 28 * n * msPerDay <= e <= s + 31 * n * msPerDay in
  lasts start (createMemberEnd tza start n)
  /\ lasts (fst (transactionPeriod tza start n)) (snd (transactionPeriod tza start n))
  /\ lasts (fst (withTransactionRegular tza start n))
           (snd (withTransactionRegular tza start n)).
Proof.
  intros Hn lasts. unfold lasts, createMemberEnd, transactionPeriod, withTransactionRegular.
  destruct (Z.eqb_spec n 0); [lia|]. cbn [fst snd].
  pose proof (addMonths_ahead start n ltac:(lia)). repeat split; lia.
Qed.

End Zone.

Import Scenarios.

Lemma dayPass_is_one_calendar_day_witness :
  durationMonths dayPass = 0
  /\ TimeWithinDay (LocalTime 0 (fst (renew 0 monthlyDb noonMarch1 monthlyMember dayPass))) = 0
  /\ snd (renew 0 monthlyDb noonMarch1 monthlyMember dayPass)
     = fst (renew 0 monthlyDb noonMarch1 monthlyMember dayPass) + 86399999.
Proof.
  split; [reflexivity|].
  pose proof (dayPass_is_one_calendar_day 0 monthlyDb noonMarch1 monthlyMember dayPass
                None eq_refl) as H.
  cbv zeta in H. destruct H as ((H1 & H2 & _) & _). split; assumption.
Defined.

Lemma dayPass_starts_after_every_period_witness :
  durationMonths dayPass = 0
  /\ In (mkPeriod 6 5 (civil 0 2024 2 20) (civil 0 2024 3 20) "Bulanan" 1 (Some 4))
        (periodsOf monthlyDb (m_id monthlyMember))
  /\ civil 0 2024 3 20 < fst (renew 0 monthlyDb noonMarch1 monthlyMember dayPass).
Proof.
  assert (Hin : In (mkPeriod 6 5 (civil 0 2024 2 20) (civil 0 2024 3 20)
                             "Bulanan" 1 (Some 4))
                   (periodsOf monthlyDb (m_id monthlyMember)))
    by (left; reflexivity).
  split; [reflexivity|]. split; [exact Hin|].
  exact (proj1 (dayPass_starts_after_every_period 0 monthlyDb noonMarch1 monthlyMember
                  dayPass _ eq_refl Hin)).
Defined.

Lemma regular_renewal_follows_the_ledger_witness :
  0 < durationMonths monthly
  /\ noonMarch1 <= fst (renew 0 monthlyDb noonMarch1 monthlyMember monthly).
Proof.
  split; [reflexivity|].
  exact (proj1 (regular_renewal_follows_the_ledger 0 monthlyDb noonMarch1 monthlyMember
                  monthly eq_refl)).
Defined.

Lemma regular_period_length_witness :
  0 < 1
  /\ civil 0 2024 1 31 + 28 * 1 * msPerDay
     <= createMemberEnd 0 (civil 0 2024 1 31) 1
     <= civil 0 2024 1 31 + 31 * 1 * msPerDay.
Proof.
  split; [reflexivity|].
  exact (proj1 (regular_period_length 0 (civil 0 2024 1 31) 1 eq_refl)).
Defined.

End TemporalMore.

(** ** More on check-in and search *)

Module CheckinMore.
Import JSDateFacts ListFacts TemporalPolicy TemporalFacts Store Continuity
       ContinuityFacts Requests PublicRoutes.

Lemma fold_max_ge l a : a <= fold_left Z.max l a.
Proof.
  revert a. induction l as [|x l IH]; intros a; cbn [fold_left]; [lia|].
  specialize (IH (Z.max a x)). lia.
Qed.

Lemma fold_max_upper l a : Forall (fun x => x <= fold_left Z.max l a) l.
Proof.
  revert a. induction l as [|x l IH]; intros a; cbn [fold_left]; constructor.
  - pose proof (fold_max_ge l (Z.max a x)). lia.
  - apply IH.
Qed.

(** The next key of a table is above every key in it. *)
Lemma nextId_fresh {A} (idOf : A -> Z) rows :
  Forall (fun r => idOf r < nextId idOf rows) rows.
Proof.
  unfold nextId. pose proof (fold_max_upper (map idOf rows) 0) as H.
  rewrite Forall_map in H. eapply Forall_impl; [|exact H].
  cbn beta. intros; lia.
Qed.

(** With a period that qualifies, the count of days is positive. *)
Lemma sumPeriods_positive now Q :
  Q <> [] ->
  Forall (fun p => wellFormed p /\ now < endDate p) Q ->
  1 <= sumPeriods now Q.
Proof.
  intros Hne HQ. rewrite sumPeriods_sum.
  assert (Hall : Forall (fun p => 1 <= countPeriod now 0 p) Q).
  { eapply Forall_impl; [|exact HQ]. intros p [Hwf Hq].
    rewrite countPeriod_qualifying by exact Hq. now apply fixedStep_pos. }
  pose proof (sum_map_ge_length _ _ Hall).
  destruct Q; [congruence|]. cbn [List.length] in *. lia.
Qed.

Lemma qualifying_wellFormed now history Q :
  Forall wellFormed history ->
  Permutation Q (filter (qualifies now) history) ->
  Forall (fun p => wellFormed p /\ now < endDate p) Q.
Proof.
  intros Hwf HQ. apply Forall_forall. intros p Hp.
  apply (Permutation_in _ HQ), filter_In in Hp. destruct Hp as [Hin Hq].
  rewrite Forall_forall in Hwf. split; [now apply Hwf | now apply qualifies_lt].
Qed.

Section Zone.
Variable tza : Z.

(** X5: who is let in: a member the lookup found, active and not
    expired; when a day pass is asked for, the request names a payment
    method, the Day Pass package exists and the store takes the transaction
    row with that payment method.  A row that the store refuses is answered
    500. *)
Theorem checkin_welcomes_exactly paymentAccepted db now lookup createDayPass pm :
  ((exists st np db',
       checkin tza paymentAccepted db now lookup createDayPass pm
       = (Welcome st np, db'))
   <-> exists member,
       lookup = Some member
       /\ isActive member = true
       /\ checkinExpired tza now member = false
       /\ (createDayPass = true ->
           findDayPassPackage db <> None
           /\ exists id, pm = Some id /\ paymentAccepted id = true))
  /\ (fst (checkin tza paymentAccepted db now lookup createDayPass pm)
      = Refused 500 "Internal server error"
      <-> exists member id,
          lookup = Some member
          /\ isActive member = true
          /\ checkinExpired tza now member = false
          /\ createDayPass = true
          /\ findDayPassPackage db <> None
          /\ pm = Some id /\ paymentAccepted id = false).
Proof.
  split; split.
  - intros (st & np & db' & H). destruct lookup as [member|]; [|discriminate].
    exists member. split; [reflexivity|].
    pose proof (checkin_welcome tza paymentAccepted db now member createDayPass pm
                  st np db' H) as Hw.
    cbv zeta in Hw. destruct Hw as (Ha & He & _).
    split; [exact Ha|]. split; [exact He|].
    intros ->. unfold checkin in H. cbv zeta in H. rewrite Ha, He in H. cbn [negb] in H.
    destruct pm as [id|]; [|discriminate].
    destruct (findDayPassPackage db); [|discriminate].
    destruct (checkinDayPass tza db now member). cbn [t_paymentMethodId] in H.
    destruct (paymentAccepted id) eqn:Hacc; [|discriminate].
    split; [discriminate|]. exists id. split; [reflexivity | exact Hacc].
  - intros (member & -> & Ha & He & Hc). unfold checkin. cbv zeta.
    rewrite Ha, He. cbn [negb]. destruct createDayPass.
    + destruct (Hc eq_refl) as [Hpk (id & -> & Hacc)].
      destruct (findDayPassPackage db); [|congruence].
      destruct (checkinDayPass tza db now member). cbn [t_paymentMethodId].
      rewrite Hacc. cbn [negb]. eauto.
    + eauto.
  - destruct lookup as [member|]; [|discriminate]. unfold checkin. cbv zeta.
    destruct (isActive member) eqn:Ha; cbn [negb]; [|discriminate].
    destruct (checkinExpired tza now member) eqn:He; [discriminate|].
    destruct createDayPass; [|discriminate].
    destruct pm as [id|]; [|discriminate].
    destruct (findDayPassPackage db) eqn:Hpk; [|discriminate].
    destruct (checkinDayPass tza db now member). cbn [t_paymentMethodId].
    destruct (paymentAccepted id) eqn:Hacc; cbn [negb fst]; [discriminate|].
    intros _. exists member, id. repeat split; try reflexivity; try assumption.
    discriminate.
  - intros (member & id & -> & Ha & He & -> & Hpk & -> & Hacc).
    unfold checkin. cbv zeta. rewrite Ha, He. cbn [negb].
    destruct (findDayPassPackage db); [|congruence].
    destruct (checkinDayPass tza db now member). cbn [t_paymentMethodId].
    rewrite Hacc. reflexivity.
Qed.

(** X6: the store changes only when a day pass is sold. *)
Theorem checkin_writes_only_on_sale paymentAccepted db now lookup createDayPass pm :
  snd (checkin tza paymentAccepted db now lookup createDayPass pm) = db
  \/ (createDayPass = true
      /\ exists st period,
          fst (checkin tza paymentAccepted db now lookup createDayPass pm) = Welcome st (Some period)).
Proof.
  unfold checkin. cbv zeta. destruct lookup as [member|]; [|now left].
  destruct (negb (isActive member)); [now left|].
  destruct (checkinExpired tza now member); [now left|].
  destruct createDayPass; [|now left].
  destruct pm as [id|]; [|now left]. destruct (findDayPassPackage db); [|now left].
  destruct (checkinDayPass tza db now member). cbn [t_paymentMethodId].
  destruct (paymentAccepted id); cbn [negb]; [|now left].
  right. split; [reflexivity|]. cbn [fst]. eexists _, _. reflexivity.
Qed.

(** X7: what the sale of a day pass at check-in writes. *)
Theorem checkin_sale_writes_linked_rows paymentAccepted db now member pm st np db' :
  checkin tza paymentAccepted db now (Some member) true pm = (Welcome st np, db') ->
  exists pkg pmid tx period,
    findDayPassPackage db = Some pkg /\ pm = Some pmid /\ np = Some period
    /\ db' = {| db_member := db_member db;
                db_membershipPackage := db_membershipPackage db;
                db_transaction := db_transaction db ++ [tx];
                db_membershipPeriod := db_membershipPeriod db ++ [period] |}
    /\ t_memberId tx = m_id member /\ amount tx = price pkg
    /\ t_paymentMethodId tx = pmid /\ t_packageId tx = pk_id pkg
    /\ memberId period = m_id member /\ transactionId period = Some (t_id tx)
    /\ status period = "active"%string /\ duration period = 0
    /\ (startDate period, endDate period) = checkinDayPass tza db now member
    /\ Forall (fun t => t_id t < t_id tx) (db_transaction db)
    /\ Forall (fun p => p_id p < p_id period) (db_membershipPeriod db).
Proof.
  unfold checkin. cbv zeta.
  destruct (negb (isActive member)); [discriminate|].
  destruct (checkinExpired tza now member); [discriminate|].
  destruct pm as [pmid|]; [|discriminate].
  destruct (findDayPassPackage db) as [pkg|]; [|discriminate].
  destruct (checkinDayPass tza db now member) as [s e].
  cbn [t_paymentMethodId]. destruct (paymentAccepted pmid); [|discriminate].
  cbn [negb]. intros H. injection H as <- <- <-.
  eexists pkg, pmid, _, _.
  repeat (split; [reflexivity|]).
  split; [apply (nextId_fresh t_id) | apply (nextId_fresh p_id)].
Qed.

(** Shared: how the search labels a member who is not a Day Pass member. *)
Lemma search_label_regular db now member :
  String.eqb (membershipType member) "Day Pass" = false ->
  Forall wellFormed (periodsOf db (m_id member)) ->
  (map statusLabel (search tza db now [member]) = ["expired"%string]
   <-> m_endDate member < now
       /\ filter (qualifies now) (periodsOf db (m_id member)) = []).
Proof.
  intros Hty Hwf. unfold search. cbn [map statusLabel searchStatus]. rewrite Hty.
  pose proof (periodsGrouped_perm db now [member] member (or_introl eq_refl)) as HQ.
  cbn [map] in HQ.
  set (Q := periodsGrouped (findCurrentPeriods db [m_id member] now) member) in *.
  destruct (filter (qualifies now) (periodsOf db (m_id member))) as [|h hs] eqn:Hf.
  - apply Permutation_sym, Permutation_nil in HQ. rewrite HQ.
    cbn [searchRemainingDays].
    destruct (Z.ltb_spec (m_endDate member) now) as [Hlt | Hge]; cbn [andb].
    + pose proof (ceilDays_nonpos (m_endDate member - now) ltac:(lia)) as Hc.
      destruct (Z.leb_spec (ceilDays (m_endDate member - now)) 0); [|lia].
      split; [intros _; split; [lia | reflexivity] | reflexivity].
    + split; [|intros [Hlt _]; lia].
      destruct ((m_endDate member <=? now + sevenDays)
                && (ceilDays (m_endDate member - now) <=? 7)); discriminate.
  - assert (Hne : Q <> []).
    { intros HQe. rewrite HQe in HQ. apply Permutation_nil in HQ. discriminate. }
    assert (HQwf : Forall (fun p => wellFormed p /\ now < endDate p) Q).
    { apply (qualifying_wellFormed now (periodsOf db (m_id member))); [exact Hwf|].
      now rewrite Hf. }
    pose proof (sumPeriods_positive now Q Hne HQwf) as Hpos.
    assert (Htot : searchRemainingDays now member Q = sumPeriods now Q).
    { destruct Q; [congruence | reflexivity]. }
    rewrite Htot. destruct (Z.leb_spec (sumPeriods now Q) 0); [lia|].
    rewrite andb_false_r. split; [|intros [_ Hempty]; discriminate].
    destruct ((m_endDate member <=? now + sevenDays) && (sumPeriods now Q <=? 7));
      discriminate.
Qed.

(** X8: when the search calls a regular member expired. *)
Theorem search_calls_expired_exactly db now member :
  String.eqb (membershipType member) "Day Pass" = false ->
  Forall wellFormed (periodsOf db (m_id member)) ->
  (map statusLabel (search tza db now [member]) = ["expired"%string]
   <-> m_endDate member < now
       /\ forall p, In p (periodsOf db (m_id member)) ->
                    isActiveStatus p = true -> endDate p <= now).
Proof.
  intros Hty Hwf. rewrite (search_label_regular db now member Hty Hwf).
  split; intros [Hlt H]; (split; [exact Hlt|]).
  - intros p Hp Ha. destruct (Z.le_gt_cases (endDate p) now) as [|Hgt]; [assumption|].
    assert (Hin : In p (filter (qualifies now) (periodsOf db (m_id member)))).
    { apply filter_In. split; [exact Hp|]. unfold qualifies. rewrite Ha.
      apply Z.ltb_lt. lia. }
    rewrite H in Hin. destruct Hin.
  - destruct (filter (qualifies now) (periodsOf db (m_id member))) as [|q Q] eqn:Hf;
      [reflexivity|].
    assert (Hq : In q (filter (qualifies now) (periodsOf db (m_id member))))
      by (rewrite Hf; now left).
    apply filter_In in Hq. destruct Hq as [Hin Hq]. unfold qualifies in Hq.
    apply andb_prop in Hq. destruct Hq as [Ha Hlt'].
    apply Z.ltb_lt in Hlt'. specialize (H q Hin Ha). lia.
Qed.



Variable contains : string -> string -> bool.

(** Shared: a lookup without member number finds active members only. *)
Lemma lookup_without_number db body member :
  given (memberNumber body) = false ->
  lookupMember contains db body = inr (Some member) ->
  isActive member = true.
Proof.
  intros Hn. unfold lookupMember. rewrite Hn. cbn [negb andb].
  destruct (negb (givenText (c_name body)) && negb (givenText (c_phone body)));
    [discriminate|].
  destruct (givenText (c_phone body) && looksLikePhone _).
  - intros H. injection H as H. apply find_some in H. destruct H as [_ Hm].
    destruct (m_phone member); [|discriminate].
    apply andb_prop in Hm. apply Hm.
  - destruct (givenText (c_name body)); [|discriminate].
    destruct (filter _ (db_member db)) as [|m [|m' rest]] eqn:Hf; try discriminate.
    intros H. injection H as <-.
    assert (Hm : In m (filter (fun m => contains
                                  match c_name body with
                                  | Some n => n
                                  | None => ""%string
                                  end (m_name m) && isActive m)
                              (db_member db))) by (rewrite Hf; now left).
    apply filter_In in Hm. destruct Hm as [_ Hm]. apply andb_prop in Hm. apply Hm.
Qed.

(** X10: whom a check-in by phone or by name can find. *)
Theorem checkin_lookup_finds_active_member db body member :
  given (memberNumber body) = false ->
  lookupMember contains db body = inr (Some member) ->
  In member (db_member db) /\ isActive member = true
  /\ ((exists phone, c_phone body = Some phone /\ looksLikePhone phone = true
                     /\ m_phone member = Some phone)
      \/ (exists name, c_name body = Some name
                       /\ contains name (m_name member) = true
                       /\ forall other, In other (db_member db) ->
                                        contains name (m_name other) = true ->
                                        isActive other = true -> other = member)).
Proof.
  intros Hn. unfold lookupMember. rewrite Hn. cbn [negb andb].
  destruct (negb (givenText (c_name body)) && negb (givenText (c_phone body)));
    [discriminate|].
  destruct (givenText (c_phone body)
            && looksLikePhone match c_phone body with
                              | Some p => p
                              | None => ""%string
                              end) eqn:Hph.
  - intros H. injection H as H. apply find_some in H. destruct H as [Hin Hm].
    destruct (m_phone member) as [q|] eqn:Hq; [|discriminate].
    apply andb_prop in Hm. destruct Hm as [Heq Hact]. apply String.eqb_eq in Heq.
    split; [exact Hin|]. split; [exact Hact|]. left.
    apply andb_prop in Hph. destruct Hph as [Hg Hl].
    destruct (c_phone body) as [p|]; [|discriminate].
    exists p. subst q. auto.
  - destruct (givenText (c_name body)) eqn:Hg; [|discriminate].
    destruct (c_name body) as [name|]; [|discriminate].
    destruct (filter (fun m => contains name (m_name m) && isActive m) (db_member db))
      as [|m [|m' rest]] eqn:Hf; try discriminate.
    intros H. injection H as <-.
    assert (Hm : In m (filter (fun m => contains name (m_name m) && isActive m)
                              (db_member db))) by (rewrite Hf; now left).
    apply filter_In in Hm. destruct Hm as [Hin Hm]. apply andb_prop in Hm.
    destruct Hm as [Hc Hact].
    split; [exact Hin|]. split; [exact Hact|]. right. exists name.
    split; [reflexivity|]. split; [exact Hc|].
    intros other Ho Hco Hao.
    assert (Hother : In other (filter (fun m => contains name (m_name m) && isActive m)
                                      (db_member db))).
    { apply filter_In. split; [exact Ho|]. now rewrite Hco, Hao. }
    rewrite Hf in Hother. destruct Hother as [-> | []]. reflexivity.
Qed.

(** X11: only a check-in by member number tells an inactive member so. *)
Theorem inactive_answer_only_by_number paymentAccepted db now body :
  given (memberNumber body) = false ->
  fst (checkinRoute tza contains paymentAccepted db now body) <> Refused 403 "Member is inactive".
Proof.
  intros Hn. unfold checkinRoute.
  destruct (lookupMember contains db body) as [answer | [member|]] eqn:Hl.
  - cbn [fst]. unfold lookupMember in Hl. rewrite Hn in Hl. cbn [negb andb] in Hl.
    repeat match type of Hl with
           | (if ?b then _ else _) = _ => destruct b
           | match ?l with _ => _ end = _ => destruct l as [|? [|? ?]]
           end; try discriminate; injection Hl as <-; discriminate.
  - pose proof (lookup_without_number db body member Hn Hl) as Ha.
    unfold checkin. cbv zeta. rewrite Ha. cbn [negb].
    repeat match goal with
           | |- fst (if ?b then _ else _) <> _ => destruct b
           | |- fst (match ?o with _ => _ end) <> _ => destruct o
           | |- fst (let '(_, _) := ?p in _) <> _ => destruct p
           end; cbn [fst]; discriminate.
  - cbn [checkin fst]. discriminate.
Qed.
End Zone.

Import Scenarios RouteScenarios.

Lemma checkin_sale_writes_linked_rows_witness :
  checkin 0 onFile monthlyDb noonMarch1 (Some monthlyMember) true (Some 1)
  = (Welcome {| statusLabel := "active"; daysRemaining := 20; activePeriods := 2 |}
             (Some checkinPass), monthlyDbAfter)
  /\ exists tx period,
      db_transaction monthlyDbAfter = db_transaction monthlyDb ++ [tx]
      /\ db_membershipPeriod monthlyDbAfter = db_membershipPeriod monthlyDb ++ [period]
      /\ transactionId period = Some (t_id tx).
Proof.
  split; [reflexivity|].
  destruct (checkin_sale_writes_linked_rows 0 onFile monthlyDb noonMarch1 monthlyMember (Some 1)
              {| statusLabel := "active"; daysRemaining := 20; activePeriods := 2 |}
              (Some checkinPass) monthlyDbAfter eq_refl)
    as (pkg & pmid & tx & period & _ & _ & _ & Hdb & _ & _ & _ & _ & _ & Hlink & _).
  exists tx, period. rewrite Hdb. cbn [db_transaction db_membershipPeriod].
  split; [reflexivity|]. split; [reflexivity | exact Hlink].
Defined.

Lemma search_calls_expired_exactly_witness :
  String.eqb (membershipType monthlyMember) "Day Pass" = false
  /\ Forall wellFormed (periodsOf monthlyDb (m_id monthlyMember))
  /\ map statusLabel (search 0 monthlyDb (civil 0 2024 4 1) [monthlyMember])
     = ["expired"%string].
Proof.
  assert (Hwf : Forall wellFormed (periodsOf monthlyDb (m_id monthlyMember)))
    by (repeat constructor; apply Z.leb_le; reflexivity).
  split; [reflexivity|]. split; [exact Hwf|].
  apply (search_calls_expired_exactly 0 monthlyDb (civil 0 2024 4 1) monthlyMember
           eq_refl Hwf).
  split; [reflexivity|].
  intros p [<- | []] _. apply Z.leb_le. reflexivity.
Defined.


Lemma checkin_lookup_finds_active_member_witness :
  given (memberNumber (byName "Sari")) = false
  /\ lookupMember substringOf sariDb (byName "Sari") = inr (Some sari)
  /\ In sari (db_member sariDb)
  /\ isActive sari = true.
Proof.
  split; [reflexivity|]. split; [reflexivity|].
  destruct (checkin_lookup_finds_active_member substringOf sariDb (byName "Sari") sari
              eq_refl eq_refl) as (Hin & Ha & _).
  split; [exact Hin | exact Ha].
Defined.

Lemma inactive_answer_only_by_number_witness :
  given (memberNumber (byName "Sari")) = false
  /\ fst (checkinRoute 0 substringOf onFile sariDb noonMarch1 (byName "Sari"))
     <> Refused 403 "Member is inactive".
Proof.
  split; [reflexivity|].
  exact (inactive_answer_only_by_number 0 substringOf onFile sariDb noonMarch1
           (byName "Sari") eq_refl).
Defined.

End CheckinMore.

(** ** More on deleting a member *)

Module StoreMore.
Import ListFacts Store StoreFacts Requests.

Lemma filter_other {A} (key : A -> Z) (id j : Z) (l : list A) :
  j <> id ->
  filter (fun x => key x =? j) (filter (fun x => negb (key x =? id)) l)
  = filter (fun x => key x =? j) l.
Proof.
  intros Hne. rewrite filter_filter. apply filter_ext. intros x.
  destruct (Z.eqb_spec (key x) id), (Z.eqb_spec (key x) j); cbn; congruence.
Qed.

Lemma filter_self {A} (key : A -> Z) (id : Z) (l : list A) :
  filter (fun x => key x =? id) (filter (fun x => negb (key x =? id)) l) = [].
Proof.
  rewrite filter_filter. induction l as [|x l IH]; cbn [filter]; [reflexivity|].
  destruct (key x =? id); cbn; exact IH.
Qed.

Lemma find_filter_none {A} (key : A -> Z) (id : Z) (l : list A) :
  find (fun x => key x =? id) (filter (fun x => negb (key x =? id)) l) = None.
Proof.
  induction l as [|x l IH]; cbn [filter find]; [reflexivity|].
  destruct (key x =? id) eqn:He; cbn [negb find]; [exact IH|]. now rewrite He.
Qed.

Lemma find_filter_other {A} (key : A -> Z) (id j : Z) (l : list A) :
  j <> id ->
  find (fun x => key x =? j) (filter (fun x => negb (key x =? id)) l)
  = find (fun x => key x =? j) l.
Proof.
  intros Hne. induction l as [|x l IH]; cbn [filter find]; [reflexivity|].
  destruct (Z.eqb_spec (key x) id) as [He | He]; cbn [negb find].
  - destruct (Z.eqb_spec (key x) j); [congruence | exact IH].
  - now rewrite IH.
Qed.

(** X12: a deleted member leaves no trace, the others are untouched, and a
    second deletion finds nothing to do. *)
Theorem deleteMember_is_clean id db :
  fst (deleteMember id db) = 200 ->
  let db' := snd (deleteMember id db) in
  findMember db' id = None
  /\ periodsOf db' id = []
  /\ filter (fun t => t_memberId t =? id) (db_transaction db') = []
  /\ (forall j, j <> id ->
        findMember db' j = findMember db j
        /\ periodsOf db' j = periodsOf db j
        /\ filter (fun t => t_memberId t =? j) (db_transaction db')
           = filter (fun t => t_memberId t =? j) (db_transaction db))
  /\ db_membershipPackage db' = db_membershipPackage db
  /\ deleteMember id db' = (404, db').
Proof.
  intros H200. destruct (deleteMember_cases id db) as [[_ Hd] | [_ Hd]];
    rewrite Hd in *; [|discriminate].
  cbn [snd]. cbv zeta. unfold findMember, periodsOf.
  cbn [db_member db_membershipPeriod db_transaction db_membershipPackage].
  split; [apply (find_filter_none m_id)|].
  split; [apply (filter_self memberId)|].
  split; [apply (filter_self t_memberId)|].
  split.
  - intros j Hj. split; [apply (find_filter_other m_id); exact Hj|].
    split; [apply (filter_other memberId) | apply (filter_other t_memberId)]; exact Hj.
  - split; [reflexivity|].
    unfold deleteMember. cbn [db_member].
    assert (He : existsb (fun m => m_id m =? id)
                   (filter (fun m => negb (m_id m =? id)) (db_member db)) = false).
    { destruct (existsb _ _) eqn:Hex; [|reflexivity].
      apply existsb_exists in Hex. destruct Hex as [m [Hin Hm]].
      apply filter_In in Hin. destruct Hin as [_ Hn]. rewrite Hm in Hn. discriminate. }
    now rewrite He.
Qed.

Import Scenarios.

Lemma deleteMember_is_clean_witness :
  fst (deleteMember 1 twoMembersDb) = 200
  /\ findMember (snd (deleteMember 1 twoMembersDb)) 1 = None
  /\ periodsOf (snd (deleteMember 1 twoMembersDb)) 1 = [].
Proof.
  split; [reflexivity|].
  destruct (deleteMember_is_clean 1 twoMembersDb eq_refl) as (Hm & Hp & _).
  split; [exact Hm | exact Hp].
Defined.

End StoreMore.

(** ** More on the engagement analysis *)

Module AnalyticsMore.
Import JSDateFacts ListFacts ContinuityFacts Analytics AnalyticsFacts.

(** X13: the totals do not depend on the order of the history. *)
Theorem totals_ignore_order ps qs :
  Permutation ps qs ->
  let r := analyzeMembershipPattern ps in
  let r' := analyzeMembershipPattern qs in
  totalPeriods r = totalPeriods r'
  /\ totalDays r = totalDays r'
  /\ totalSpent r = totalSpent r'
  /\ averageDuration r = averageDuration r'
  /\ membershipType r = membershipType r'.
Proof.
  intros Hperm. cbv zeta.
  destruct ps as [|p ps].
  - apply Permutation_nil in Hperm. subst qs. repeat split.
  - destruct qs as [|q qs].
    + apply Permutation_sym, Permutation_nil in Hperm. discriminate.
    + rewrite !analyze_nonempty.
      cbn [totalPeriods totalDays totalSpent averageDuration membershipType].
      rewrite (Permutation_length Hperm).
      rewrite (sum_perm _ _ (Permutation_map
        (fun q0 => ceilDays (endDate (period q0) - startDate (period q0))) Hperm)).
      rewrite (sum_perm _ _ (Permutation_map
        (fun q0 => match transaction q0 with
                   | Some tx => amount tx
                   | None => 0
                   end) Hperm)).
      repeat split.
Qed.

(** Two sorted rearrangements of a list with distinct keys are equal. *)
Lemma sorted_perm_unique {A} (key : A -> Z) (l l' : list A) :
  NoDup (map key l) ->
  Permutation l l' ->
  StronglySorted (fun a b => key a <= key b) l ->
  StronglySorted (fun a b => key a <= key b) l' ->
  l = l'.
Proof.
  revert l'. induction l as [|x l IH]; intros l' Hnd Hperm Hs Hs'.
  - now apply Permutation_nil in Hperm.
  - destruct l' as [|y l'].
    + apply Permutation_sym, Permutation_nil in Hperm. discriminate.
    + inversion Hnd as [| ? ? Hnin Hnd']; subst.
      inversion Hs as [| ? ? Hsl Hx]; subst.
      inversion Hs' as [| ? ? Hsl' Hy]; subst.
      assert (Hxy : x = y).
      { assert (Hinx : In x (y :: l')) by (apply (Permutation_in _ Hperm); now left).
        assert (Hiny : In y (x :: l))
          by (apply (Permutation_in _ (Permutation_sym Hperm)); now left).
        destruct Hinx as [-> | Hinx]; [reflexivity|].
        destruct Hiny as [-> | Hiny]; [reflexivity|].
        rewrite Forall_forall in Hx, Hy.
        specialize (Hx y Hiny). specialize (Hy x Hinx).
        exfalso. apply Hnin. replace (key x) with (key y) by lia.
        now apply in_map. }
      subst y. f_equal. apply IH; try assumption.
      now apply Permutation_cons_inv in Hperm.
Qed.

(** X14: with distinct start dates the whole summary ignores the order. *)
Theorem summary_ignores_order ps qs :
  Permutation ps qs ->
  NoDup (map (fun p => startDate (period p)) ps) ->
  analyzeMembershipPattern ps = analyzeMembershipPattern qs.
Proof.
  intros Hperm Hnd.
  destruct ps as [|p ps].
  - apply Permutation_nil in Hperm. now subst qs.
  - destruct qs as [|q qs].
    + apply Permutation_sym, Permutation_nil in Hperm. discriminate.
    + rewrite !analyze_nonempty. cbv zeta.
      assert (Hsort : sortBy byStartDate (p :: ps) = sortBy byStartDate (q :: qs)).
      { apply (sorted_perm_unique (fun x => startDate (period x))).
        - eapply Permutation_NoDup; [|exact Hnd].
          apply Permutation_map, Permutation_sym, sortBy_perm.
        - rewrite (sortBy_perm byStartDate (p :: ps)), Hperm.
          symmetry. apply sortBy_perm.
        - apply (sortBy_sorted (fun x => startDate (period x))).
        - apply (sortBy_sorted (fun x => startDate (period x))). }
      rewrite Hsort, (Permutation_length Hperm).
      rewrite (sum_perm _ _ (Permutation_map
        (fun q0 => ceilDays (endDate (period q0) - startDate (period q0))) Hperm)).
      rewrite (sum_perm _ _ (Permutation_map
        (fun q0 => match transaction q0 with
                   | Some tx => amount tx
                   | None => 0
                   end) Hperm)).
      reflexivity.
Qed.

Lemma gapsFrom_shape i prev rest :
  Forall (fun g => 1 <= days g
                   /\ beforePeriod g = afterPeriod g + 1
                   /\ i - 1 <= afterPeriod g < i - 1 + Z.of_nat (List.length rest)
                   /\ days g = ceilDays (g_endDate g - g_startDate g)
                   /\ g_startDate g < g_endDate g)
         (gapsFrom i prev rest)
  /\ (List.length (gapsFrom i prev rest) <= List.length rest)%nat.
Proof.
  revert i prev. induction rest as [|cur rest IH]; intros i prev; cbn [gapsFrom].
  - split; [constructor | reflexivity].
  - destruct (IH (i + 1) cur) as [IHf IHl]. split.
    + apply Forall_app. split.
      * destruct (Z.ltb_spec 0 (ceilDays (startDate (period cur) - endDate (period prev))));
          constructor; [|constructor].
        cbn [days beforePeriod afterPeriod g_startDate g_endDate List.length].
        pose proof (ceilDays_spec (startDate (period cur) - endDate (period prev))).
        unfold msPerDay in *. repeat split; lia.
      * eapply Forall_impl; [|exact IHf]. cbn [List.length]. intros g. lia.
    + rewrite length_app. cbn [List.length].
      destruct (0 <? ceilDays (startDate (period cur) - endDate (period prev)));
        cbn [List.length]; lia.
Qed.

(** X15: the shape of the gap records. *)
Theorem gaps_are_positive_and_indexed periods :
  let r := analyzeMembershipPattern periods in
  Forall (fun g => 1 <= days g
                   /\ beforePeriod g = afterPeriod g + 1
                   /\ 0 <= afterPeriod g /\ beforePeriod g < totalPeriods r
                   /\ days g = ceilDays (g_endDate g - g_startDate g)
                   /\ g_startDate g < g_endDate g)
         (gaps r)
  /\ (periods <> [] -> Z.of_nat (List.length (gaps r)) <= totalPeriods r - 1).
Proof.
  cbv zeta. destruct periods as [|p ps].
  - split; [constructor | congruence].
  - rewrite analyze_nonempty. cbn [gaps totalPeriods].
    pose proof (sortBy_length byStartDate (p :: ps)) as Hlen.
    destruct (sortBy byStartDate (p :: ps)) as [|s ss] eqn:Hs.
    + cbn [List.length] in Hlen. discriminate.
    + cbn [collectGaps]. destruct (gapsFrom_shape 1 s ss) as [Hf Hl].
      cbn [List.length] in Hlen. split.
      * eapply Forall_impl; [|exact Hf]. cbn [List.length]. intros g. lia.
      * intros _. cbn [List.length]. lia.
Qed.

Import Scenarios.

Lemma totals_ignore_order_witness :
  Permutation (janFebHistory 0 2024) (rev (janFebHistory 0 2024))
  /\ totalDays (analyzeMembershipPattern (janFebHistory 0 2024))
     = totalDays (analyzeMembershipPattern (rev (janFebHistory 0 2024))).
Proof.
  assert (Hperm : Permutation (janFebHistory 0 2024) (rev (janFebHistory 0 2024)))
    by apply Permutation_rev.
  split; [exact Hperm|].
  exact (proj1 (proj2 (totals_ignore_order _ _ Hperm))).
Defined.

Lemma summary_ignores_order_witness :
  Permutation (janFebHistory 0 2024) (rev (janFebHistory 0 2024))
  /\ NoDup (map (fun p => startDate (period p)) (janFebHistory 0 2024))
  /\ analyzeMembershipPattern (janFebHistory 0 2024)
     = analyzeMembershipPattern (rev (janFebHistory 0 2024)).
Proof.
  assert (Hperm : Permutation (janFebHistory 0 2024) (rev (janFebHistory 0 2024)))
    by apply Permutation_rev.
  assert (Hnd : NoDup (map (fun p => startDate (period p)) (janFebHistory 0 2024))).
  { repeat constructor; [|intros []]. intros [H | []]. discriminate H. }
  split; [exact Hperm|]. split; [exact Hnd|].
  exact (summary_ignores_order _ _ Hperm Hnd).
Defined.

End AnalyticsMore.

(** ** The member history *)

Module HistoryFacts.
Import ListFacts Store Requests Analytics MemberRoutes.

Lemma StronglySorted_map {A B} (f : A -> B) (R : B -> B -> Prop) l :
  StronglySorted (fun a b => R (f a) (f b)) l -> StronglySorted R (map f l).
Proof.
  induction 1 as [| x l Hs IH Hx]; cbn [map]; constructor; [exact IH|].
  rewrite Forall_map. exact Hx.
Qed.

(** X16: the history answers the periods oldest first: the analysis sorts
    the array it is handed, and the answer is built from that array, so the
    descending order of the query does not reach the answer. *)
Theorem history_lists_periods_oldest_first db now id h :
  memberHistory db now id = Done 200 h ->
  StronglySorted (fun a b => startDate a <= startDate b) (map period (h_periods h))
  /\ StronglySorted (fun a b => startDate b <= startDate a)
                    (map period (findHistory db id))
  /\ Permutation (map (fun p => p_id (period p)) (h_periods h))
                 (map p_id (periodsOf db id))
  /\ Forall (fun p => status (period p) = periodStatus now (period p)) (h_periods h)
  /\ h_analytics h = analyzeMembershipPattern (findHistory db id).
Proof.
  unfold memberHistory, analyzeInPlace. destruct (findMember db id); [|discriminate].
  intros H. injection H as <-. cbn [h_periods h_analytics].
  set (answer := map _ _).
  assert (Hdesc : StronglySorted (fun a b => startDate b <= startDate a)
                    (map period (findHistory db id))).
  { apply StronglySorted_map. unfold findHistory.
    pose proof (sortBy_sorted (fun x : PeriodWithTransaction => - startDate (period x))
                  (map (fun p => {| period := p;
                                    transaction :=
                                      match transactionId p with
                                      | Some t => find (fun x => t_id x =? t) (db_transaction db)
                                      | None => None
                                      end |}) (periodsOf db id))) as Hs.
    assert (Hb : forall l, sortBy (fun a b : PeriodWithTransaction =>
                                     - startDate (period a) <=? - startDate (period b)) l
                           = sortBy byStartDateDesc l).
    { intros l. induction l as [|x l IH]; cbn [sortBy]; [reflexivity|]. rewrite IH.
      generalize (sortBy byStartDateDesc l). intros s.
      induction s as [|y s IHs]; cbn [insertSorted]; [reflexivity|].
      unfold byStartDateDesc at 1.
      destruct (Z.leb_spec (- startDate (period x)) (- startDate (period y))),
               (Z.leb_spec (startDate (period y)) (startDate (period x)));
        try lia; congruence. }
    rewrite Hb in Hs. eapply StronglySorted_ind with (P := fun l =>
      StronglySorted (fun a b => startDate (period b) <= startDate (period a)) l);
      [constructor | | exact Hs].
    intros a l Hl IH Ha. constructor; [exact IH|].
    eapply Forall_impl; [|exact Ha]. cbn beta. intros; lia. }
  assert (Hperm0 : Permutation (map (fun p => p_id (period p)) (findHistory db id))
                               (map p_id (periodsOf db id))).
  { unfold findHistory.
    rewrite (Permutation_map _ (sortBy_perm byStartDateDesc _)), map_map.
    cbn [period]. reflexivity. }
  split; [|split; [exact Hdesc|split; [|split; [|reflexivity]]]].
  - unfold answer. rewrite map_map. cbn [period].
    destruct (findHistory db id) as [|p ps]; [constructor|].
    apply (StronglySorted_map (fun x => withStatus (periodStatus now (period x)) (period x))).
    cbn [withStatus startDate].
    apply (sortBy_sorted (fun x : PeriodWithTransaction => startDate (period x))).
  - unfold answer. rewrite map_map. cbn [period withStatus p_id].
    rewrite <- Hperm0.
    destruct (findHistory db id) as [|p ps]; [reflexivity|].
    apply Permutation_map, sortBy_perm.
  - unfold answer. rewrite Forall_map. apply Forall_forall. intros p _.
    cbn [period withStatus status]. unfold periodStatus. cbn [endDate startDate].
    reflexivity.
Qed.

Import Scenarios.

Lemma history_lists_periods_oldest_first_witness :
  exists h,
    memberHistory overlapDb noonMarch1 2 = Done 200 h
    /\ StronglySorted (fun a b => startDate a <= startDate b) (map period (h_periods h))
    /\ map (fun p => p_id (period p)) (findHistory overlapDb 2) = [3; 2]
    /\ map (fun p => p_id (period p)) (h_periods h) = [2; 3].
Proof.
  eexists. split; [reflexivity|].
  split; [|split; reflexivity].
  exact (proj1 (history_lists_periods_oldest_first overlapDb noonMarch1 2 _ eq_refl)).
Defined.

End HistoryFacts.

(** ** The member list *)

Module ListingFacts.
Import ListFacts Listing.

Lemma In_pageOf {A} (rows : list A) pageNum limitNum x :
  In x (pageOf rows pageNum limitNum) -> In x rows.
Proof.
  unfold pageOf. intros H.
  set (n := Z.to_nat limitNum) in *. set (k := Z.to_nat ((pageNum - 1) * limitNum)) in *.
  rewrite <- (firstn_skipn k rows). apply in_or_app. right.
  rewrite <- (firstn_skipn n (skipn k rows)). apply in_or_app. left. exact H.
Qed.

Section Zone.
Variable tza : Z.

(** Shared: the label of a member who is not a Day Pass member. *)
Lemma listStatus_regular now member :
  String.eqb (membershipType member) "Day Pass" = false ->
  (statusWhere "expired" now member = true
   <-> listStatus tza now member = "expired"%string)
  /\ (statusWhere "expiring_soon" now member = true
      <-> listStatus tza now member = "expiring_soon"%string)
  /\ (statusWhere "active" now member = true
      <-> listStatus tza now member = "active"%string).
Proof.
  intros Hty. unfold statusWhere, listStatus. rewrite Hty. cbv zeta.
  cbn [String.eqb Ascii.eqb Bool.eqb].
  destruct (Z.ltb_spec (m_endDate member) now),
           (Z.leb_spec (m_endDate member) (now + sevenDays)),
           (Z.leb_spec now (m_endDate member)),
           (Z.ltb_spec (now + sevenDays) (m_endDate member));
    try lia; cbn [andb]; unfold sevenDays in *;
    repeat split; intros; try reflexivity; try discriminate; try lia.
Qed.

(** X17: for members who are not Day Pass members the status filter of the
    list selects exactly the members that the list labels with that status. *)
Theorem list_filter_matches_label now matching status pageNum limitNum member label :
  In (member, label) (fst (listMembers tza now matching status pageNum limitNum)) ->
  String.eqb (membershipType member) "Day Pass" = false ->
  status = "expired"%string \/ status = "expiring_soon"%string
  \/ status = "active"%string ->
  label = status
  /\ (forall other, In other matching ->
        String.eqb (membershipType other) "Day Pass" = false ->
        (statusWhere status now other = true <-> listStatus tza now other = status)).
Proof.
  intros Hin Hty Hst. split.
  - unfold listMembers in Hin. cbn [fst] in Hin. apply in_map_iff in Hin.
    destruct Hin as [m [Heq Hm]]. injection Heq as -> <-.
    apply In_pageOf in Hm.
    destruct (listStatus_regular now member Hty) as (H1 & H2 & H3).
    destruct Hst as [-> | [-> | ->]]; cbn [String.eqb Ascii.eqb Bool.eqb] in Hm;
      apply filter_In in Hm; destruct Hm as [_ Hm]; [apply H1 | apply H2 | apply H3];
      exact Hm.
  - intros other _ Ho. destruct (listStatus_regular now other Ho) as (H1 & H2 & H3).
    destruct Hst as [-> | [-> | ->]]; assumption.
Qed.
End Zone.

Lemma totalPagesOf_spec total limitNum :
  0 < limitNum ->
  limitNum * (totalPagesOf total limitNum - 1) < total
  <= limitNum * totalPagesOf total limitNum.
Proof.
  intros Hl. unfold totalPagesOf. Z.to_euclidean_division_equations. nia.
Qed.

Lemma pageOf_skip {A} (rows : list A) pageNum limitNum :
  1 <= pageNum -> 1 <= limitNum ->
  pageOf rows pageNum limitNum
  = firstn (Z.to_nat limitNum)
           (skipn (Z.to_nat (pageNum - 1) * Z.to_nat limitNum) rows).
Proof.
  intros Hp Hl. unfold pageOf. rewrite Z2Nat.inj_mul by lia. reflexivity.
Qed.

(** X18: [hasNextPage] is true exactly when the next page has a row. *)
Theorem hasNextPage_is_accurate {A} (rows : list A) pageNum limitNum :
  1 <= pageNum -> 1 <= limitNum ->
  hasNextPage (paginationOf (Z.of_nat (List.length rows)) pageNum limitNum) = true
  <-> pageOf rows (pageNum + 1) limitNum <> [].
Proof.
  intros Hp Hl. cbn [hasNextPage paginationOf]. rewrite Z.ltb_lt.
  pose proof (totalPagesOf_spec (Z.of_nat (List.length rows)) limitNum ltac:(lia)) as Ht.
  rewrite pageOf_skip by lia.
  replace (pageNum + 1 - 1) with pageNum by lia.
  assert (Hmul : (Z.to_nat pageNum * Z.to_nat limitNum)%nat
                 = Z.to_nat (pageNum * limitNum)) by (rewrite Z2Nat.inj_mul; lia).
  rewrite Hmul.
  split.
  - intros Hlt Hnil.
    assert (Hlen : List.length (firstn (Z.to_nat limitNum)
                     (skipn (Z.to_nat (pageNum * limitNum)) rows)) = 0%nat)
      by (rewrite Hnil; reflexivity).
    rewrite length_firstn, length_skipn in Hlen. nia.
  - intros Hne. destruct (Z.lt_ge_cases pageNum
                            (totalPagesOf (Z.of_nat (List.length rows)) limitNum))
      as [|Hge]; [assumption|].
    exfalso. apply Hne. rewrite skipn_all2; [now rewrite firstn_nil | nia].
Qed.

Lemma firstn_skipn_step {A} (rows : list A) (k n : nat) :
  firstn (k * n) rows ++ firstn n (skipn (k * n) rows) = firstn (S k * n) rows.
Proof.
  rewrite <- (firstn_skipn (k * n) (firstn (S k * n) rows)).
  rewrite firstn_firstn, Nat.min_l by lia. f_equal.
  rewrite skipn_firstn_comm. f_equal. lia.
Qed.

Lemma pages_prefix {A} (rows : list A) limitNum (n : nat) :
  1 <= limitNum ->
  List.concat (map (fun k => pageOf rows (Z.of_nat k + 1) limitNum) (seq 0 n))
  = firstn (n * Z.to_nat limitNum) rows.
Proof.
  intros Hl. induction n as [|n IH]; [reflexivity|].
  rewrite seq_S, map_app, concat_app, IH. cbn [map List.concat Nat.add].
  rewrite app_nil_r, pageOf_skip by lia.
  replace (Z.to_nat (Z.of_nat n + 1 - 1)) with n by lia.
  apply firstn_skipn_step.
Qed.

(** X19: the pages of a list, one after the other, are the list. *)
Theorem pages_make_up_the_list {A} (rows : list A) limitNum :
  1 <= limitNum ->
  let pages := totalPages (paginationOf (Z.of_nat (List.length rows)) 1 limitNum) in
  List.concat (map (fun k => pageOf rows (Z.of_nat k + 1) limitNum)
              (seq 0 (Z.to_nat pages)))
  = rows
  /\ (forall pageNum, pages < pageNum -> pageOf rows pageNum limitNum = [])
  /\ (forall pageNum, (List.length (pageOf rows pageNum limitNum) <= Z.to_nat limitNum)%nat).
Proof.
  intros Hl pages. unfold pages. cbn [totalPages paginationOf].
  pose proof (totalPagesOf_spec (Z.of_nat (List.length rows)) limitNum ltac:(lia)) as Ht.
  split; [|split].
  - rewrite pages_prefix by lia. apply firstn_all2. nia.
  - intros pageNum Hp. unfold pageOf. rewrite skipn_all2; [now rewrite firstn_nil | nia].
  - intros pageNum. unfold pageOf. rewrite length_firstn. lia.
Qed.

Import Scenarios RouteScenarios.

Lemma list_filter_matches_label_witness :
  In (sari, "active"%string)
     (fst (listMembers 0 noonMarch1 (db_member sariDb) "active" 1 10))
  /\ String.eqb (membershipType sari) "Day Pass" = false
  /\ listStatus 0 noonMarch1 sari = "active"%string.
Proof.
  assert (Hin : In (sari, "active"%string)
                   (fst (listMembers 0 noonMarch1 (db_member sariDb) "active" 1 10)))
    by (right; left; reflexivity).
  split; [exact Hin|]. split; [reflexivity|].
  destruct (list_filter_matches_label 0 noonMarch1 (db_member sariDb) "active" 1 10
              sari "active" Hin eq_refl (or_intror (or_intror eq_refl))) as [_ Hall].
  apply (Hall sari); [right; left; reflexivity | reflexivity | reflexivity].
Defined.

Lemma hasNextPage_is_accurate_witness :
  1 <= 1 /\ 1 <= 2
  /\ hasNextPage (paginationOf (Z.of_nat (List.length (db_member sariDb))) 1 1) = true
  /\ pageOf (db_member sariDb) 2 1 <> [].
Proof.
  split; [lia|]. split; [lia|]. split; [reflexivity|].
  apply (hasNextPage_is_accurate (db_member sariDb) 1 1); [lia | lia | reflexivity].
Defined.

Lemma pages_make_up_the_list_witness :
  1 <= 1
  /\ pageOf (db_member sariDb) 1 1 ++ pageOf (db_member sariDb) 2 1 = db_member sariDb.
Proof.
  split; [lia|].
  pose proof (proj1 (pages_make_up_the_list (db_member sariDb) 1 ltac:(lia))) as H.
  exact H.
Defined.

End ListingFacts.

(** ** The routes that write *)

Module RouteFacts.
Import JSDateFacts ListFacts TemporalPolicy TemporalFacts Store Continuity.
Import Requests MemberRoutes TransactionRoutes PublicRoutes.
Import TemporalMore CheckinMore.

Lemma findMember_some db id m :
  findMember db id = Some m -> m_id m = id /\ In m (db_member db).
Proof.
  unfold findMember. intros H. apply find_some in H. destruct H as [Hin Hid].
  split; [lia | exact Hin].
Qed.

Lemma findPackage_some db k pkg :
  findPackage db k = Some pkg -> pk_id pkg = k /\ In pkg (db_membershipPackage db).
Proof.
  unfold findPackage. intros H. apply find_some in H. destruct H as [Hin Hid].
  split; [lia | exact Hin].
Qed.

Lemma find_updateMemberRow id data rows j :
  (forall m, m_id (data m) = m_id m) ->
  find (fun m => m_id m =? j) (updateMemberRow id data rows)
  = option_map (fun m => if m_id m =? id then data m else m)
               (find (fun m => m_id m =? j) rows).
Proof.
  intros Hid. unfold updateMemberRow. induction rows as [|m rows IH]; [reflexivity|].
  cbn [map find]. destruct (m_id m =? id) eqn:E.
  - rewrite Hid. destruct (m_id m =? j); [cbn; now rewrite E | exact IH].
  - destruct (m_id m =? j); [cbn; now rewrite E | exact IH].
Qed.

Lemma periodsOf_app db db' id p :
  db_membershipPeriod db' = db_membershipPeriod db ++ [p] ->
  periodsOf db' id
  = periodsOf db id ++ (if memberId p =? id then [p] else []).
Proof.
  intros H. unfold periodsOf. rewrite H, filter_app. cbn [filter].
  destruct (memberId p =? id); reflexivity.
Qed.

Section Zone.
Variable tza : Z.
Variable paymentMethods : list Z.
Variable phoneIsUnique : bool.

(** The start of a renewal is not before the end of a period of the member,
    and its end not before its start. *)
Lemma renew_bounds db now member pkg :
  0 <= durationMonths pkg ->
  (forall p, In p (periodsOf db (m_id member)) ->
             endDate p <= fst (renew tza db now member pkg))
  /\ fst (renew tza db now member pkg) <= snd (renew tza db now member pkg).
Proof.
  intros Hd. split.
  - intros p Hp. unfold renew, renewDates.
    destruct (allPeriods_latest db (m_id member)) as [[_ He] | (f & ps & -> & Hup & _)];
      [rewrite He in Hp; destruct Hp|].
    specialize (Hup p Hp).
    pose proof (startOfDay_le tza (fold_left laterEnd (f :: ps) (endDate f))) as Hs.
    destruct (durationMonths pkg =? 0); cbn [fst].
    + rewrite startOfDay_nextDay. lia.
    + destruct (Z.ltb_spec now (fold_left laterEnd (f :: ps) (endDate f))); [|lia].
      rewrite startOfDay_nextDay. lia.
  - destruct (Z.eq_dec (durationMonths pkg) 0) as [H0 | Hn].
    + destruct (dayPass_ends_with_its_day tza db now member pkg None H0) as (E & _).
      rewrite E. unfold msPerDay. lia.
    + unfold renew, renewDates.
      destruct (Z.eqb_spec (durationMonths pkg) 0); [contradiction|]. cbn [fst snd].
      match goal with |- ?s <= addMonths _ ?s _ =>
        pose proof (addMonths_ahead tza s (durationMonths pkg) Hd) end.
      unfold msPerDay in *. lia.
Qed.

(** What a renewal that succeeds has done. *)
Lemma renewRoute_done db now id body r db' :
  renewRoute tza paymentMethods db now id body = (Done 200 r, db') ->
  exists member pkg,
    findMember db id = Some member
    /\ In pkg (db_membershipPackage db)
    /\ packageDuration (rn_transaction r) = durationMonths pkg
    /\ t_packageName (rn_transaction r) = pk_name pkg
    /\ newStartDate (renewalDetails r) = fst (renew tza db now member pkg)
    /\ newEndDate (renewalDetails r) = snd (renew tza db now member pkg)
    /\ rn_member r
       = {| m_id := m_id member; m_name := m_name member; m_phone := m_phone member;
            membershipType := pk_name pkg;
            m_startDate := newStartDate (renewalDetails r);
            m_endDate := newEndDate (renewalDetails r);
            isActive := true |}
    /\ db_member db'
       = updateMemberRow id
           (fun m => {| m_id := m_id m; m_name := m_name m; m_phone := m_phone m;
                        membershipType := pk_name pkg;
                        m_startDate := newStartDate (renewalDetails r);
                        m_endDate := newEndDate (renewalDetails r);
                        isActive := true |}) (db_member db)
    /\ db_membershipPackage db' = db_membershipPackage db
    /\ db_transaction db' = db_transaction db ++ [rn_transaction r]
    /\ t_id (rn_transaction r) = nextId t_id (db_transaction db)
    /\ t_memberId (rn_transaction r) = id
    /\ db_membershipPeriod db'
       = db_membershipPeriod db
         ++ [{| p_id := nextId p_id (db_membershipPeriod db);
                memberId := id;
                startDate := newStartDate (renewalDetails r);
                endDate := newEndDate (renewalDetails r);
                packageName := pk_name pkg;
                duration := durationMonths pkg;
                status := "active";
                transactionId := Some (t_id (rn_transaction r)) |}].
Proof.
  unfold renewRoute.
  destruct (negb (given (r_packageId body)) || negb (given (r_paymentMethodId body)));
    [discriminate|].
  destruct (findMember db id) as [member|] eqn:Hm; [|discriminate].
  destruct (findPackage db _) as [pkg|] eqn:Hp; [|discriminate].
  destruct (negb (existsb _ paymentMethods)); [discriminate|].
  destruct (findMember_some _ _ _ Hm) as [Hid _].
  destruct (findPackage_some _ _ _ Hp) as [_ Hin].
  assert (Hr : renewDates tza now member (findAllPeriods db id) pkg
               = renew tza db now member pkg) by (unfold renew; now rewrite Hid).
  rewrite Hr. destruct (renew tza db now member pkg) as [s e] eqn:Hren.
  intros H. injection H as <- <-. exists member, pkg. rewrite Hren. cbn.
  repeat split; try reflexivity; exact Hin.
Qed.

(** X20: after a renewal the member row and the ledger agree: the end date
    on the member is the latest end among the member's periods, and the
    period that ends then is the one the renewal wrote. *)
Theorem renewal_syncs_member_row db now id body r db' :
  Forall (fun k => 0 <= durationMonths k) (db_membershipPackage db) ->
  renewRoute tza paymentMethods db now id body = (Done 200 r, db') ->
  findMember db' id = Some (rn_member r)
  /\ isActive (rn_member r) = true
  /\ membershipType (rn_member r) = t_packageName (rn_transaction r)
  /\ (forall p, In p (periodsOf db' id) -> endDate p <= m_endDate (rn_member r))
  /\ (exists p, In p (periodsOf db' id)
                /\ startDate p = m_startDate (rn_member r)
                /\ endDate p = m_endDate (rn_member r)
                /\ transactionId p = Some (t_id (rn_transaction r))).
Proof.
  intros Hpk H.
  apply renewRoute_done in H.
  destruct H as (member & pkg & Hm & Hin & Hdur & Hname & Hs & He & Hrow & Hmem & _ & _ & _ & _ & Hper).
  rewrite Forall_forall in Hpk. specialize (Hpk pkg Hin).
  destruct (findMember_some _ _ _ Hm) as [Hid _].
  destruct (renew_bounds db now member pkg Hpk) as [Hup Hle]. rewrite Hid in Hup.
  rewrite (periodsOf_app db db' id _ Hper). cbn [memberId]. rewrite Z.eqb_refl.
  split; [|split; [|split; [|split]]].
  - unfold findMember. rewrite Hmem, find_updateMemberRow by reflexivity.
    fold (findMember db id). rewrite Hm. cbn [option_map].
    destruct (Z.eqb_spec (m_id member) id); [now rewrite Hrow | contradiction].
  - now rewrite Hrow.
  - rewrite Hrow, Hname. reflexivity.
  - intros p Hp. rewrite Hrow. cbn [m_endDate]. apply in_app_or in Hp.
    destruct Hp as [Hp | [<- | []]]; [|cbn; lia].
    specialize (Hup p Hp). lia.
  - eexists. split; [apply in_or_app; right; left; reflexivity|].
    rewrite Hrow. cbn. repeat split; reflexivity.
Qed.

(** X21: a renewal leaves every other member, and what they hold, as it
    was, and the rows it adds carry ids that no row had. *)
Theorem renewal_touches_only_its_member db now id body r db' :
  renewRoute tza paymentMethods db now id body = (Done 200 r, db') ->
  (forall other, other <> id ->
     findMember db' other = findMember db other
     /\ periodsOf db' other = periodsOf db other
     /\ filter (fun t => t_memberId t =? other) (db_transaction db')
        = filter (fun t => t_memberId t =? other) (db_transaction db))
  /\ List.length (db_member db') = List.length (db_member db)
  /\ db_membershipPackage db' = db_membershipPackage db
  /\ Forall (fun t => t_id t < t_id (rn_transaction r)) (db_transaction db)
  /\ (exists p, db_membershipPeriod db' = db_membershipPeriod db ++ [p]
                /\ Forall (fun q => p_id q < p_id p) (db_membershipPeriod db)).
Proof.
  intros H. apply renewRoute_done in H.
  destruct H as (member & pkg & Hm & Hin & Hdur & _ & Hs & He & Hrow & Hmem & Hpkgs
                 & Htx & Htid & Htm & Hper).
  split; [|split; [|split; [|split]]].
  - intros other Hne. split; [|split].
    + unfold findMember. rewrite Hmem, find_updateMemberRow by reflexivity.
      destruct (find (fun m => m_id m =? other) (db_member db)) as [m|] eqn:Hf;
        [|reflexivity].
      apply find_some in Hf. destruct Hf as [_ Hf]. cbn [option_map].
      destruct (Z.eqb_spec (m_id m) id); [lia | reflexivity].
    + rewrite (periodsOf_app db db' other _ Hper). cbn [memberId].
      destruct (Z.eqb_spec id other); [congruence | apply app_nil_r].
    + rewrite Htx, filter_app. cbn [filter]. rewrite Htm.
      destruct (Z.eqb_spec id other); [congruence | apply app_nil_r].
  - rewrite Hmem. unfold updateMemberRow. apply length_map.
  - exact Hpkgs.
  - rewrite Htid. apply nextId_fresh.
  - eexists. split; [exact Hper|]. cbn [p_id]. apply nextId_fresh.
Qed.

Lemma startOfDay_of_midnight s k :
  TimeWithinDay (LocalTime tza s) = 0 -> 0 <= k < msPerDay ->
  startOfDay tza (s + k) = s.
Proof.
  intros Hs Hk. rewrite startOfDay_eq. unfold MakeDate, Day, TimeWithinDay, LocalTime in *.
  unfold msPerDay in *. Z.to_euclidean_division_equations. lia.
Qed.

(** X22: day passes bought one after the other fall on consecutive days,
    whenever the second is bought. *)
Theorem dayPass_renewals_stack_by_days db now1 now2 id body1 body2 r1 r2 db1 db2 :
  renewRoute tza paymentMethods db now1 id body1 = (Done 200 r1, db1) ->
  renewRoute tza paymentMethods db1 now2 id body2 = (Done 200 r2, db2) ->
  packageDuration (rn_transaction r1) = 0 ->
  packageDuration (rn_transaction r2) = 0 ->
  newStartDate (renewalDetails r2) = newStartDate (renewalDetails r1) + msPerDay
  /\ newEndDate (renewalDetails r2) = newEndDate (renewalDetails r1) + msPerDay.
Proof.
  intros H1 H2 D1 D2.
  apply renewRoute_done in H1.
  destruct H1 as (m1 & k1 & Hm1 & Hin1 & Hdur1 & _ & Hs1 & He1 & Hrow1 & Hmem1 & _ & _ & _ & _ & Hper1).
  apply renewRoute_done in H2.
  destruct H2 as (m2 & k2 & Hm2 & Hin2 & Hdur2 & _ & Hs2 & He2 & _).
  rewrite Hdur1 in D1. rewrite Hdur2 in D2.
  destruct (findMember_some _ _ _ Hm1) as [Hid1 _].
  destruct (findMember_some _ _ _ Hm2) as [Hid2 _].
  destruct (renew_bounds db now1 m1 k1 ltac:(lia)) as [Hup1 _]. rewrite Hid1 in Hup1.
  destruct (dayPass_ends_with_its_day tza db now1 m1 k1 None D1) as (E1 & _).
  destruct (dayPass_ends_with_its_day tza db1 now2 m2 k2 None D2) as (E2 & _).
  destruct (dayPass_starts_at_midnight tza db now1 m1 k1 None D1) as (M1 & _).
  rewrite <- Hs1, <- He1 in E1. rewrite <- Hs1 in M1, Hup1.
  rewrite <- Hs2, <- He2 in E2.
  assert (Hstart : newStartDate (renewalDetails r2)
                   = newStartDate (renewalDetails r1) + msPerDay).
  { rewrite Hs2. unfold renew, renewDates. rewrite D2, Hid2. cbn [Z.eqb fst].
    pose proof (periodsOf_app db db1 id _ Hper1) as Hps. cbn [memberId] in Hps.
    rewrite Z.eqb_refl in Hps.
    destruct (allPeriods_latest db1 id) as [[_ Hnil] | (f & ps & -> & Hup & q & Hq & Hlatest)].
    - rewrite Hps in Hnil. destruct (periodsOf db id); discriminate.
    - assert (Hlast : fold_left laterEnd (f :: ps) (endDate f)
                      = newEndDate (renewalDetails r1)).
      { apply Z.le_antisymm.
        - rewrite Hlatest. rewrite Hps in Hq. apply in_app_or in Hq.
          destruct Hq as [Hq | [<- | []]]; [|cbn; lia].
          specialize (Hup1 q Hq). unfold msPerDay in *. lia.
        - match goal with |- ?e <= _ =>
            change e with (endDate {| p_id := nextId p_id (db_membershipPeriod db);
                memberId := id;
                startDate := newStartDate (renewalDetails r1);
                endDate := e;
                packageName := pk_name k1;
                duration := durationMonths k1;
                status := "active";
                transactionId := Some (t_id (rn_transaction r1)) |}) end.
          apply Hup. rewrite Hps. apply in_or_app. right. left. reflexivity. }
      rewrite Hlast, startOfDay_nextDay, E1.
      rewrite (startOfDay_of_midnight _ _ M1); unfold msPerDay; lia. }
  split; [exact Hstart | lia].
Qed.

(** X23: a request that is answered with an error has written nothing. *)
Theorem failed_request_writes_nothing paymentAccepted db now id renewBody memberBody transactionBody :
  (forall code error,
     fst (renewRoute tza paymentMethods db now id renewBody) = Failed code error ->
     snd (renewRoute tza paymentMethods db now id renewBody) = db)
  /\ (forall code error,
        fst (createMember tza phoneIsUnique db memberBody) = Failed code error ->
        snd (createMember tza phoneIsUnique db memberBody) = db)
  /\ (forall code error,
        fst (withTransaction tza phoneIsUnique paymentAccepted db now memberBody) = Failed code error ->
        snd (withTransaction tza phoneIsUnique paymentAccepted db now memberBody) = db)
  /\ (forall code error,
        fst (createTransaction tza paymentMethods db now transactionBody)
        = Failed code error ->
        snd (createTransaction tza paymentMethods db now transactionBody) = db).
Proof.
  split; [|split; [|split]]; intros code error.
  - unfold renewRoute.
    destruct (negb (given (r_packageId renewBody))
              || negb (given (r_paymentMethodId renewBody))); [reflexivity|].
    destruct (findMember db id); [|reflexivity].
    destruct (findPackage db _); [|reflexivity].
    destruct (negb (existsb _ paymentMethods)); [reflexivity|].
    destruct (renewDates _ _ _ _ _). discriminate.
  - unfold createMember.
    destruct (b_name memberBody), (membership_type memberBody),
             (start_date memberBody), (duration_months memberBody); try reflexivity.
    destruct (_ || _); [reflexivity|].
    destruct (phoneTaken _ _ _); [reflexivity | discriminate].
  - unfold withTransaction.
    destruct (b_name memberBody), (membership_type memberBody),
             (duration_months memberBody) as [n|]; try reflexivity.
    destruct (_ || _); [reflexivity|].
    destruct (negb (n =? 0) && _); [reflexivity|].
    destruct (_ || _); [reflexivity|].
    destruct (findPackage db _); [|reflexivity].
    destruct (if n =? 0 then _ else _) as [sd ed].
    assert (Hpay : forall (pmid : Z) (r : Enrollment) (db' : DB),
               fst (if negb (paymentAccepted pmid)
                    then (Failed 500 "Failed to create member with transaction", db)
                    else (Done 201 r, db')) = Failed code error ->
               snd (if negb (paymentAccepted pmid)
                    then (Failed 500 "Failed to create member with transaction", db)
                    else (Done 201 r, db')) = db).
    { intros pmid r db'. destruct (paymentAccepted pmid); [discriminate | reflexivity]. }
    destruct (phoneTaken _ _ _).
    + destruct (match b_phone memberBody with Some _ => _ | None => _ end);
        [|reflexivity].
      destruct (n =? 0); [destruct (withTransactionDayPass _ _ _ _); apply Hpay|].
      destruct (0 <? n); reflexivity.
    + destruct (match b_phone memberBody with Some _ => _ | None => _ end).
      * destruct (n =? 0); [destruct (withTransactionDayPass _ _ _ _); apply Hpay|].
        destruct (0 <? n); [reflexivity|]. apply Hpay.
      * destruct (n =? 0); [destruct (withTransactionDayPass _ _ _ _)|]; apply Hpay.
  - unfold createTransaction.
    destruct (_ || _); [reflexivity|].
    destruct (findPackage db _); [|reflexivity].
    destruct (findMember db _); [|reflexivity].
    destruct (negb (existsb _ paymentMethods)); [reflexivity|].
    destruct (transactionPeriod _ _ _). discriminate.
Qed.

(** What a recorded transaction has done. *)
Lemma createTransaction_done db now body tx db' :
  createTransaction tza paymentMethods db now body = (Done 201 tx, db') ->
  db_member db' = db_member db
  /\ db_membershipPackage db' = db_membershipPackage db
  /\ db_transaction db' = db_transaction db ++ [tx]
  /\ t_id tx = nextId t_id (db_transaction db)
  /\ (exists member, findMember db (t_memberId tx) = Some member)
  /\ db_membershipPeriod db'
     = db_membershipPeriod db
       ++ [{| p_id := nextId p_id (db_membershipPeriod db);
              memberId := t_memberId tx;
              startDate := match transactionDate body with Some d => d | None => now end;
              endDate := addMonths tza
                           (match transactionDate body with Some d => d | None => now end)
                           (packageDuration tx);
              packageName := t_packageName tx;
              duration := packageDuration tx;
              status := "active";
              transactionId := Some (t_id tx) |}].
Proof.
  unfold createTransaction.
  destruct (_ || _); [discriminate|].
  destruct (findPackage db _) as [pkg|]; [|discriminate].
  destruct (findMember db _) as [member|] eqn:Hm; [|discriminate].
  destruct (negb (existsb _ paymentMethods)); [discriminate|].
  unfold transactionPeriod. intros H. injection H as <- <-. cbn.
  repeat split; try reflexivity. exists member. exact Hm.
Qed.

(** X24: the period that comes with a recorded transaction starts at the
    transaction date; with a package of no months it is empty, where the
    other routes give a day pass its whole day. *)
Theorem transaction_period_bounds db now body tx db' :
  createTransaction tza paymentMethods db now body = (Done 201 tx, db') ->
  exists p,
    db_membershipPeriod db' = db_membershipPeriod db ++ [p]
    /\ memberId p = t_memberId tx
    /\ transactionId p = Some (t_id tx)
    /\ startDate p = match transactionDate body with Some d => d | None => now end
    /\ (packageDuration tx = 0 -> endDate p = startDate p)
    /\ (0 < packageDuration tx ->
        startDate p + 28 * packageDuration tx * msPerDay <= endDate p
        <= startDate p + 31 * packageDuration tx * msPerDay).
Proof.
  intros H. apply createTransaction_done in H.
  destruct H as (_ & _ & _ & _ & _ & Hper).
  eexists. split; [exact Hper|]. cbn [memberId transactionId startDate endDate].
  repeat split.
  - intros ->. apply addMonths_zero.
  - apply addMonths_ahead. lia.
  - apply addMonths_ahead. lia.
Qed.

Variable contains : string -> string -> bool.

(** The refusals of check-in are decided on the member and package tables. *)
Lemma checkin_refusal_rows paymentAccepted db db' now lookup createDayPass paymentMethodId code error :
  db_membershipPackage db' = db_membershipPackage db ->
  fst (checkin tza paymentAccepted db now lookup createDayPass paymentMethodId)
  = Refused code error ->
  fst (checkin tza paymentAccepted db' now lookup createDayPass paymentMethodId)
  = Refused code error.
Proof.
  intros Hpk. unfold checkin. destruct lookup as [member|]; [|exact (fun H => H)].
  destruct (negb (isActive member)); [exact (fun H => H)|].
  destruct (checkinExpired tza now member); [exact (fun H => H)|].
  destruct createDayPass; [|discriminate].
  destruct paymentMethodId as [pmid|]; [|exact (fun H => H)].
  unfold findDayPassPackage. rewrite Hpk.
  destruct (find _ (db_membershipPackage db)); [|exact (fun H => H)].
  destruct (checkinDayPass tza db now member), (checkinDayPass tza db' now member).
  cbn [t_paymentMethodId].
  destruct (paymentAccepted pmid); cbn [negb]; [discriminate | exact (fun H => H)].
Qed.

(** X25: recording a transaction does not touch the member table, so whoever
    check-in refused before the transaction it refuses after it. *)
Theorem transaction_does_not_reinstate paymentAccepted db now body tx db' :
  createTransaction tza paymentMethods db now body = (Done 201 tx, db') ->
  db_member db' = db_member db
  /\ (forall member, findMember db (t_memberId tx) = Some member ->
        findMember db' (t_memberId tx) = Some member)
  /\ (forall now' request code error,
        fst (checkinRoute tza contains paymentAccepted db now' request) = Refused code error ->
        fst (checkinRoute tza contains paymentAccepted db' now' request) = Refused code error).
Proof.
  intros H. apply createTransaction_done in H.
  destruct H as (Hmem & Hpk & _). split; [exact Hmem|]. split.
  - intros member. unfold findMember. now rewrite Hmem.
  - intros now' request code error. unfold checkinRoute.
    assert (Hl : lookupMember contains db' request = lookupMember contains db request)
      by (unfold lookupMember, findMember; now rewrite Hmem).
    rewrite Hl. destruct (lookupMember contains db request); [exact (fun H => H)|].
    apply checkin_refusal_rows, Hpk.
Qed.

Lemma endOfDay_ge t : t <= endOfDay tza t.
Proof.
  rewrite endOfDay_eq. unfold MakeDate, Day, msPerDay.
  Z.to_euclidean_division_equations. lia.
Qed.

(** X26: a member created without a transaction holds one period with the
    dates of the member row; nothing refuses a negative duration, and the
    period is well formed exactly when the duration is not negative. *)
Theorem createMember_period db body id db' n :
  createMember tza phoneIsUnique db body = (Done 201 id, db') ->
  duration_months body = Some n ->
  exists member p,
    db_member db' = db_member db ++ [member]
    /\ m_id member = id
    /\ Forall (fun m => m_id m < id) (db_member db)
    /\ db_membershipPeriod db' = db_membershipPeriod db ++ [p]
    /\ memberId p = id
    /\ startDate p = m_startDate member
    /\ endDate p = m_endDate member
    /\ transactionId p = None
    /\ db_transaction db' = db_transaction db
    /\ (wellFormed p <-> 0 <= n).
Proof.
  unfold createMember.
  destruct (b_name body) as [name|]; [|discriminate].
  destruct (membership_type body) as [type|]; [|discriminate].
  destruct (start_date body) as [start|]; [|discriminate].
  destruct (duration_months body) as [k|]; [|discriminate].
  destruct (_ || _); [discriminate|].
  destruct (phoneTaken _ _ _); [discriminate|].
  intros H Hn. injection Hn as ->. injection H as <- <-.
  eexists _, _. cbn [db_member db_membershipPeriod db_transaction].
  split; [reflexivity|]. cbn [m_id memberId startDate endDate m_startDate m_endDate
                              transactionId].
  repeat split; try reflexivity.
  - apply nextId_fresh.
  - unfold wellFormed, createMemberEnd. cbn [startDate endDate].
    destruct (Z.eqb_spec n 0) as [-> | Hne]; [lia|].
    intros Hle. destruct (Z.lt_ge_cases n 0) as [Hneg | Hpos]; [|exact Hpos].
    pose proof (addMonths_back tza start n ltac:(lia)) as Hb.
    unfold msPerDay in Hb. lia.
  - unfold wellFormed, createMemberEnd. cbn [startDate endDate]. intros Hpos.
    destruct (Z.eqb_spec n 0) as [-> | Hne]; [apply endOfDay_ge|].
    pose proof (addMonths_ahead tza start n Hpos) as Hf. unfold msPerDay in Hf. lia.
Qed.

(** X27: enrolling with the phone number of a member and a duration of one
    month or more is refused, and nothing is written. *)
Theorem withTransaction_rejects_known_phone paymentAccepted db now body phone existing n :
  b_phone body = Some phone ->
  phone <> ""%string ->
  findMemberByPhone db phone = Some existing ->
  duration_months body = Some n ->
  0 < n ->
  exists code error,
    withTransaction tza phoneIsUnique paymentAccepted db now body = (Failed code error, db)
    /\ (code = 400 \/ code = 404
        \/ (code = 409 /\ error = "Phone number already exists"%string)).
Proof.
  intros Hphone Hne Hfound Hdur Hn. unfold withTransaction. rewrite Hphone, Hdur.
  destruct (b_name body); [|eauto 6].
  destruct (membership_type body); [|eauto 6].
  destruct (_ || _); [eauto 6|].
  destruct (negb (n =? 0) && _); [eauto 6|].
  destruct (_ || _); [eauto 6|].
  destruct (findPackage db _); [|eauto 6].
  destruct (Z.eqb_spec n 0) as [-> | _]; [lia|].
  destruct (withTransactionRegular _ _ _) as [sd ed].
  destruct (String.eqb_spec phone ""); [contradiction|]. rewrite Hfound.
  destruct (Z.ltb_spec 0 n); [|lia]. eauto 8.
Qed.

(** The day pass of a member found by phone starts after the member's
    periods. *)
Lemma withTransactionDayPass_after db now member p :
  In p (periodsOf db (m_id member)) ->
  endDate p < fst (withTransactionDayPass tza db now (Some member)).
Proof.
  intros Hp. unfold withTransactionDayPass. cbn [fst].
  destruct (allPeriods_latest db (m_id member)) as [[_ He] | (f & ps & -> & Hup & _)].
  - rewrite He in Hp. destruct Hp.
  - specialize (Hup p Hp). rewrite startOfDay_nextDay.
    pose proof (startOfDay_le tza (fold_left laterEnd (f :: ps) (endDate f))). lia.
Qed.

(** X28: a day pass sold under the phone number of a member goes to that
    member: no row is added, the pass follows the member's periods, and the
    member row takes the dates and the type of the pass. *)
Theorem dayPass_for_known_phone_reuses_member paymentAccepted db now body phone existing r db' :
  b_phone body = Some phone ->
  phone <> ""%string ->
  findMemberByPhone db phone = Some existing ->
  duration_months body = Some 0 ->
  withTransaction tza phoneIsUnique paymentAccepted db now body = (Done 201 r, db') ->
  isExistingMember r = true
  /\ m_id (en_member r) = m_id existing
  /\ List.length (db_member db') = List.length (db_member db)
  /\ isActive (en_member r) = true
  /\ Some (membershipType (en_member r)) = membership_type body
  /\ m_startDate (en_member r) = startDate (en_membershipPeriod r)
  /\ m_endDate (en_member r) = endDate (en_membershipPeriod r)
  /\ endDate (en_membershipPeriod r) = startDate (en_membershipPeriod r) + 86399999
  /\ memberId (en_membershipPeriod r) = m_id existing
  /\ db_membershipPeriod db' = db_membershipPeriod db ++ [en_membershipPeriod r]
  /\ (forall p, In p (periodsOf db (m_id existing)) ->
                endDate p < startDate (en_membershipPeriod r)).
Proof.
  intros Hphone Hne Hfound Hdur. unfold withTransaction. rewrite Hphone, Hdur.
  destruct (b_name body) as [name|]; [|discriminate].
  destruct (membership_type body) as [type|]; [|discriminate].
  destruct (_ || _); [discriminate|].
  cbn [Z.eqb negb andb].
  destruct (_ || _); [discriminate|].
  destruct (findPackage db _) as [pkg|]; [|discriminate].
  destruct (String.eqb_spec phone ""); [contradiction|]. rewrite Hfound.
  set (member := {| m_id := m_id existing;
                    m_name := if String.eqb (m_name existing) name then m_name existing
                              else (m_name existing ++ " / " ++ name)%string;
                    m_phone := m_phone existing;
                    membershipType := membershipType existing;
                    m_startDate := m_startDate existing;
                    m_endDate := m_endDate existing;
                    isActive := true |}).
  pose proof (fun p => withTransactionDayPass_after db now member p) as Hafter.
  destruct (dayPass_ends_with_its_day tza db now member
              {| pk_id := 0; pk_name := ""; durationMonths := 0; price := 0 |}
              (Some member) eq_refl) as (_ & Hend & _).
  destruct (withTransactionDayPass tza db now (Some member)) as [s e].
  cbn [fst snd t_paymentMethodId] in *.
  destruct (paymentAccepted _); cbn [negb]; [|discriminate].
  intros H. injection H as <- <-. cbn.
  repeat split; try reflexivity.
  - unfold updateMemberRow. now rewrite !length_map.
  - rewrite Hend. reflexivity.
  - exact Hafter.
Qed.

(** X29: the row of a member who enrolls with a day pass keeps the instant
    of the sale as its start and its end, while the period is the whole day
    of the sale. *)
Theorem dayPass_for_new_member_dates paymentAccepted db now body r db' :
  duration_months body = Some 0 ->
  withTransaction tza phoneIsUnique paymentAccepted db now body = (Done 201 r, db') ->
  isExistingMember r = false ->
  db_member db' = db_member db ++ [en_member r]
  /\ Forall (fun m => m_id m < m_id (en_member r)) (db_member db)
  /\ m_startDate (en_member r) = now
  /\ m_endDate (en_member r) = now
  /\ memberId (en_membershipPeriod r) = m_id (en_member r)
  /\ startDate (en_membershipPeriod r) = startOfDay tza now
  /\ endDate (en_membershipPeriod r) = startOfDay tza now + 86399999
  /\ startDate (en_membershipPeriod r) <= now <= endDate (en_membershipPeriod r).
Proof.
  intros Hdur. unfold withTransaction. rewrite Hdur.
  destruct (b_name body) as [name|]; [|discriminate].
  destruct (membership_type body) as [type|]; [|discriminate].
  destruct (_ || _); [discriminate|].
  cbn [Z.eqb negb andb Z.ltb Z.compare].
  destruct (_ || _); [discriminate|].
  destruct (findPackage db _) as [pkg|]; [|discriminate].
  pose proof (startOfDay_le tza now) as Hday.
  pose proof (endOfDay_startOfDay tza now) as Hend.
  destruct (match b_phone body with Some _ => _ | None => _ end) as [existing|].
  - destruct (withTransactionDayPass _ _ _ _). cbn [t_paymentMethodId].
    destruct (paymentAccepted _); cbn [negb]; [|discriminate].
    intros H. injection H as <- _. discriminate.
  - destruct (phoneTaken _ _ _); [discriminate|].
    unfold withTransactionDayPass. cbn [t_paymentMethodId].
    destruct (paymentAccepted _); cbn [negb]; [|discriminate].
    intros H _. injection H as <- <-. cbn.
    rewrite Hend. unfold msPerDay in *.
    repeat split; try reflexivity; try lia. apply nextId_fresh.
Qed.

(** X30: editing a member rewrites the dates on the member row from the
    body and touches nothing else: the periods and transactions stay, so
    the row can say what no period says; with no months the row ends when
    it starts. *)
Theorem update_leaves_ledger db id body db' start months :
  updateMember tza phoneIsUnique db id body = (Done 200 tt, db') ->
  u_start_date body = Some start ->
  u_duration_months body = Some months ->
  db_membershipPeriod db' = db_membershipPeriod db
  /\ db_transaction db' = db_transaction db
  /\ db_membershipPackage db' = db_membershipPackage db
  /\ (exists member,
        findMember db' id = Some member
        /\ m_startDate member = start
        /\ m_endDate member = addMonths tza start months
        /\ (months = 0 -> m_endDate member = start)
        /\ (0 < months -> start + 28 * months * msPerDay <= m_endDate member)
        /\ (months < 0 -> m_endDate member < start))
  /\ (forall other, other <> id -> findMember db' other = findMember db other).
Proof.
  unfold updateMember. intros H Hs Hn. rewrite Hs, Hn in H.
  destruct (findMember db id) as [member|] eqn:Hm; [|discriminate].
  destruct (phoneOfAnother _ _ _ _); [discriminate|].
  injection H as <-. cbn [db_membershipPeriod db_transaction db_membershipPackage].
  repeat (split; [reflexivity|]).
  destruct (findMember_some _ _ _ Hm) as [Hid _]. split.
  - eexists. split.
    + unfold findMember. cbn [db_member]. rewrite find_updateMemberRow by reflexivity.
      fold (findMember db id). rewrite Hm. cbn [option_map].
      destruct (Z.eqb_spec (m_id member) id); [reflexivity | contradiction].
    + cbn [m_startDate m_endDate]. split; [reflexivity|]. split; [reflexivity|].
      split; [|split].
      * intros ->. apply addMonths_zero.
      * intros Hpos. apply addMonths_ahead. lia.
      * intros Hneg. pose proof (addMonths_back tza start months ltac:(lia)).
        unfold msPerDay in *. lia.
  - intros other Hne. unfold findMember. cbn [db_member].
    rewrite find_updateMemberRow by reflexivity.
    destruct (find (fun m => m_id m =? other) (db_member db)) as [m|] eqn:Hf;
      [|reflexivity].
    apply find_some in Hf. destruct Hf as [_ Hf]. cbn [option_map].
    destruct (Z.eqb_spec (m_id m) id); [lia | reflexivity].
Qed.

End Zone.
Import Scenarios RouteScenarios.

Lemma renewal_syncs_member_row_witness :
  Forall (fun k => 0 <= durationMonths k) (db_membershipPackage monthlyDb)
  /\ exists r db',
      renewRoute 0 cashAndTransfer monthlyDb noonMarch1 5 (renewWith monthly)
      = (Done 200 r, db')
      /\ findMember db' 5 = Some (rn_member r)
      /\ m_endDate (rn_member r) = civil 0 2024 4 21.
Proof.
  assert (Hpk : Forall (fun k => 0 <= durationMonths k) (db_membershipPackage monthlyDb))
    by (repeat constructor; discriminate).
  split; [exact Hpk|]. eexists _, _. split; [reflexivity|].
  split; [|reflexivity].
  exact (proj1 (renewal_syncs_member_row 0 cashAndTransfer monthlyDb noonMarch1 5
                  (renewWith monthly) _ _ Hpk eq_refl)).
Defined.

Lemma renewal_touches_only_its_member_witness :
  exists r db',
    renewRoute 0 cashAndTransfer sariDb noonMarch1 5 (renewWith monthly)
    = (Done 200 r, db')
    /\ findMember db' 7 = findMember sariDb 7.
Proof.
  eexists _, _. split; [reflexivity|].
  assert (Hne : 7 <> 5) by discriminate.
  exact (proj1 (proj1 (renewal_touches_only_its_member 0 cashAndTransfer sariDb
                         noonMarch1 5 (renewWith monthly) _ _ eq_refl) 7 Hne)).
Defined.

Lemma dayPass_renewals_stack_by_days_witness :
  exists r1 db1 r2 db2,
    renewRoute 0 cashAndTransfer monthlyDb noonMarch1 5 (renewWith dayPass)
    = (Done 200 r1, db1)
    /\ renewRoute 0 cashAndTransfer db1 tenPmMarch1 5 (renewWith dayPass)
       = (Done 200 r2, db2)
    /\ newStartDate (renewalDetails r1) = civil 0 2024 3 21
    /\ newStartDate (renewalDetails r2) = newStartDate (renewalDetails r1) + msPerDay.
Proof.
  eexists _, _, _, _. split; [reflexivity|]. split; [reflexivity|].
  split; [reflexivity|].
  exact (proj1 (dayPass_renewals_stack_by_days 0 cashAndTransfer monthlyDb noonMarch1
                  tenPmMarch1 5 (renewWith dayPass) (renewWith dayPass) _ _ _ _
                  eq_refl eq_refl eq_refl eq_refl)).
Defined.

Lemma transaction_period_bounds_witness :
  exists tx,
    createTransaction 0 cashAndTransfer lapsedMonthlyDb noonMarch1 (purchase 8 monthly)
    = (Done 201 tx, paidAgainDb)
    /\ exists p, db_membershipPeriod paidAgainDb
                 = db_membershipPeriod lapsedMonthlyDb ++ [p]
                 /\ startDate p = noonMarch1.
Proof.
  eexists. split; [reflexivity|].
  destruct (transaction_period_bounds 0 cashAndTransfer lapsedMonthlyDb noonMarch1
              (purchase 8 monthly) _ _ eq_refl) as (p & Hp & _ & _ & Hs & _).
  exists p. split; [exact Hp | exact Hs].
Defined.

Lemma transaction_does_not_reinstate_witness :
  exists tx,
    createTransaction 0 cashAndTransfer lapsedMonthlyDb noonMarch1 (purchase 8 monthly)
    = (Done 201 tx, paidAgainDb)
    /\ db_member paidAgainDb = db_member lapsedMonthlyDb.
Proof.
  eexists. split; [reflexivity|].
  exact (proj1 (transaction_does_not_reinstate 0 cashAndTransfer substringOf onFile
                  lapsedMonthlyDb noonMarch1 (purchase 8 monthly) _ _ eq_refl)).
Defined.

Lemma createMember_period_witness :
  exists id db',
    createMember 0 true monthlyDb
      (enrollment "Tono" None "Bulanan" (Some (civil 0 2024 3 1)) (-1) monthly)
    = (Done 201 id, db')
    /\ exists p, db_membershipPeriod db' = db_membershipPeriod monthlyDb ++ [p]
                 /\ ~ wellFormed p.
Proof.
  eexists _, _. split; [reflexivity|].
  destruct (createMember_period 0 true monthlyDb
              (enrollment "Tono" None "Bulanan" (Some (civil 0 2024 3 1)) (-1) monthly)
              _ _ (-1) eq_refl eq_refl)
    as (member & p & _ & _ & _ & Hp & _ & _ & _ & _ & _ & Hwf).
  exists p. split; [exact Hp|]. intros H. apply Hwf in H. lia.
Defined.

Lemma withTransaction_rejects_known_phone_witness :
  findMemberByPhone sariDb "0812" = Some sari
  /\ exists code error,
      withTransaction 0 true onFile sariDb noonMarch1
        (enrollment "Sari" (Some "0812"%string) "Bulanan"
                    (Some (civil 0 2024 3 1)) 1 monthly)
      = (Failed code error, sariDb)
      /\ (code = 400 \/ code = 404
          \/ (code = 409 /\ error = "Phone number already exists"%string)).
Proof.
  split; [reflexivity|].
  assert (Hne : "0812"%string <> ""%string) by discriminate.
  exact (withTransaction_rejects_known_phone 0 true onFile sariDb noonMarch1
           (enrollment "Sari" (Some "0812"%string) "Bulanan"
                       (Some (civil 0 2024 3 1)) 1 monthly)
           "0812" sari 1 eq_refl Hne eq_refl eq_refl eq_refl).
Defined.

Lemma dayPass_for_known_phone_reuses_member_witness :
  findMemberByPhone sariDb "0812" = Some sari
  /\ exists r db',
      withTransaction 0 true onFile sariDb noonMarch1
        (enrollment "Sari" (Some "0812"%string) "Day Pass" None 0 dayPass)
      = (Done 201 r, db')
      /\ startDate (en_membershipPeriod r) = civil 0 2024 3 21
      /\ isExistingMember r = true.
Proof.
  split; [reflexivity|]. eexists _, _. split; [reflexivity|].
  split; [reflexivity|].
  assert (Hne : "0812"%string <> ""%string) by discriminate.
  exact (proj1 (dayPass_for_known_phone_reuses_member 0 true onFile sariDb noonMarch1
                  (enrollment "Sari" (Some "0812"%string) "Day Pass" None 0 dayPass)
                  "0812" sari _ _ eq_refl Hne eq_refl eq_refl eq_refl)).
Defined.

Lemma dayPass_for_new_member_dates_witness :
  exists r db',
    withTransaction 0 true onFile monthlyDb noonMarch1
      (enrollment "Tono" None "Day Pass" None 0 dayPass)
    = (Done 201 r, db')
    /\ m_endDate (en_member r) = noonMarch1
    /\ endDate (en_membershipPeriod r) = civil 0 2024 3 1 + lastMs
    /\ db_member db' = db_member monthlyDb ++ [en_member r].
Proof.
  eexists _, _. split; [reflexivity|].
  split; [reflexivity|]. split; [reflexivity|].
  exact (proj1 (dayPass_for_new_member_dates 0 true onFile monthlyDb noonMarch1
                  (enrollment "Tono" None "Day Pass" None 0 dayPass)
                  _ _ eq_refl eq_refl eq_refl)).
Defined.

Lemma update_leaves_ledger_witness :
  exists db',
    updateMember 0 true monthlyDb 5 (redate (civil 0 2024 2 20) 12) = (Done 200 tt, db')
    /\ db_membershipPeriod db' = db_membershipPeriod monthlyDb
    /\ map endDate (periodsOf db' 5) = [civil 0 2024 3 20]
    /\ option_map m_endDate (findMember db' 5) = Some (civil 0 2025 2 20).
Proof.
  eexists. split; [reflexivity|].
  split; [|split; reflexivity].
  exact (proj1 (update_leaves_ledger 0 true monthlyDb 5
                  (redate (civil 0 2024 2 20) 12) _ _ _ eq_refl eq_refl eq_refl)).
Defined.

End RouteFacts.
